(** * Stats and analytics plane of the MCP registry: a shallow embedding

    The development follows the Go sources package by package:
    - [gostrings]: the functions of Go's [strings]/[strconv] the code calls;
    - [validation]: [internal/validation/db_validation.go];
    - [stats]: the stores of [extensions/stats] (cache, stats store,
      feedback store, analytics store), over one explicit [World];
    - [handlers]: the HTTP handlers of [extensions/vp/handlers].

    Integers of Go type [int] are [Z] with the 64-bit wrap-around written
    out ([wrap64]); [float64] is Rocq's primitive binary64 [float];
    a MongoDB collection is the list of its documents in natural order. *)

From Stdlib Require Import ZArith List String Ascii Bool Lia.
From Stdlib Require Import PrimFloat SpecFloat FloatOps FloatAxioms DecimalString.
From Stdlib Require Import Sorted.
From stdpp Require Import base option list gmap strings.

Local Open Scope string_scope.
Local Open Scope Z_scope.

#[local] Set Warnings "-inexact-float".

(** ** Machine integers, floats and instants *)

(** Go's [int] on a 64-bit platform: two's complement wrap-around. *)
Definition min_int : Z := - 2 ^ 63.
Definition max_int : Z := 2 ^ 63 - 1.
Definition wrap64 (z : Z) : Z := (z + 2 ^ 63) mod 2 ^ 64 - 2 ^ 63.
Definition int_add (a b : Z) : Z := wrap64 (a + b).

(** The conversion [float64(n)]: round to nearest, ties to even. *)
Definition float_of_int (n : Z) : float :=
  SF2Prim (binary_normalize 53 1024 n 0 false).

(** [time.Time] as nanoseconds since Go's zero instant; [time.Time{}] is 0. *)
Definition time : Type := Z.
Definition time_zero : time := 0.
Definition time_IsZero (t : time) : bool := t =? 0.
Definition time_After (t u : time) : bool := u <? t.

(** Go's [error] values that the modelled code creates or tests for.
    [Errorf] stands for [fmt.Errorf(msg ++ ": %w", cause)] and for
    [errors.New(msg)]; only the message prefix is kept. *)
Inductive error : Type :=
| ErrNoDocuments          (* mongo.ErrNoDocuments *)
| ErrDuplicateKey         (* a write rejected by a unique index *)
| ErrNotStorable          (* a write rejected for a [$]-prefixed field name *)
| ErrDecode               (* a BSON document that does not fit the Go struct *)
| ErrDuplicateFeedback
| ErrFeedbackNotFound
| ErrUnauthorized
| Errorf (msg : string).

Definition is_ErrNoDocuments (e : error) : bool :=
  match e with ErrNoDocuments => true | _ => false end.
Definition is_ErrFeedbackNotFound (e : error) : bool :=
  match e with ErrFeedbackNotFound => true | _ => false end.
Definition is_ErrDuplicateFeedback (e : error) : bool :=
  match e with ErrDuplicateFeedback => true | _ => false end.
Definition IsDuplicateKeyError (e : error) : bool :=
  match e with ErrDuplicateKey => true | _ => false end.

(** ** Go's [strings] and [strconv] *)

Module gostrings.

Definition bytes (s : string) : list ascii := list_ascii_of_string s.
Definition of_bytes (l : list ascii) : string := string_of_list_ascii l.

Definition rune (bs : list nat) : list ascii := map ascii_of_nat bs.

(** The UTF-8 encodings of the code points with Unicode's White_Space
    property, which is what [unicode.IsSpace] tests. *)
Definition white_space : list (list ascii) :=
  [ rune [9%nat]; rune [10%nat]; rune [11%nat]; rune [12%nat]; rune [13%nat];
    rune [32%nat];
    rune [194; 133]%nat; rune [194; 160]%nat; rune [225; 154; 128]%nat;
    rune [226; 128; 128]%nat; rune [226; 128; 129]%nat; rune [226; 128; 130]%nat;
    rune [226; 128; 131]%nat; rune [226; 128; 132]%nat; rune [226; 128; 133]%nat;
    rune [226; 128; 134]%nat; rune [226; 128; 135]%nat; rune [226; 128; 136]%nat;
    rune [226; 128; 137]%nat; rune [226; 128; 138]%nat;
    rune [226; 128; 168]%nat; rune [226; 128; 169]%nat; rune [226; 128; 175]%nat;
    rune [226; 129; 159]%nat; rune [227; 128; 128]%nat ].

Definition ascii_eqb (a b : ascii) : bool := Ascii.eqb a b.

Fixpoint strip_prefix (p l : list ascii) : option (list ascii) :=
  match p, l with
  | [], _ => Some l
  | _ :: _, [] => None
  | a :: p', b :: l' => if ascii_eqb a b then strip_prefix p' l' else None
  end.

Fixpoint strip_any (ps : list (list ascii)) (l : list ascii) : option (list ascii) :=
  match ps with
  | [] => None
  | p :: ps' =>
      match strip_prefix p l with
      | Some l' => Some l'
      | None => strip_any ps' l
      end
  end.

Fixpoint trim_left (ps : list (list ascii)) (fuel : nat) (l : list ascii) : list ascii :=
  match fuel with
  | O => l
  | S fuel' =>
      match strip_any ps l with
      | Some l' => trim_left ps fuel' l'
      | None => l
      end
  end.

Definition TrimSpace (s : string) : string :=
  let l := bytes s in
  let l1 := trim_left white_space (List.length l) l in
  let r := rev l1 in
  of_bytes (rev (trim_left (map (@rev ascii) white_space) (List.length r) r)).

Definition HasPrefix (s p : string) : bool :=
  match strip_prefix (bytes p) (bytes s) with Some _ => true | None => false end.

Definition TrimPrefix (s p : string) : string :=
  match strip_prefix (bytes p) (bytes s) with
  | Some rest => of_bytes rest
  | None => s
  end.

(** [strings.Split(s, sep)] for a one-byte separator. *)
Fixpoint split_bytes (sep : ascii) (cur : list ascii) (l : list ascii) : list string :=
  match l with
  | [] => [of_bytes (rev cur)]
  | c :: l' =>
      if ascii_eqb c sep then of_bytes (rev cur) :: split_bytes sep [] l'
      else split_bytes sep (c :: cur) l'
  end.

Definition Split (s : string) (sep : ascii) : list string :=
  split_bytes sep [] (bytes s).

Definition in_range (lo hi : nat) (c : ascii) : bool :=
  let n := nat_of_ascii c in (Nat.leb lo n && Nat.leb n hi)%bool.
Definition is_digit (c : ascii) : bool := in_range 48 57 c.
Definition is_upper (c : ascii) : bool := in_range 65 90 c.
Definition is_lower (c : ascii) : bool := in_range 97 122 c.

Definition lower_byte (c : ascii) : ascii :=
  if is_upper c then ascii_of_nat (nat_of_ascii c + 32) else c.

(** [strings.ToLower]; the code applies it to ASCII text only. *)
Definition ToLower (s : string) : string := of_bytes (map lower_byte (bytes s)).

(** [strconv.Atoi]: an optional sign followed by decimal digits, within
    the range of [int]. *)
Fixpoint digits_value (acc : Z) (l : list ascii) : option Z :=
  match l with
  | [] => Some acc
  | c :: l' =>
      if is_digit c
      then digits_value (10 * acc + Z.of_nat (nat_of_ascii c - 48)) l'
      else None
  end.

Definition Atoi (s : string) : option Z :=
  let parse (neg : bool) (ds : list ascii) : option Z :=
    match ds with
    | [] => None
    | _ :: _ =>
        match digits_value 0 ds with
        | Some v =>
            let n := if neg then - v else v in
            if ((min_int <=? n) && (n <=? max_int))%bool then Some n else None
        | None => None
        end
    end in
  match bytes s with
  | [] => None
  | c :: rest =>
      if ascii_eqb c "-"%char then parse true rest
      else if ascii_eqb c "+"%char then parse false rest
      else parse false (c :: rest)
  end.

(** The verb [%d] of [fmt.Sprintf]. *)
Definition Itoa (n : Z) : string := NilZero.string_of_int (Z.to_int n).

(** [strings.Contains], [strings.HasSuffix] and [strings.TrimSuffix]. *)
Fixpoint contains_bytes (sub l : list ascii) : bool :=
  match strip_prefix sub l with
  | Some _ => true
  | None =>
      match l with
      | [] => false
      | _ :: l' => contains_bytes sub l'
      end
  end.

Definition Contains (s substr : string) : bool := contains_bytes (bytes substr) (bytes s).

Definition HasSuffix (s suffix : string) : bool :=
  match strip_prefix (rev (bytes suffix)) (rev (bytes s)) with Some _ => true | None => false end.

Definition TrimSuffix (s suffix : string) : string :=
  match strip_prefix (rev (bytes suffix)) (rev (bytes s)) with
  | Some rest => of_bytes (rev rest)
  | None => s
  end.

End gostrings.

(** A Go function result [(T, error)]. *)
Inductive result (A : Type) : Type :=
| Ok (a : A)
| Err (e : error).
Arguments Ok {A} a.
Arguments Err {A} e.

(** ** [internal/validation] *)

Module validation.
Import gostrings.

(** [AllowedSourceValues]; a key that is absent from a Go map reads [false]. *)
Definition AllowedSourceValues (s : string) : bool :=
  (String.eqb s "REGISTRY" || String.eqb s "COMMUNITY"
   || String.eqb s "ALL" || String.eqb s "")%bool.

(** The pattern [^[A-Z]+$], and the empty string. *)
Definition isAlphanumeric (s : string) : bool :=
  if String.eqb s "" then true else forallb is_upper (bytes s).

Definition ValidateSource (source : string) : result string :=
  let source := TrimSpace source in
  if negb (AllowedSourceValues source) then Err (Errorf "invalid source value")
  else if (negb (isAlphanumeric source) && negb (String.eqb source ""))%bool
       then Err (Errorf "source contains invalid characters")
       else Ok source.

Definition is_hex (c : ascii) : bool :=
  (is_digit c || in_range 97 102 c || in_range 65 70 c)%bool.

(** [^[0-9a-fA-F]{8}-[0-9a-fA-F]{4}-[0-9a-fA-F]{4}-[0-9a-fA-F]{4}-[0-9a-fA-F]{12}$] *)
Fixpoint uuid_from (i : nat) (l : list ascii) : bool :=
  match l with
  | [] => Nat.eqb i 36
  | c :: l' =>
      (Nat.ltb i 36
       && (if (Nat.eqb i 8 || Nat.eqb i 13 || Nat.eqb i 18 || Nat.eqb i 23)%bool
           then ascii_eqb c "-"%char else is_hex c)
       && uuid_from (S i) l')%bool
  end.
Definition uuidPattern (s : string) : bool := uuid_from 0 (bytes s).

(** [^[a-zA-Z0-9][a-zA-Z0-9._-]{0,254}$] *)
Definition is_alnum (c : ascii) : bool := (is_lower c || is_upper c || is_digit c)%bool.
Definition is_id_byte (c : ascii) : bool :=
  (is_alnum c || ascii_eqb c "."%char || ascii_eqb c "_"%char || ascii_eqb c "-"%char)%bool.
Definition idPattern (s : string) : bool :=
  match bytes s with
  | [] => false
  | c :: rest => (is_alnum c && Nat.leb (List.length rest) 254 && forallb is_id_byte rest)%bool
  end.

Definition SanitizeID (id : string) : result string :=
  let id := TrimSpace id in
  if String.eqb id "" then Err (Errorf "ID cannot be empty")
  else if uuidPattern id then Ok (ToLower id)
  else if negb (idPattern id) then Err (Errorf "ID contains invalid characters or format")
  else Ok id.

Definition SanitizeServerID (serverID : string) : result string := SanitizeID serverID.

Definition ValidateLimit (limit : Z) : result Z :=
  if limit <? 1 then Err (Errorf "limit must be at least 1")
  else if 1000 <? limit then Err (Errorf "limit cannot exceed 1000")
  else Ok limit.

(** [CreateSafeFilter]: [None] is the empty filter, [Some s] is [{source: s}]. *)
Definition CreateSafeFilter (source : string) : result (option string) :=
  match ValidateSource source with
  | Err e => Err e
  | Ok validatedSource =>
      if (negb (String.eqb validatedSource "") && negb (String.eqb validatedSource "ALL"))%bool
      then Ok (Some validatedSource)
      else Ok None
  end.

End validation.

(** ** Data model ([extensions/stats/model.go] and the feedback and
    analytics models) *)

Definition SourceRegistry : string := "REGISTRY".
Definition SourceCommunity : string := "COMMUNITY".

Module ServerStats.
Record t : Type := mk {
  ServerID : string;
  Source : string;
  InstallationCount : Z;
  Rating : float;
  RatingCount : Z;
  FirstSeen : time;
  LastUpdated : time;
  ActiveInstalls : Z;
  DailyActiveUsers : Z;
  MonthlyActiveUsers : Z;
  ClaimedFrom : string;
  ClaimedAt : time }.
(** The zero value [ServerStats{}]. *)
Definition zero : t := mk "" "" 0 0%float 0 0 0 0 0 0 "" 0.
End ServerStats.

Module StatsUpdateRequest.
Record t : Type := mk {
  InstallationDelta : Z;
  ActiveInstalls : Z;
  DailyActiveUsers : Z;
  MonthlyActiveUsers : Z;
  LastUpdated : time }.
End StatsUpdateRequest.

Module AggregatedStats.
Record t : Type := mk {
  ServerID : string;
  TotalInstalls : Z;
  AverageRating : float;
  TotalRatingCount : Z;
  SourceBreakdown : gmap string ServerStats.t;
  LastUpdated : time }.
End AggregatedStats.

Module InstallRequest.
Record t : Type := mk {
  Source : string;
  UserID : string;
  Version : string;
  Platform : string;
  Timestamp : Z }.
End InstallRequest.

Module ServerFeedback.
Record t : Type := mk {
  ID : string;
  ServerID : string;
  Source : string;
  UserID : string;
  Rating : float;
  Comment : string;
  CreatedAt : time;
  UpdatedAt : time;
  IsPublic : bool;
  Username : string;      (* bson:"-" *)
  UserAvatar : string }.  (* bson:"-" *)
End ServerFeedback.

Module FeedbackResponse.
Record t : Type := mk {
  Feedback : list ServerFeedback.t;
  TotalCount : Z;
  HasMore : bool }.
End FeedbackResponse.

Inductive FeedbackSortOrder : Type :=
| FeedbackSortNewest | FeedbackSortOldest | FeedbackSortRatingHigh | FeedbackSortRatingLow.

(** The string value of a [FeedbackSortOrder] constant. *)
Definition FeedbackSortOrder_string (s : FeedbackSortOrder) : string :=
  match s with
  | FeedbackSortNewest => "newest"
  | FeedbackSortOldest => "oldest"
  | FeedbackSortRatingHigh => "rating_high"
  | FeedbackSortRatingLow => "rating_low"
  end.

Module RatingRequest.
Record t : Type := mk {
  Rating : float;
  Comment : string;
  Source : string;
  UserID : string;
  Timestamp : string }.
End RatingRequest.

Module FeedbackUpdateRequest.
Record t : Type := mk {
  Rating : float;
  Comment : string;
  UserID : string }.
End FeedbackUpdateRequest.

(** BSON values, as far as the analytics store writes them. *)
#[warnings="-register-all"]
Inductive bson : Type :=
| BInt (n : Z)
| BDouble (f : float)
| BString (s : string)
| BTime (t : time)
| BDoc (fields : list (string * bson)).

Module ActivityEvent.
Record t : Type := mk {
  ID : string;
  Type_ : string;          (* field [Type] *)
  ServerID : string;
  ServerName : string;
  UserID : string;
  Value : option bson;
  Metadata : list (string * bson);
  Timestamp : time }.
End ActivityEvent.

(** Modelled from the spec: the base registry's catalog entry
    ([internal/model.Server], not among the sources). The stats plane
    "only references them by [server_id]"; the handlers read its [ID]. *)
Module Server.
Record t : Type := mk {
  ID : string;
  Name : string;
  Description : string }.
End Server.

(** [extensions/vp/model/extended_server.go] *)
Module ExtendedServer.
Record t : Type := mk {
  Server_ : Server.t;      (* the embedded [*model.Server] *)
  InstallationCount : Z;
  Rating : float;
  RatingCount : Z;
  ActiveInstalls : Z;
  WeeklyGrowth : float }.
End ExtendedServer.

Definition NewExtendedServer (server : Server.t) (stats : option ServerStats.t)
  : ExtendedServer.t :=
  match stats with
  | Some st =>
      ExtendedServer.mk server (ServerStats.InstallationCount st) (ServerStats.Rating st)
        (ServerStats.RatingCount st) (ServerStats.ActiveInstalls st) 0%float
  | None => ExtendedServer.mk server 0 0%float 0 0 0%float
  end.

Definition NewExtendedServers (servers : list Server.t)
    (statsMap : gmap string ServerStats.t) : list ExtendedServer.t :=
  map (fun server => NewExtendedServer server (statsMap !! Server.ID server)) servers.

(** ** Documents of the collection [server_stats]

    A field that a document lacks is [None]. [server_id] is a string in
    every document the stats store writes through a string filter; a
    filter built from an [int] stores an integer there. [weekly_growth]
    is read by [GetTrending] and written by no code of this package. *)

Inductive bson_key : Type :=
| KString (s : string)
| KInt (n : Z).

Definition bson_key_eqb (a b : bson_key) : bool :=
  match a, b with
  | KString x, KString y => String.eqb x y
  | KInt x, KInt y => x =? y
  | _, _ => false
  end.

Module doc.
Record t : Type := mk {
  server_id : bson_key;
  source : option string;
  installation_count : option Z;
  rating : option float;
  rating_count : option Z;
  first_seen : option time;
  last_updated : option time;
  active_installs : option Z;
  daily_active_users : option Z;
  monthly_active_users : option Z;
  weekly_growth : option float;
  claimed_from : option string;
  claimed_at : option time;
  claimed_to : option string }.

(** The document an upsert starts from: the equality fields of its filter. *)
Definition of_filter (id : bson_key) (src : option string) : t :=
  mk id src None None None None None None None None None None None None.
End doc.

(** ** The process state

    One [World] holds everything the handlers share: the wall clock, the
    supply of generated identifiers, the cache, the stats store's mutex
    and the collections. [dollar_fields_storable] records whether the
    database server accepts a [$]-prefixed field name inside a stored
    value (MongoDB 5.0 and later) or rejects the write (earlier).
    The clock does not move while one operation runs: every
    [time.Now()] of an operation reads the same instant, and time passes
    between operations ([advance]). *)

Record RWMutex : Type := mkRWMutex {
  writer : bool;
  readers : nat }.

Definition unlocked : RWMutex := mkRWMutex false 0.

(** The values handlers put in the cache (Go's [interface{}]). *)
Inductive payload : Type :=
| CachedFeedback (r : FeedbackResponse.t)
| CachedTrending (limit : Z) (servers : list ExtendedServer.t).

Record cacheEntry : Type := mkCacheEntry {
  data : payload;
  expiresAt : time }.

Record World : Type := mkWorld {
  now : time;
  next_id : nat;
  ttl : Z;
  cache : gmap string cacheEntry;
  mu : RWMutex;
  server_stats : list doc.t;
  server_feedback : list ServerFeedback.t;
  analytics_metrics : gmap string (gmap string bson);
  activity_events : list ActivityEvent.t;
  dollar_fields_storable : bool;
  catalog : list Server.t }.

Definition set_next_id (n : nat) (w : World) : World :=
  mkWorld (now w) n (ttl w) (cache w) (mu w) (server_stats w) (server_feedback w)
    (analytics_metrics w) (activity_events w) (dollar_fields_storable w) (catalog w).
Definition set_cache (c : gmap string cacheEntry) (w : World) : World :=
  mkWorld (now w) (next_id w) (ttl w) c (mu w) (server_stats w) (server_feedback w)
    (analytics_metrics w) (activity_events w) (dollar_fields_storable w) (catalog w).
Definition set_mu (m : RWMutex) (w : World) : World :=
  mkWorld (now w) (next_id w) (ttl w) (cache w) m (server_stats w) (server_feedback w)
    (analytics_metrics w) (activity_events w) (dollar_fields_storable w) (catalog w).
Definition set_server_stats (c : list doc.t) (w : World) : World :=
  mkWorld (now w) (next_id w) (ttl w) (cache w) (mu w) c (server_feedback w)
    (analytics_metrics w) (activity_events w) (dollar_fields_storable w) (catalog w).
Definition set_server_feedback (c : list ServerFeedback.t) (w : World) : World :=
  mkWorld (now w) (next_id w) (ttl w) (cache w) (mu w) (server_stats w) c
    (analytics_metrics w) (activity_events w) (dollar_fields_storable w) (catalog w).
Definition set_analytics_metrics (c : gmap string (gmap string bson)) (w : World) : World :=
  mkWorld (now w) (next_id w) (ttl w) (cache w) (mu w) (server_stats w) (server_feedback w)
    c (activity_events w) (dollar_fields_storable w) (catalog w).
Definition set_activity_events (c : list ActivityEvent.t) (w : World) : World :=
  mkWorld (now w) (next_id w) (ttl w) (cache w) (mu w) (server_stats w) (server_feedback w)
    (analytics_metrics w) c (dollar_fields_storable w) (catalog w).
(** Time passing between two requests. *)
Definition advance (d : Z) (w : World) : World :=
  mkWorld (now w + d) (next_id w) (ttl w) (cache w) (mu w) (server_stats w) (server_feedback w)
    (analytics_metrics w) (activity_events w) (dollar_fields_storable w) (catalog w).

(** A call either returns a value in a new state, or blocks: the
    goroutine waits for a lock that nothing will ever release, so the
    call never returns. *)
Inductive outcome (A : Type) : Type :=
| Returns (a : A) (w : World)
| Blocks (w : World).
Arguments Returns {A} a w.
Arguments Blocks {A} w.

Definition M (A : Type) : Type := World -> outcome A.

#[global] Instance M_ret : MRet M := fun A a w => Returns a w.
#[global] Instance M_bind : MBind M := fun A B f m w =>
  match m w with
  | Returns a w' => f a w'
  | Blocks w' => Blocks w'
  end.

Definition get : M World := fun w => Returns w w.
Definition modify (f : World -> World) : M unit := fun w => Returns tt (f w).
Definition time_Now : M time := fun w => Returns (now w) w.

(** [uuid.New().String()] and [primitive.NewObjectID().Hex()]: a fresh
    identifier each call. *)
Definition fresh_id (prefix : string) : M string := fun w =>
  Returns (prefix +:+ gostrings.Itoa (Z.of_nat (next_id w))) (set_next_id (S (next_id w)) w).

(** [sync.RWMutex]. A goroutine that asks for a lock it cannot get is
    parked; with the holder being the very goroutine that asks, for good. *)
Definition Lock : M unit := fun w =>
  if (writer (mu w) || negb (Nat.eqb (readers (mu w)) 0))%bool then Blocks w
  else Returns tt (set_mu (mkRWMutex true 0) w).
Definition Unlock : M unit := fun w =>
  Returns tt (set_mu (mkRWMutex false (readers (mu w))) w).
Definition RLock : M unit := fun w =>
  if writer (mu w) then Blocks w
  else Returns tt (set_mu (mkRWMutex false (S (readers (mu w)))) w).
Definition RUnlock : M unit := fun w =>
  Returns tt (set_mu (mkRWMutex (writer (mu w)) (Nat.pred (readers (mu w)))) w).

(** [db.mu.Lock(); defer db.mu.Unlock(); body] *)
Definition with_Lock {A : Type} (body : M A) : M A :=
  _ ← Lock; r ← body; _ ← Unlock; mret r.
(** [db.mu.RLock(); defer db.mu.RUnlock(); body] *)
Definition with_RLock {A : Type} (body : M A) : M A :=
  _ ← RLock; r ← body; _ ← RUnlock; mret r.

(** ** [CacheService] (an in-memory map with one time-to-live)

    Every method holds the cache's own mutex for its whole body and calls
    nothing else, so each is one atomic step here. *)

Module CacheService.

Definition Get (key : string) : M (option payload) := fun w =>
  match cache w !! key with
  | Some entry =>
      if time_After (now w) (expiresAt entry) then Returns None w
      else Returns (Some (data entry)) w
  | None => Returns None w
  end.

Definition Set_ (key : string) (value : payload) : M unit := fun w =>
  Returns tt (set_cache (<[key := mkCacheEntry value (now w + ttl w)]> (cache w)) w).

Definition Delete (key : string) : M unit := fun w =>
  Returns tt (set_cache (delete key (cache w)) w).

(** One tick of the loop of [cleanup]: every entry that has expired at
    the tick is removed. *)
Definition cleanup_tick : M unit := fun w =>
  Returns tt
    (set_cache
       (filter (fun kv : string * cacheEntry => time_After (now w) (expiresAt kv.2) = false)
          (cache w)) w).

End CacheService.

(** ** [MongoDatabase]: the stats store ([extensions/stats/database.go]) *)

Module MongoDatabase.

Definition option_string_eqb (a b : option string) : bool :=
  match a, b with
  | Some x, Some y => String.eqb x y
  | None, None => true
  | _, _ => false
  end.

(** The unique compound index on [(server_id, source)]. *)
Definition same_key (a b : doc.t) : bool :=
  (bson_key_eqb (doc.server_id a) (doc.server_id b)
   && option_string_eqb (doc.source a) (doc.source b))%bool.

Definition violates_unique (d : doc.t) (others : list doc.t) : bool :=
  existsb (same_key d) others.

Fixpoint replace_first (p : doc.t -> bool) (f : doc.t -> doc.t) (l : list doc.t) : list doc.t :=
  match l with
  | [] => []
  | d :: l' => if p d then f d :: l' else d :: replace_first p f l'
  end.

Fixpoint remove_first (p : doc.t -> bool) (l : list doc.t) : list doc.t :=
  match l with
  | [] => []
  | d :: l' => if p d then l' else d :: remove_first p l'
  end.

(** [collection.UpdateOne(ctx, filter, update, opts)]: the first document
    the filter matches is updated; with none and [SetUpsert(true)],
    [ins] (the filter's equality fields with the update applied) is
    inserted; a write that would break the unique index is rejected. *)
Definition UpdateOne (flt : doc.t -> bool) (upd : doc.t -> doc.t) (ins : option doc.t)
    (coll : list doc.t) : result (list doc.t) :=
  match List.find flt coll with
  | Some d =>
      if violates_unique (upd d) (remove_first flt coll) then Err ErrDuplicateKey
      else Ok (replace_first flt upd coll)
  | None =>
      match ins with
      | Some d' =>
          if violates_unique d' coll then Err ErrDuplicateKey else Ok (coll ++ [d'])%list
      | None => Ok coll
      end
  end.

(** The filter [{server_id: id, source: src}]. *)
Definition by_id_source (id src : string) (d : doc.t) : bool :=
  (bson_key_eqb (doc.server_id d) (KString id)
   && option_string_eqb (doc.source d) (Some src))%bool.

(** The filter [{server_id: k}]. *)
Definition by_id (k : bson_key) (d : doc.t) : bool :=
  bson_key_eqb (doc.server_id d) k.

(** Decoding a document into a zero [ServerStats]: absent fields stay
    zero; an integer under [server_id] does not fit the string field. *)
Definition Decode (d : doc.t) : result ServerStats.t :=
  match doc.server_id d with
  | KInt _ => Err ErrDecode
  | KString id =>
      Ok (ServerStats.mk id
            (default "" (doc.source d))
            (default 0 (doc.installation_count d))
            (default 0%float (doc.rating d))
            (default 0 (doc.rating_count d))
            (default time_zero (doc.first_seen d))
            (default time_zero (doc.last_updated d))
            (default 0 (doc.active_installs d))
            (default 0 (doc.daily_active_users d))
            (default 0 (doc.monthly_active_users d))
            (default "" (doc.claimed_from d))
            (default time_zero (doc.claimed_at d)))
  end.

(** [collection.FindOne(ctx, filter).Decode(&v)] *)
Definition FindOne_Decode (flt : doc.t -> bool) (coll : list doc.t) : result ServerStats.t :=
  match List.find flt coll with
  | None => Err ErrNoDocuments
  | Some d => Decode d
  end.

Definition omitempty_int (v : Z) (old : option Z) : option Z :=
  if v =? 0 then old else Some v.
Definition omitempty_string (v : string) (old : option string) : option string :=
  if String.eqb v "" then old else Some v.
Definition omitempty_time (v : time) (old : option time) : option time :=
  if time_IsZero v then old else Some v.

(** The update [{"$set": stats}] for a [ServerStats] value: every field
    of the struct is set, except the [omitempty] ones holding a zero. *)
Definition set_stats (st : ServerStats.t) (d : doc.t) : doc.t :=
  doc.mk (KString (ServerStats.ServerID st))
    (Some (ServerStats.Source st))
    (Some (ServerStats.InstallationCount st))
    (Some (ServerStats.Rating st))
    (Some (ServerStats.RatingCount st))
    (Some (ServerStats.FirstSeen st))
    (Some (ServerStats.LastUpdated st))
    (omitempty_int (ServerStats.ActiveInstalls st) (doc.active_installs d))
    (omitempty_int (ServerStats.DailyActiveUsers st) (doc.daily_active_users d))
    (omitempty_int (ServerStats.MonthlyActiveUsers st) (doc.monthly_active_users d))
    (doc.weekly_growth d)
    (omitempty_string (ServerStats.ClaimedFrom st) (doc.claimed_from d))
    (omitempty_time (ServerStats.ClaimedAt st) (doc.claimed_at d))
    (doc.claimed_to d).

Definition GetStats (serverID source : string) : M (result ServerStats.t) :=
  with_RLock
    match validation.SanitizeServerID serverID with
    | Err _ => mret (Err (Errorf "invalid server ID"))
    | Ok sanitizedServerID =>
        let source := if String.eqb source "" then SourceRegistry else source in
        match validation.ValidateSource source with
        | Err _ => mret (Err (Errorf "invalid source parameter"))
        | Ok validatedSource =>
            w ← get;
            match FindOne_Decode (by_id_source sanitizedServerID validatedSource)
                    (server_stats w) with
            | Err e =>
                if is_ErrNoDocuments e then
                  now ← time_Now;
                  mret (Ok (ServerStats.mk sanitizedServerID validatedSource 0 0%float 0
                              now now 0 0 0 "" time_zero))
                else mret (Err (Errorf "failed to get stats"))
            | Ok stats => mret (Ok stats)
            end
        end
    end.

(** [UpsertStats] also writes [Source] and [LastUpdated] through its
    pointer argument; no caller reads them afterwards. *)
Definition UpsertStats (stats : ServerStats.t) : M (option error) :=
  with_Lock
    (let source := if String.eqb (ServerStats.Source stats) "" then SourceRegistry
                   else ServerStats.Source stats in
     now ← time_Now;
     let stats :=
       ServerStats.mk (ServerStats.ServerID stats) source
         (ServerStats.InstallationCount stats) (ServerStats.Rating stats)
         (ServerStats.RatingCount stats) (ServerStats.FirstSeen stats) now
         (ServerStats.ActiveInstalls stats) (ServerStats.DailyActiveUsers stats)
         (ServerStats.MonthlyActiveUsers stats) (ServerStats.ClaimedFrom stats)
         (ServerStats.ClaimedAt stats) in
     w ← get;
     match UpdateOne (by_id_source (ServerStats.ServerID stats) (ServerStats.Source stats))
             (set_stats stats)
             (Some (set_stats stats
                      (doc.of_filter (KString (ServerStats.ServerID stats))
                         (Some (ServerStats.Source stats)))))
             (server_stats w) with
     | Err _ => mret (Some (Errorf "failed to upsert stats"))
     | Ok coll => _ ← modify (set_server_stats coll); mret None
     end).

(** The update of [UpdateRating]: [$set] of [rating], [rating_count],
    [last_updated], [source]; [$setOnInsert] of [first_seen]. *)
Definition set_rating (newAvgRating : float) (newRatingCount : Z) (now : time)
    (source : string) (d : doc.t) : doc.t :=
  doc.mk (doc.server_id d) (Some source) (doc.installation_count d)
    (Some newAvgRating) (Some newRatingCount) (doc.first_seen d) (Some now)
    (doc.active_installs d) (doc.daily_active_users d) (doc.monthly_active_users d)
    (doc.weekly_growth d) (doc.claimed_from d) (doc.claimed_at d) (doc.claimed_to d).

Definition set_first_seen (now : time) (d : doc.t) : doc.t :=
  doc.mk (doc.server_id d) (doc.source d) (doc.installation_count d)
    (doc.rating d) (doc.rating_count d) (Some now) (doc.last_updated d)
    (doc.active_installs d) (doc.daily_active_users d) (doc.monthly_active_users d)
    (doc.weekly_growth d) (doc.claimed_from d) (doc.claimed_at d) (doc.claimed_to d).

Definition UpdateRating (serverID source : string) (newRating : float) : M (option error) :=
  with_Lock
    match validation.SanitizeServerID serverID with
    | Err _ => mret (Some (Errorf "invalid server ID"))
    | Ok sanitizedServerID =>
        let source := if String.eqb source "" then SourceRegistry else source in
        match validation.ValidateSource source with
        | Err _ => mret (Some (Errorf "invalid source parameter"))
        | Ok validatedSource =>
            w ← get;
            let filter := by_id_source sanitizedServerID validatedSource in
            match
              match FindOne_Decode filter (server_stats w) with
              | Ok current => Ok current
              | Err e => if is_ErrNoDocuments e then Ok ServerStats.zero else Err e
              end
            with
            | Err _ => mret (Some (Errorf "failed to get current stats"))
            | Ok current =>
                let totalRating :=
                  (ServerStats.Rating current
                   * float_of_int (ServerStats.RatingCount current))%float in
                let newRatingCount := int_add (ServerStats.RatingCount current) 1 in
                let newAvgRating :=
                  ((totalRating + newRating) / float_of_int newRatingCount)%float in
                now ← time_Now;
                let update := set_rating newAvgRating newRatingCount now source in
                match UpdateOne filter update
                        (Some (set_first_seen now
                                 (update (doc.of_filter (KString sanitizedServerID)
                                            (Some validatedSource)))))
                        (server_stats w) with
                | Err _ => mret (Some (Errorf "failed to update rating"))
                | Ok coll => _ ← modify (set_server_stats coll); mret None
                end
            end
        end
    end.

(** *** [GetTrending]: the aggregation pipeline

    In an aggregation expression a missing field evaluates to null, and
    [$multiply] and [$add] return null as soon as one operand is null. *)








(** [cursor.All(ctx, &results)] *)
Fixpoint Decode_all (l : list doc.t) : result (list ServerStats.t) :=
  match l with
  | [] => Ok []
  | d :: l' =>
      match Decode d, Decode_all l' with
      | Ok s, Ok ss => Ok (s :: ss)
      | Err e, _ => Err e
      | _, Err e => Err e
      end
  end.

(** The filter [CreateSafeFilter] built. *)
Definition by_safe_filter (f : option string) (d : doc.t) : bool :=
  match f with
  | None => true
  | Some s => option_string_eqb (doc.source d) (Some s)
  end.


(** *** [SyncAnalyticsData] *)

(** The update document of one write model. *)
Definition set_analytics (u : StatsUpdateRequest.t) (now : time) (d : doc.t) : doc.t :=
  doc.mk (doc.server_id d) (doc.source d) (doc.installation_count d)
    (doc.rating d) (doc.rating_count d) (doc.first_seen d) (Some now)
    (Some (StatsUpdateRequest.ActiveInstalls u))
    (Some (StatsUpdateRequest.DailyActiveUsers u))
    (Some (StatsUpdateRequest.MonthlyActiveUsers u))
    (doc.weekly_growth d) (doc.claimed_from d) (doc.claimed_at d) (doc.claimed_to d).

(** One [UpdateOneModel] of the loop: the filter is
    [bson.M{"server_id": update.InstallationDelta}], an integer. *)
Definition write_model (now : time) (update : StatsUpdateRequest.t) (coll : list doc.t)
  : result (list doc.t) :=
  let key := KInt (StatsUpdateRequest.InstallationDelta update) in
  UpdateOne (by_id key) (set_analytics update now)
    (Some (set_analytics update now (doc.of_filter key None))) coll.

(** [collection.BulkWrite(ctx, models)], ordered: the writes are applied
    one after the other and the first error stops the batch. *)
Fixpoint BulkWrite (now : time) (updates : list StatsUpdateRequest.t) (coll : list doc.t)
  : option error * list doc.t :=
  match updates with
  | [] => (None, coll)
  | u :: rest =>
      match write_model now u coll with
      | Err e => (Some e, coll)
      | Ok coll' => BulkWrite now rest coll'
      end
  end.

Definition SyncAnalyticsData (updates : list StatsUpdateRequest.t) : M (option error) :=
  with_Lock
    (now ← time_Now;
     if Nat.ltb 0 (List.length updates) then
       w ← get;
       let '(err, coll) := BulkWrite now updates (server_stats w) in
       _ ← modify (set_server_stats coll);
       match err with
       | Some _ => mret (Some (Errorf "failed to sync analytics data"))
       | None => mret None
       end
     else mret None).

(** *** [TransferStats] *)

(** The value [newStats] computed between the two reads and the upsert. *)
Definition mergedStats (sourceStats : ServerStats.t) (target : option ServerStats.t)
    (toServerID toSource fromSource : string) (now : time) : ServerStats.t :=
  match target with
  | Some targetStats =>
      let installationCount :=
        int_add (ServerStats.InstallationCount targetStats)
                (ServerStats.InstallationCount sourceStats) in
      let ratingCount :=
        int_add (ServerStats.RatingCount targetStats) (ServerStats.RatingCount sourceStats) in
      let rating :=
        if 0 <? ratingCount then
          ((ServerStats.Rating targetStats * float_of_int (ServerStats.RatingCount targetStats)
            + ServerStats.Rating sourceStats * float_of_int (ServerStats.RatingCount sourceStats))
           / float_of_int ratingCount)%float
        else 0%float in
      ServerStats.mk toServerID toSource installationCount rating ratingCount
        time_zero now
        (ServerStats.ActiveInstalls targetStats)
        (ServerStats.DailyActiveUsers targetStats)
        (ServerStats.MonthlyActiveUsers targetStats)
        fromSource now
  | None =>
      ServerStats.mk toServerID toSource
        (ServerStats.InstallationCount sourceStats) (ServerStats.Rating sourceStats)
        (ServerStats.RatingCount sourceStats) (ServerStats.FirstSeen sourceStats) now
        (ServerStats.ActiveInstalls sourceStats)
        (ServerStats.DailyActiveUsers sourceStats)
        (ServerStats.MonthlyActiveUsers sourceStats)
        fromSource now
  end.

(** The audit stamp [{"$set": {claimed_at, claimed_to}}] on the source. *)
Definition set_claimed (now : time) (toServerID : string) (d : doc.t) : doc.t :=
  doc.mk (doc.server_id d) (doc.source d) (doc.installation_count d)
    (doc.rating d) (doc.rating_count d) (doc.first_seen d) (doc.last_updated d)
    (doc.active_installs d) (doc.daily_active_users d) (doc.monthly_active_users d)
    (doc.weekly_growth d) (doc.claimed_from d) (Some now) (Some toServerID).

Definition TransferStats (fromServerID toServerID fromSource toSource : string)
  : M (option error) :=
  with_Lock
    (let fromSource := if String.eqb fromSource "" then SourceCommunity else fromSource in
     let toSource := if String.eqb toSource "" then SourceRegistry else toSource in
     w ← get;
     let sourceFilter := by_id_source fromServerID fromSource in
     match FindOne_Decode sourceFilter (server_stats w) with
     | Err e =>
         if is_ErrNoDocuments e then mret None
         else mret (Some (Errorf "failed to get source stats"))
     | Ok sourceStats =>
         let targetFilter := by_id_source toServerID toSource in
         match
           match FindOne_Decode targetFilter (server_stats w) with
           | Ok targetStats => Ok (Some targetStats)
           | Err e => if is_ErrNoDocuments e then Ok None else Err e
           end
         with
         | Err _ => mret (Some (Errorf "failed to get target stats"))
         | Ok target =>
             now ← time_Now;
             let newStats :=
               mergedStats sourceStats target toServerID toSource fromSource now in
             err ← UpsertStats newStats;
             match err with
             | Some _ => mret (Some (Errorf "failed to upsert transferred stats"))
             | None =>
                 now' ← time_Now;
                 w' ← get;
                 match UpdateOne sourceFilter (set_claimed now' toServerID) None
                         (server_stats w') with
                 | Err _ => mret None
                 | Ok coll => _ ← modify (set_server_stats coll); mret None
                 end
             end
         end
     end).

(** *** The other reads of the stats store *)

(** The record returned for a server that has no statistics yet. *)
Definition empty_stats (serverID source : string) (now : time) : ServerStats.t :=
  ServerStats.mk serverID source 0 0%float 0 now now 0 0 0 "" time_zero.

Definition GetStatsByServerID (serverID : string) : M (result (list ServerStats.t)) :=
  with_RLock
    match validation.SanitizeServerID serverID with
    | Err _ => mret (Err (Errorf "invalid server ID"))
    | Ok sanitizedServerID =>
        w ← get;
        match Decode_all (List.filter (by_id (KString sanitizedServerID)) (server_stats w)) with
        | Err _ => mret (Err (Errorf "failed to decode stats"))
        | Ok results => mret (Ok results)
        end
    end.

(** The filter [{server_id: {"$in": serverIDs}, source: source}]. *)
Definition by_ids_source (serverIDs : list string) (source : string) (d : doc.t) : bool :=
  (match doc.server_id d with
   | KString id => existsb (String.eqb id) serverIDs
   | KInt _ => false
   end && option_string_eqb (doc.source d) (Some source))%bool.

(** The loop [for cursor.Next(ctx) { ...; result[stats.ServerID] = &stats }]. *)
Fixpoint decode_into (l : list doc.t) (res : gmap string ServerStats.t)
  : result (gmap string ServerStats.t) :=
  match l with
  | [] => Ok res
  | d :: l' =>
      match Decode d with
      | Err e => Err e
      | Ok stats => decode_into l' (<[ServerStats.ServerID stats := stats]> res)
      end
  end.

(** The loop that fills in the servers without a record. *)
Definition fill_missing (serverIDs : list string) (source : string) (now : time)
    (res : gmap string ServerStats.t) : gmap string ServerStats.t :=
  fold_left
    (fun m serverID =>
       match m !! serverID with
       | Some _ => m
       | None => <[serverID := empty_stats serverID source now]> m
       end)
    serverIDs res.

Definition GetBatchStats (serverIDs : list string) (source : string)
  : M (result (gmap string ServerStats.t)) :=
  with_RLock
    (let source := if String.eqb source "" then SourceRegistry else source in
     w ← get;
     match decode_into (List.filter (by_ids_source serverIDs source) (server_stats w)) ∅ with
     | Err _ => mret (Err (Errorf "failed to decode stats"))
     | Ok res =>
         now ← time_Now;
         mret (Ok (fill_missing serverIDs source now res))
     end).

(** [GetAggregatedStats] takes the read lock and, holding it, calls
    [GetStatsByServerID], which takes the read lock once more. *)
Definition GetAggregatedStats (serverID : string) : M (result AggregatedStats.t) :=
  with_RLock
    match validation.SanitizeServerID serverID with
    | Err _ => mret (Err (Errorf "invalid server ID"))
    | Ok sanitizedServerID =>
        res ← GetStatsByServerID sanitizedServerID;
        match res with
        | Err e => mret (Err e)
        | Ok allStats =>
            now ← time_Now;
            if Nat.eqb (List.length allStats) 0
            then mret (Ok (AggregatedStats.mk sanitizedServerID 0 0%float 0 ∅ now))
            else
              let totalInstalls :=
                fold_left (fun n stats => int_add n (ServerStats.InstallationCount stats))
                  allStats 0 in
              let totalRatingCount :=
                fold_left (fun n stats => int_add n (ServerStats.RatingCount stats))
                  allStats 0 in
              let totalRating :=
                fold_left
                  (fun t stats =>
                     (t + ServerStats.Rating stats
                          * float_of_int (ServerStats.RatingCount stats))%float)
                  allStats 0%float in
              let sourceBreakdown :=
                fold_left (fun m stats => <[ServerStats.Source stats := stats]> m)
                  allStats (∅ : gmap string ServerStats.t) in
              let averageRating :=
                if 0 <? totalRatingCount
                then (totalRating / float_of_int totalRatingCount)%float
                else 0%float in
              mret (Ok (AggregatedStats.mk sanitizedServerID totalInstalls averageRating
                          totalRatingCount sourceBreakdown now))
        end
    end.

Definition GetAllStats : M (result (list ServerStats.t)) :=
  with_RLock
    (w ← get;
     match Decode_all (server_stats w) with
     | Err _ => mret (Err (Errorf "failed to decode all stats"))
     | Ok results => mret (Ok results)
     end).

(** *** [IncrementInstallCount] *)

(** The update [$inc installation_count 1], [$set last_updated, source];
    a field that is missing counts as 0. *)
Definition inc_installs (now : time) (source : string) (d : doc.t) : doc.t :=
  doc.mk (doc.server_id d) (Some source)
    (Some (default 0 (doc.installation_count d) + 1))
    (doc.rating d) (doc.rating_count d) (doc.first_seen d) (Some now)
    (doc.active_installs d) (doc.daily_active_users d) (doc.monthly_active_users d)
    (doc.weekly_growth d) (doc.claimed_from d) (doc.claimed_at d) (doc.claimed_to d).

(** The server rejects an [$inc] whose result leaves the 64-bit integers. *)
Definition inc_overflows (flt : doc.t -> bool) (coll : list doc.t) : bool :=
  match List.find flt coll with
  | Some d => max_int <=? default 0 (doc.installation_count d)
  | None => false
  end.

Definition IncrementInstallCount (serverID source : string) : M (option error) :=
  with_Lock
    match validation.SanitizeServerID serverID with
    | Err _ => mret (Some (Errorf "invalid server ID"))
    | Ok sanitizedServerID =>
        let source := if String.eqb source "" then SourceRegistry else source in
        match validation.ValidateSource source with
        | Err _ => mret (Some (Errorf "invalid source parameter"))
        | Ok validatedSource =>
            let filter := by_id_source sanitizedServerID validatedSource in
            now ← time_Now;
            let update := inc_installs now validatedSource in
            w ← get;
            if inc_overflows filter (server_stats w)
            then mret (Some (Errorf "failed to increment install count"))
            else
              match UpdateOne filter update
                      (Some (set_first_seen now
                               (update (doc.of_filter (KString sanitizedServerID)
                                          (Some validatedSource)))))
                      (server_stats w) with
              | Err _ => mret (Some (Errorf "failed to increment install count"))
              | Ok coll => _ ← modify (set_server_stats coll); mret None
              end
        end
    end.

(** *** The leaderboards: [Find] with a descending sort and a limit

    In a sort a document without the field counts as null, which sorts
    below every number; among the numbers NaN is the lowest. Documents of
    equal key keep their order. *)

Definition int_below (a b : option Z) : bool :=
  match a, b with
  | None, Some _ => true
  | Some x, Some y => x <? y
  | _, _ => false
  end.

Definition double_below (a b : option float) : bool :=
  match a, b with
  | None, Some _ => true
  | Some x, Some y =>
      if PrimFloat.is_nan x then negb (PrimFloat.is_nan y) else PrimFloat.ltb x y
  | _, _ => false
  end.

Fixpoint insert_by (below : doc.t -> doc.t -> bool) (x : doc.t) (l : list doc.t)
  : list doc.t :=
  match l with
  | [] => [x]
  | y :: l' => if below x y then y :: insert_by below x l' else x :: y :: l'
  end.

Definition sort_desc (below : doc.t -> doc.t -> bool) (l : list doc.t) : list doc.t :=
  fold_right (insert_by below) [] l.

Definition installs_below (a b : doc.t) : bool :=
  int_below (doc.installation_count a) (doc.installation_count b).
Definition rating_below (a b : doc.t) : bool :=
  double_below (doc.rating a) (doc.rating b).
Definition first_seen_below (a b : doc.t) : bool :=
  int_below (doc.first_seen a) (doc.first_seen b).

Definition GetTopByInstalls (limit : Z) (source : string) : M (result (list ServerStats.t)) :=
  with_RLock
    match validation.ValidateLimit limit with
    | Err _ => mret (Err (Errorf "invalid limit"))
    | Ok validatedLimit =>
        match validation.CreateSafeFilter source with
        | Err _ => mret (Err (Errorf "invalid source parameter"))
        | Ok filter =>
            w ← get;
            let matched := List.filter (by_safe_filter filter) (server_stats w) in
            let limited := take (Z.to_nat validatedLimit) (sort_desc installs_below matched) in
            match Decode_all limited with
            | Err _ => mret (Err (Errorf "failed to decode results"))
            | Ok results => mret (Ok results)
            end
        end
    end.

(** The filter the two functions below build by hand: the source is
    validated only when it is neither empty nor [ALL]. *)
Definition source_filter (source : string) : result (option string) :=
  if (negb (String.eqb source "") && negb (String.eqb source "ALL"))%bool
  then match validation.ValidateSource source with
       | Err e => Err e
       | Ok validatedSource => Ok (Some validatedSource)
       end
  else Ok None.

(** The filter [{rating_count: {"$gte": 5}}]. *)
Definition rated_five_times (d : doc.t) : bool :=
  match doc.rating_count d with
  | Some c => 5 <=? c
  | None => false
  end.

Definition GetTopByRating (limit : Z) (source : string) : M (result (list ServerStats.t)) :=
  with_RLock
    match validation.ValidateLimit limit with
    | Err _ => mret (Err (Errorf "invalid limit"))
    | Ok validatedLimit =>
        match source_filter source with
        | Err _ => mret (Err (Errorf "invalid source parameter"))
        | Ok filter =>
            w ← get;
            let matched :=
              List.filter (fun d => (rated_five_times d && by_safe_filter filter d)%bool)
                (server_stats w) in
            let limited := take (Z.to_nat validatedLimit) (sort_desc rating_below matched) in
            match Decode_all limited with
            | Err _ => mret (Err (Errorf "failed to decode results"))
            | Ok results => mret (Ok results)
            end
        end
    end.

Definition GetRecentServers (limit : Z) (source : string) : M (result (list ServerStats.t)) :=
  with_RLock
    match validation.ValidateLimit limit with
    | Err _ => mret (Err (Errorf "invalid limit"))
    | Ok validatedLimit =>
        match source_filter source with
        | Err _ => mret (Err (Errorf "invalid source parameter"))
        | Ok filter =>
            w ← get;
            let matched := List.filter (by_safe_filter filter) (server_stats w) in
            let limited :=
              take (Z.to_nat validatedLimit) (sort_desc first_seen_below matched) in
            match Decode_all limited with
            | Err _ => mret (Err (Errorf "failed to decode results"))
            | Ok results => mret (Ok results)
            end
        end
    end.

(** *** [MigrateExistingStats] *)





End MongoDatabase.

(** ** [MongoFeedbackDatabase] ([extensions/stats/feedback_database.go])

    A method that writes through its [*ServerFeedback] argument returns
    the written struct next to its [error]. *)

Module MongoFeedbackDatabase.
Import ServerFeedback.

Definition with_ServerID (v : string) (f : t) : t :=
  mk (ID f) v (Source f) (UserID f) (Rating f) (Comment f) (CreatedAt f) (UpdatedAt f)
     (IsPublic f) (Username f) (UserAvatar f).
Definition with_Source (v : string) (f : t) : t :=
  mk (ID f) (ServerID f) v (UserID f) (Rating f) (Comment f) (CreatedAt f) (UpdatedAt f)
     (IsPublic f) (Username f) (UserAvatar f).
Definition with_ID (v : string) (f : t) : t :=
  mk v (ServerID f) (Source f) (UserID f) (Rating f) (Comment f) (CreatedAt f) (UpdatedAt f)
     (IsPublic f) (Username f) (UserAvatar f).
Definition with_CreatedAt (v : time) (f : t) : t :=
  mk (ID f) (ServerID f) (Source f) (UserID f) (Rating f) (Comment f) v (UpdatedAt f)
     (IsPublic f) (Username f) (UserAvatar f).
Definition with_UpdatedAt (v : time) (f : t) : t :=
  mk (ID f) (ServerID f) (Source f) (UserID f) (Rating f) (Comment f) (CreatedAt f) v
     (IsPublic f) (Username f) (UserAvatar f).
Definition with_IsPublic (v : bool) (f : t) : t :=
  mk (ID f) (ServerID f) (Source f) (UserID f) (Rating f) (Comment f) (CreatedAt f)
     (UpdatedAt f) v (Username f) (UserAvatar f).
Definition with_Rating_Comment (r : float) (c : string) (f : t) : t :=
  mk (ID f) (ServerID f) (Source f) (UserID f) r c (CreatedAt f) (UpdatedAt f)
     (IsPublic f) (Username f) (UserAvatar f).

(** What is stored of a struct: the fields tagged [bson:"-"] are not. *)
Definition stored (f : t) : t :=
  mk (ID f) (ServerID f) (Source f) (UserID f) (Rating f) (Comment f) (CreatedAt f)
     (UpdatedAt f) (IsPublic f) "" "".

(** The two unique indexes: [_id], and [(server_id, user_id, source)]. *)
Definition duplicate_key (f g : t) : bool :=
  (String.eqb (ID f) (ID g)
   || (String.eqb (ServerID f) (ServerID g) && String.eqb (UserID f) (UserID g)
       && String.eqb (Source f) (Source g)))%bool.

(** [collection.InsertOne] *)
Definition InsertOne (f : t) (coll : list t) : result (list t) :=
  if existsb (duplicate_key f) coll then Err ErrDuplicateKey
  else Ok (coll ++ [stored f])%list.

Definition CreateFeedback (feedback : t) : M (t * option error) :=
  if (String.eqb (ServerID feedback) "" || String.eqb (UserID feedback) "")%bool
  then mret (feedback, Some (Errorf "server_id and user_id are required"))
  else
    match validation.SanitizeServerID (ServerID feedback) with
    | Err _ => mret (feedback, Some (Errorf "invalid server ID"))
    | Ok sanitizedServerID =>
        let feedback := with_ServerID sanitizedServerID feedback in
        let feedback :=
          if String.eqb (Source feedback) "" then with_Source SourceRegistry feedback
          else feedback in
        match validation.ValidateSource (Source feedback) with
        | Err _ => mret (feedback, Some (Errorf "invalid source"))
        | Ok validatedSource =>
            let feedback := with_Source validatedSource feedback in
            feedback ←
              (if String.eqb (ID feedback) ""
               then id ← fresh_id "uuid-"; mret (with_ID id feedback)
               else mret feedback);
            now ← time_Now;
            let feedback := with_UpdatedAt now (with_CreatedAt now feedback) in
            let feedback :=
              if negb (IsPublic feedback) then with_IsPublic true feedback else feedback in
            w ← get;
            match InsertOne feedback (server_feedback w) with
            | Err e =>
                if IsDuplicateKeyError e then mret (feedback, Some ErrDuplicateFeedback)
                else mret (feedback, Some (Errorf "failed to create feedback"))
            | Ok coll => _ ← modify (set_server_feedback coll); mret (feedback, None)
            end
        end
    end.

Definition by_id (feedbackID : string) (f : t) : bool := String.eqb (ID f) feedbackID.
Definition by_id_user (feedbackID userID : string) (f : t) : bool :=
  (String.eqb (ID f) feedbackID && String.eqb (UserID f) userID)%bool.

Definition GetFeedback (feedbackID : string) : M (result t) :=
  w ← get;
  match List.find (by_id feedbackID) (server_feedback w) with
  | None => mret (Err ErrFeedbackNotFound)
  | Some f => mret (Ok f)
  end.

(** The sort keys of [GetServerFeedback]: [before s a b] holds when [a]
    sorts strictly before [b]. *)
Definition before (s : FeedbackSortOrder) (a b : t) : bool :=
  match s with
  | FeedbackSortNewest => CreatedAt b <? CreatedAt a
  | FeedbackSortOldest => CreatedAt a <? CreatedAt b
  | FeedbackSortRatingHigh =>
      (PrimFloat.ltb (Rating b) (Rating a)
       || (PrimFloat.eqb (Rating a) (Rating b) && (CreatedAt b <? CreatedAt a)))%bool
  | FeedbackSortRatingLow =>
      (PrimFloat.ltb (Rating a) (Rating b)
       || (PrimFloat.eqb (Rating a) (Rating b) && (CreatedAt b <? CreatedAt a)))%bool
  end.

Fixpoint insert_sorted (s : FeedbackSortOrder) (x : t) (l : list t) : list t :=
  match l with
  | [] => [x]
  | y :: l' => if before s y x then y :: insert_sorted s x l' else x :: y :: l'
  end.

Definition sort_feedback (s : FeedbackSortOrder) (l : list t) : list t :=
  fold_right (insert_sorted s) [] l.

Definition public_of (serverID source : string) (f : t) : bool :=
  (String.eqb (ServerID f) serverID && String.eqb (Source f) source && IsPublic f)%bool.

Definition GetServerFeedback (serverID source : string) (limit offset : Z)
    (sort : FeedbackSortOrder) : M (result FeedbackResponse.t) :=
  match validation.SanitizeServerID serverID with
  | Err _ => mret (Err (Errorf "invalid server ID"))
  | Ok sanitizedServerID =>
      let source := if String.eqb source "" then SourceRegistry else source in
      match validation.ValidateSource source with
      | Err _ => mret (Err (Errorf "invalid source"))
      | Ok validatedSource =>
          w ← get;
          let matched :=
            List.filter (public_of sanitizedServerID validatedSource) (server_feedback w) in
          let totalCount := Z.of_nat (List.length matched) in
          let limit := if ((limit <=? 0) || (100 <? limit))%bool then 20 else limit in
          let offset := if offset <? 0 then 0 else offset in
          let feedbackList :=
            take (Z.to_nat limit) (drop (Z.to_nat offset) (sort_feedback sort matched)) in
          mret (Ok (FeedbackResponse.mk feedbackList totalCount
                      (int_add offset limit <? totalCount)))
      end
  end.

Definition GetUserFeedback (serverID userID source : string) : M (result t) :=
  match validation.SanitizeServerID serverID with
  | Err _ => mret (Err (Errorf "invalid server ID"))
  | Ok sanitizedServerID =>
      let source := if String.eqb source "" then SourceRegistry else source in
      match validation.ValidateSource source with
      | Err _ => mret (Err (Errorf "invalid source"))
      | Ok validatedSource =>
          w ← get;
          match List.find
                  (fun f => (String.eqb (ServerID f) sanitizedServerID
                             && String.eqb (UserID f) userID
                             && String.eqb (Source f) validatedSource)%bool)
                  (server_feedback w) with
          | None => mret (Err ErrFeedbackNotFound)
          | Some f => mret (Ok f)
          end
      end
  end.

Fixpoint update_first (p : t -> bool) (u : t -> t) (l : list t) : list t :=
  match l with
  | [] => []
  | f :: l' => if p f then u f :: l' else f :: update_first p u l'
  end.

Fixpoint delete_first (p : t -> bool) (l : list t) : list t :=
  match l with
  | [] => []
  | f :: l' => if p f then l' else f :: delete_first p l'
  end.

Definition UpdateFeedback (feedback : t) : M (t * option error) :=
  if String.eqb (ID feedback) "" then mret (feedback, Some (Errorf "feedback ID is required"))
  else
    now ← time_Now;
    let feedback := with_UpdatedAt now feedback in
    w ← get;
    let filter := by_id_user (ID feedback) (UserID feedback) in
    match List.find filter (server_feedback w) with
    | None => mret (feedback, Some ErrFeedbackNotFound)
    | Some _ =>
        _ ← modify (set_server_feedback
                      (update_first filter
                         (fun f => with_UpdatedAt (UpdatedAt feedback)
                                     (with_Rating_Comment (Rating feedback) (Comment feedback) f))
                         (server_feedback w)));
        mret (feedback, None)
    end.

Definition DeleteFeedback (feedbackID userID : string) : M (option error) :=
  if (String.eqb feedbackID "" || String.eqb userID "")%bool
  then mret (Some (Errorf "feedback_id and user_id are required"))
  else
    w ← get;
    let filter := by_id_user feedbackID userID in
    match List.find filter (server_feedback w) with
    | None => mret (Some ErrFeedbackNotFound)
    | Some _ =>
        _ ← modify (set_server_feedback (delete_first filter (server_feedback w)));
        mret None
    end.

Definition GetUserFeedbackHistory (userID : string) (limit offset : Z) : M (result (list t)) :=
  if String.eqb userID "" then mret (Err (Errorf "user_id is required"))
  else
    let limit := if ((limit <=? 0) || (100 <? limit))%bool then 20 else limit in
    let offset := if offset <? 0 then 0 else offset in
    w ← get;
    let matched := List.filter (fun f => String.eqb (UserID f) userID) (server_feedback w) in
    mret (Ok (take (Z.to_nat limit)
                (drop (Z.to_nat offset) (sort_feedback FeedbackSortNewest matched)))).

Definition CountServerFeedback (serverID source : string) : M (result Z) :=
  match validation.SanitizeServerID serverID with
  | Err _ => mret (Err (Errorf "invalid server ID"))
  | Ok sanitizedServerID =>
      let source := if String.eqb source "" then SourceRegistry else source in
      match validation.ValidateSource source with
      | Err _ => mret (Err (Errorf "invalid source"))
      | Ok validatedSource =>
          w ← get;
          mret (Ok (Z.of_nat
                      (List.length
                         (List.filter (public_of sanitizedServerID validatedSource)
                            (server_feedback w)))))
      end
  end.

End MongoFeedbackDatabase.

(** ** [MongoAnalyticsDatabase]: the global counters and the activity log

    The collection [analytics_metrics] is keyed by [_id]; a document is
    the map of its other fields. *)

Module MongoAnalyticsDatabase.

(** Whether a value holds a field whose name starts with [$]. *)
Fixpoint has_dollar_field (b : bson) : bool :=
  match b with
  | BDoc fields =>
      (fix go (l : list (string * bson)) : bool :=
         match l with
         | [] => false
         | (k, v) :: l' => (gostrings.HasPrefix k "$" || has_dollar_field v || go l')%bool
         end) fields
  | _ => false
  end.

Definition storable (w : World) (updates : gmap string bson) : bool :=
  (dollar_fields_storable w
   || negb (existsb (fun kv => (gostrings.HasPrefix kv.1 "$" || has_dollar_field kv.2)%bool)
              (map_to_list updates)))%bool.

(** [UpdateAnalyticsMetrics]: the caller's map becomes the operand of
    [$set], so every entry replaces the field of that name by the
    entry's value. *)
Definition UpdateAnalyticsMetrics (updates : gmap string bson) : M (option error) :=
  now ← time_Now;
  let updates := <["last_updated" := BTime now]> updates in
  w ← get;
  if storable w updates then
    let current := default ∅ (analytics_metrics w !! "global_metrics") in
    _ ← modify (set_analytics_metrics
                  (<["global_metrics" := updates ∪ current]> (analytics_metrics w)));
    mret None
  else mret (Some (Errorf "failed to update analytics metrics")).

Definition with_ID_Timestamp (id : string) (ts : time) (e : ActivityEvent.t)
  : ActivityEvent.t :=
  ActivityEvent.mk id (ActivityEvent.Type_ e) (ActivityEvent.ServerID e)
    (ActivityEvent.ServerName e) (ActivityEvent.UserID e) (ActivityEvent.Value e)
    (ActivityEvent.Metadata e) ts.

(** [bson.M{"$inc": 1}] *)
Definition inc_1 : bson := BDoc [("$inc", BInt 1)].

(** [RecordActivity]; a new ObjectID never collides with a stored one,
    so the insertion itself does not fail. *)
Definition RecordActivity (event : ActivityEvent.t) : M (ActivityEvent.t * option error) :=
  id ← fresh_id "oid-";
  now ← time_Now;
  let event := with_ID_Timestamp id now event in
  w ← get;
  _ ← modify (set_activity_events (activity_events w ++ [event])%list);
  let updates : gmap string bson :=
    if String.eqb (ActivityEvent.Type_ event) "install" then
      <["installs_today" := inc_1]> (<["total_installs" := inc_1]> ∅)
    else if String.eqb (ActivityEvent.Type_ event) "rating" then
      <["total_ratings" := inc_1]> ∅
    else if String.eqb (ActivityEvent.Type_ event) "search" then
      <["total_searches" := inc_1]> ∅
    else ∅ in
  if Nat.ltb 0 (size updates) then
    err ← UpdateAnalyticsMetrics updates;
    mret (event, err)
  else mret (event, None).

End MongoAnalyticsDatabase.

(** ** [VPHandlers] ([extensions/vp/handlers])

    A request is its method, its path and its query parameters
    ([Query r k] is [r.URL.Query().Get(k)]); a handler that decodes a JSON
    body takes the decoded struct, [None] when decoding fails. A response
    is the status code, the [X-Cache] header and the body.
    [SetupVPRoutes] always hands the handlers a feedback store, so the
    branches for a nil store are left out. *)

Module VPHandlers.
Import gostrings.

Record Request : Type := mkRequest {
  Method : string;
  Path : string;
  Query : string -> string }.

Inductive Body : Type :=
| Text (msg : string)
| JSON (p : payload)
| Envelope (success : bool) (message : string)
    (feedback : option ServerFeedback.t) (stats : option ServerStats.t).

Record Response : Type := mkResponse {
  StatusCode : Z;
  XCache : string;
  body : Body }.

Definition http_Error (msg : string) (code : Z) : Response := mkResponse code "" (Text msg).

Definition StatusOK : Z := 200.
Definition StatusBadRequest : Z := 400.
Definition StatusForbidden : Z := 403.
Definition StatusNotFound : Z := 404.
Definition StatusMethodNotAllowed : Z := 405.
Definition StatusConflict : Z := 409.
Definition StatusInternalServerError : Z := 500.

(** [strings.Split(strings.TrimPrefix(path, "/vp/servers/"), "/")] *)
Definition path_parts (path : string) : list string :=
  Split (TrimPrefix path "/vp/servers/") "/"%char.

Definition part (i : nat) (parts : list string) : string := nth i parts "".

(** The inline parsing of [limit]: the default unless the parameter is
    an integer in [1..maxLimit]. *)
Definition limit_param (limitStr : string) (defaultLimit maxLimit : Z) : Z :=
  if String.eqb limitStr "" then defaultLimit
  else match Atoi limitStr with
       | Some parsedLimit =>
           if ((0 <? parsedLimit) && (parsedLimit <=? maxLimit))%bool then parsedLimit
           else defaultLimit
       | None => defaultLimit
       end.

Definition offset_param (offsetStr : string) : Z :=
  if String.eqb offsetStr "" then 0
  else match Atoi offsetStr with
       | Some parsedOffset => if 0 <=? parsedOffset then parsedOffset else 0
       | None => 0
       end.

Definition sort_param (sortStr : string) : FeedbackSortOrder :=
  if String.eqb sortStr "oldest" then FeedbackSortOldest
  else if String.eqb sortStr "rating_high" then FeedbackSortRatingHigh
  else if String.eqb sortStr "rating_low" then FeedbackSortRatingLow
  else FeedbackSortNewest.

(** [fmt.Sprintf("vp:feedback:%s:%s:%d:%d:%s", serverID, source, limit, offset, sort)] *)
Definition feedback_list_key (serverID source : string) (limit offset : Z)
    (sort : FeedbackSortOrder) : string :=
  "vp:feedback:" +:+ serverID +:+ ":" +:+ source +:+ ":" +:+ Itoa limit +:+ ":"
    +:+ Itoa offset +:+ ":" +:+ FeedbackSortOrder_string sort.

Definition invalidateFeedbackCache (serverID source : string) : M unit :=
  _ ← CacheService.Delete ("vp:feedback:" +:+ serverID +:+ ":*");
  _ ← CacheService.Delete ("vp:server:" +:+ serverID);
  _ ← CacheService.Delete ("vp:stats:" +:+ serverID);
  _ ← (if negb (String.eqb source "")
       then CacheService.Delete ("vp:stats:" +:+ serverID +:+ ":" +:+ source)
       else mret tt);
  CacheService.Delete "vp:servers:".

Definition GetServerFeedbackHandler (r : Request) : M Response :=
  let parts := path_parts (Path r) in
  if (Nat.ltb (List.length parts) 2 || String.eqb (part 0 parts) ""
      || negb (String.eqb (part 1 parts) "feedback"))%bool
  then mret (http_Error "Invalid feedback path" StatusBadRequest)
  else
    let serverID := part 0 parts in
    let limit := limit_param (Query r "limit") 20 100 in
    let offset := offset_param (Query r "offset") in
    let sort := sort_param (Query r "sort") in
    let source := if String.eqb (Query r "source") "" then SourceRegistry
                  else Query r "source" in
    let cacheKey := feedback_list_key serverID source limit offset sort in
    cached ← CacheService.Get cacheKey;
    match cached with
    | Some v => mret (mkResponse StatusOK "HIT" (JSON v))
    | None =>
        res ← MongoFeedbackDatabase.GetServerFeedback serverID source limit offset sort;
        let feedbackResponse :=
          match res with
          | Ok fr => fr
          | Err _ => FeedbackResponse.mk [] 0 false
          end in
        _ ← CacheService.Set_ cacheKey (CachedFeedback feedbackResponse);
        mret (mkResponse StatusOK "MISS" (JSON (CachedFeedback feedbackResponse)))
    end.

Definition rating_out_of_range (rating : float) : bool :=
  (PrimFloat.ltb rating 1 || PrimFloat.ltb 5 rating)%bool.

Definition SubmitFeedbackHandler (r : Request) (decoded : option RatingRequest.t)
  : M Response :=
  if negb (String.eqb (Method r) "POST")
  then mret (http_Error "Method not allowed" StatusMethodNotAllowed)
  else
    let parts := path_parts (Path r) in
    if (Nat.ltb (List.length parts) 2 || String.eqb (part 0 parts) "")%bool
    then mret (http_Error "Server ID is required" StatusBadRequest)
    else
      let serverID := part 0 parts in
      match decoded with
      | None => mret (http_Error "Invalid request body" StatusBadRequest)
      | Some ratingReq =>
          if rating_out_of_range (RatingRequest.Rating ratingReq)
          then mret (http_Error "Rating must be between 1 and 5" StatusBadRequest)
          else if Nat.ltb 1000 (String.length (RatingRequest.Comment ratingReq))
          then mret (http_Error "Comment must not exceed 1000 characters" StatusBadRequest)
          else if (negb (String.eqb (RatingRequest.Source ratingReq) "")
                   && negb (String.eqb (RatingRequest.Source ratingReq) SourceRegistry)
                   && negb (String.eqb (RatingRequest.Source ratingReq) SourceCommunity))%bool
          then mret (http_Error "Invalid source. Must be 'REGISTRY' or 'COMMUNITY'"
                       StatusBadRequest)
          else
            let source := if String.eqb (RatingRequest.Source ratingReq) ""
                          then SourceRegistry else RatingRequest.Source ratingReq in
            let userID := RatingRequest.UserID ratingReq in
            if String.eqb userID ""
            then mret (http_Error "User ID is required" StatusBadRequest)
            else
              existing ← MongoFeedbackDatabase.GetUserFeedback serverID userID source;
              match
                match existing with
                | Ok f => Ok (Some f)
                | Err e => if is_ErrFeedbackNotFound e then Ok None else Err e
                end
              with
              | Err _ => mret (http_Error "Failed to check existing feedback"
                                 StatusInternalServerError)
              | Ok existingFeedback =>
                  let feedback :=
                    ServerFeedback.mk "" serverID source userID
                      (RatingRequest.Rating ratingReq) (RatingRequest.Comment ratingReq)
                      time_zero time_zero true "" "" in
                  written ←
                    match existingFeedback with
                    | Some old =>
                        res ← MongoFeedbackDatabase.UpdateFeedback
                                (MongoFeedbackDatabase.with_CreatedAt (ServerFeedback.CreatedAt old)
                                   (MongoFeedbackDatabase.with_ID (ServerFeedback.ID old) feedback));
                        match res.2 with
                        | Some _ => mret (inr (http_Error "Failed to update feedback"
                                                 StatusInternalServerError))
                        | None => mret (inl res.1)
                        end
                    | None =>
                        id ← fresh_id "uuid-";
                        res ← MongoFeedbackDatabase.CreateFeedback
                                (MongoFeedbackDatabase.with_ID id feedback);
                        match res.2 with
                        | Some e =>
                            if is_ErrDuplicateFeedback e
                            then mret (inr (http_Error "You have already rated this server"
                                              StatusConflict))
                            else mret (inr (http_Error "Failed to create feedback"
                                              StatusInternalServerError))
                        | None => mret (inl res.1)
                        end
                    end;
                  match written with
                  | inr response => mret response
                  | inl feedback =>
                      _ ← MongoDatabase.UpdateRating serverID source
                            (RatingRequest.Rating ratingReq);
                      _ ← invalidateFeedbackCache serverID source;
                      updatedStats ← MongoDatabase.GetStats serverID source;
                      match updatedStats with
                      | Err _ =>
                          mret (mkResponse StatusOK ""
                                  (Envelope true "Feedback submitted successfully"
                                     (Some feedback) None))
                      | Ok st =>
                          mret (mkResponse StatusOK ""
                                  (Envelope true "Feedback submitted successfully"
                                     (Some feedback) (Some st)))
                      end
                  end
              end
      end.

Definition UpdateFeedbackHandler (r : Request) (decoded : option FeedbackUpdateRequest.t)
  : M Response :=
  if negb (String.eqb (Method r) "PUT")
  then mret (http_Error "Method not allowed" StatusMethodNotAllowed)
  else
    let parts := path_parts (Path r) in
    if (Nat.ltb (List.length parts) 4 || String.eqb (part 0 parts) ""
        || String.eqb (part 2 parts) "")%bool
    then mret (http_Error "Server ID and Feedback ID are required" StatusBadRequest)
    else
      let serverID := part 0 parts in
      let feedbackID := part 2 parts in
      match decoded with
      | None => mret (http_Error "Invalid request body" StatusBadRequest)
      | Some updateReq =>
          if rating_out_of_range (FeedbackUpdateRequest.Rating updateReq)
          then mret (http_Error "Rating must be between 1 and 5" StatusBadRequest)
          else if Nat.ltb 1000 (String.length (FeedbackUpdateRequest.Comment updateReq))
          then mret (http_Error "Comment must not exceed 1000 characters" StatusBadRequest)
          else if String.eqb (FeedbackUpdateRequest.UserID updateReq) ""
          then mret (http_Error "User ID is required" StatusBadRequest)
          else
            res ← MongoFeedbackDatabase.GetFeedback feedbackID;
            match res with
            | Err e =>
                if is_ErrFeedbackNotFound e
                then mret (http_Error "Feedback not found" StatusNotFound)
                else mret (http_Error "Failed to get feedback" StatusInternalServerError)
            | Ok existingFeedback =>
                if negb (String.eqb (ServerFeedback.UserID existingFeedback)
                           (FeedbackUpdateRequest.UserID updateReq))
                then mret (http_Error "Unauthorized to update this feedback" StatusForbidden)
                else
                  let existingFeedback :=
                    MongoFeedbackDatabase.with_Rating_Comment
                      (FeedbackUpdateRequest.Rating updateReq)
                      (FeedbackUpdateRequest.Comment updateReq) existingFeedback in
                  upd ← MongoFeedbackDatabase.UpdateFeedback existingFeedback;
                  match upd.2 with
                  | Some _ => mret (http_Error "Failed to update feedback"
                                      StatusInternalServerError)
                  | None =>
                      let existingFeedback := upd.1 in
                      _ ← MongoDatabase.UpdateRating serverID
                            (ServerFeedback.Source existingFeedback)
                            (FeedbackUpdateRequest.Rating updateReq);
                      _ ← invalidateFeedbackCache serverID
                            (ServerFeedback.Source existingFeedback);
                      mret (mkResponse StatusOK ""
                              (Envelope true "Feedback updated successfully"
                                 (Some existingFeedback) None))
                  end
            end
      end.

Definition DeleteFeedbackHandler (r : Request) : M Response :=
  if negb (String.eqb (Method r) "DELETE")
  then mret (http_Error "Method not allowed" StatusMethodNotAllowed)
  else
    let parts := path_parts (Path r) in
    if (Nat.ltb (List.length parts) 4 || String.eqb (part 0 parts) ""
        || String.eqb (part 2 parts) "")%bool
    then mret (http_Error "Server ID and Feedback ID are required" StatusBadRequest)
    else
      let serverID := part 0 parts in
      let feedbackID := part 2 parts in
      let userID := Query r "user_id" in
      if String.eqb userID ""
      then mret (http_Error "User ID is required" StatusBadRequest)
      else
        err ← MongoFeedbackDatabase.DeleteFeedback feedbackID userID;
        match err with
        | Some e =>
            if is_ErrFeedbackNotFound e
            then mret (http_Error "Feedback not found or unauthorized" StatusNotFound)
            else mret (http_Error "Failed to delete feedback" StatusInternalServerError)
        | None =>
            _ ← invalidateFeedbackCache serverID "";
            mret (mkResponse StatusOK ""
                    (Envelope true "Feedback deleted successfully" None None))
        end.

(** Modelled from the spec: the external catalog's lookup
    ([h.service.GetByID], not among the sources) returns the entry with
    the given id, or an error when there is none. *)
Definition GetByID (id : string) (w : World) : option Server.t :=
  List.find (fun s => String.eqb (Server.ID s) id) (catalog w).

(** The loop [statsMap[s.ServerID] = s]. *)
Definition stats_map (l : list ServerStats.t) : gmap string ServerStats.t :=
  fold_left (fun m s => <[ServerStats.ServerID s := s]> m) l ∅.


End VPHandlers.

(** ** Helpers of package [handlers], and the handlers of [stats.go]

    A message built as [fmt.Sprintf("...: %v", err)] is kept up to the
    colon, as for [Errorf]. *)

Module handlers.
Import gostrings.

(** [err.Error()] *)
Definition Error_ (e : error) : string :=
  match e with
  | ErrNoDocuments => "mongo: no documents in result"
  | ErrDuplicateKey => "duplicate key error"
  | ErrNotStorable => "field name is not valid for storage"
  | ErrDecode => "cannot decode into a string type"
  | ErrDuplicateFeedback => "user has already submitted feedback for this server"
  | ErrFeedbackNotFound => "feedback not found"
  | ErrUnauthorized => "unauthorized to perform this action"
  | Errorf msg => msg
  end.

Definition extractServerIDFromPath (path : string) : result string :=
  let parts := Split (TrimPrefix path "/vp/servers/") "/"%char in
  if (Nat.ltb (List.length parts) 1 || String.eqb (nth 0 parts "") "")%bool
  then Err (Errorf "server ID is required")
  else Ok (nth 0 parts "").

Definition extractPathSegments (path : string) : list string :=
  Split (TrimPrefix path "/vp/servers/") "/"%char.

Definition validateSource (source : string) : option error :=
  if (negb (String.eqb source "") && negb (String.eqb source SourceRegistry)
      && negb (String.eqb source SourceCommunity))%bool
  then Some (Errorf "invalid source. Must be 'REGISTRY' or 'COMMUNITY'")
  else None.

Definition parseLimit (limitStr : string) (defaultLimit maxLimit : Z) : Z :=
  if String.eqb limitStr "" then defaultLimit
  else match Atoi limitStr with
       | Some parsedLimit =>
           if ((0 <? parsedLimit) && (parsedLimit <=? maxLimit))%bool then parsedLimit
           else defaultLimit
       | None => defaultLimit
       end.

Definition parseOffset (offsetStr : string) : Z :=
  if String.eqb offsetStr "" then 0
  else match Atoi offsetStr with
       | Some parsedOffset => if 0 <=? parsedOffset then parsedOffset else 0
       | None => 0
       end.

Definition validateRating (rating : float) : option error :=
  if (PrimFloat.ltb rating 1 || PrimFloat.ltb 5 rating)%bool
  then Some (Errorf "rating must be between 1 and 5")
  else None.

Definition validateComment (comment : string) (maxLength : Z) : option error :=
  if maxLength <? Z.of_nat (String.length comment)
  then Some (Errorf ("comment exceeds maximum length of " +:+ Itoa maxLength
                     +:+ " characters"))
  else None.

Definition generateServerCacheKey (serverID : string) : string := "vp:server:" +:+ serverID.
Definition generateStatsCacheKey (serverID : string) : string := "vp:stats:" +:+ serverID.
Definition generateSourceStatsCacheKey (serverID source : string) : string :=
  "vp:stats:" +:+ serverID +:+ ":" +:+ source.
Definition generateFeedbackCacheKey (serverID source : string) : string :=
  "vp:feedback:" +:+ serverID +:+ ":" +:+ source.

Definition invalidateServerCaches (serverID : string) : M unit :=
  _ ← CacheService.Delete (generateServerCacheKey serverID);
  _ ← CacheService.Delete (generateStatsCacheKey serverID);
  _ ← CacheService.Delete ("vp:stats:" +:+ serverID +:+ ":aggregated");
  _ ← CacheService.Delete "vp:servers:";
  CacheService.Delete "vp:stats:global".

Definition invalidateSourceCaches (serverID source : string) : M unit :=
  _ ← CacheService.Delete (generateSourceStatsCacheKey serverID source);
  _ ← CacheService.Delete ("vp:stats:global:" +:+ source);
  CacheService.Delete (generateFeedbackCacheKey serverID source).

(** What a handler of [stats.go] writes: a plain-text [http.Error], a
    [StandardResponse] with an error, or an [InstallTrackingResponse]. *)
Inductive Written : Type :=
| Plain (r : VPHandlers.Response)
| StandardError (status : Z) (message : string)
| InstallTracking (success : bool) (message : string).

(** [installReq] is the struct after the optional decoding of the body:
    the zero value when there is no body. *)
Definition TrackInstallHandler (r : VPHandlers.Request) (installReq : InstallRequest.t)
  : M Written :=
  if negb (String.eqb (VPHandlers.Method r) "POST")
  then mret (Plain (VPHandlers.http_Error "Method not allowed"
                      VPHandlers.StatusMethodNotAllowed))
  else
    match extractServerIDFromPath (VPHandlers.Path r) with
    | Err e => mret (StandardError VPHandlers.StatusBadRequest (Error_ e))
    | Ok serverID =>
        match validateSource (InstallRequest.Source installReq) with
        | Some e => mret (StandardError VPHandlers.StatusBadRequest (Error_ e))
        | None =>
            let source := if String.eqb (InstallRequest.Source installReq) ""
                          then SourceRegistry else InstallRequest.Source installReq in
            err ← MongoDatabase.IncrementInstallCount serverID source;
            match err with
            | Some _ =>
                mret (StandardError VPHandlers.StatusInternalServerError
                        "Failed to track installation")
            | None =>
                _ ← invalidateServerCaches serverID;
                _ ← invalidateSourceCaches serverID source;
                mret (InstallTracking true "Installation tracked successfully")
            end
        end
    end.

(** [extractOwnerFromRepo] and [extractRepoFromRepo] of [claim.go]. *)
Definition extractOwnerFromRepo (repoURL : string) : string :=
  let parts := Split repoURL "/"%char in
  if (Nat.leb 4 (List.length parts) && Contains repoURL "github.com")%bool
  then nth (List.length parts - 2) parts ""
  else "".

Definition extractRepoFromRepo (repoURL : string) : string :=
  let parts := Split repoURL "/"%char in
  if (Nat.leb 4 (List.length parts) && Contains repoURL "github.com")%bool
  then
    let repo := nth (List.length parts - 1) parts "" in
    if HasSuffix repo ".git" then TrimSuffix repo ".git" else repo
  else "".

End handlers.

(** ** The routing of [/vp/servers/] ([extensions/vp/router.go]) *)

Module vp.
Import gostrings.

Definition isServerDetailPath (path : string) : bool :=
  let parts := Split (TrimPrefix path "/vp/servers/") "/"%char in
  (Nat.eqb (List.length parts) 1 && negb (String.eqb (nth 0 parts "") ""))%bool.

Definition isInstallPath (path : string) : bool := Contains path "/install".
Definition isRatePath (path : string) : bool := Contains path "/rate".
Definition isStatsPath (path : string) : bool :=
  (Contains path "/stats" && negb (Contains path "/stats/"))%bool.
Definition isClaimPath (path : string) : bool := Contains path "/claim".

(** The handler the function registered for [/vp/servers/] hands a
    request to. *)
Inductive target : Type :=
| ToGetServerFeedbackHandler
| UseRateEndpoint          (* 400 "Use POST /vp/servers/{id}/rate to submit feedback" *)
| ToUpdateFeedbackHandler
| ToDeleteFeedbackHandler
| ToGetUserFeedbackHandler
| ToGetServersHandler
| ToTrackInstallHandler
| ToSubmitFeedbackHandler
| ToGetStatsHandler
| ToClaimServerHandler
| ToGetServerByIDHandler
| NotFound.

Definition original_routing (method path : string) : target :=
  if (String.eqb method "GET" && String.eqb path "/vp/servers/")%bool
  then ToGetServersHandler
  else if (String.eqb method "POST" && isInstallPath path)%bool then ToTrackInstallHandler
  else if (String.eqb method "POST" && isRatePath path)%bool then ToSubmitFeedbackHandler
  else if (String.eqb method "GET" && isStatsPath path)%bool then ToGetStatsHandler
  else if (String.eqb method "POST" && isClaimPath path)%bool then ToClaimServerHandler
  else if (String.eqb method "GET" && isServerDetailPath path)%bool
       then ToGetServerByIDHandler
  else NotFound.

Definition route (method path : string) : target :=
  let segments := Split (TrimPrefix path "/vp/servers/") "/"%char in
  let is_feedback := String.eqb (nth 1 segments "") "feedback" in
  if (Nat.leb 2 (List.length segments) && is_feedback && String.eqb method "GET")%bool
  then ToGetServerFeedbackHandler
  else if (Nat.leb 2 (List.length segments) && is_feedback && String.eqb method "POST")%bool
  then UseRateEndpoint
  else if (Nat.leb 3 (List.length segments) && is_feedback && String.eqb method "PUT")%bool
  then ToUpdateFeedbackHandler
  else if (Nat.leb 3 (List.length segments) && is_feedback && String.eqb method "DELETE")%bool
  then ToDeleteFeedbackHandler
  else if (Nat.leb 3 (List.length segments) && String.eqb (nth 1 segments "") "rating"
           && String.eqb method "GET")%bool
  then ToGetUserFeedbackHandler
  else original_routing method path.

(** Who serves a request whose path starts with [/vp/servers/], among
    the patterns [SetupVPRoutes] registers on the mux:
    [/vp/servers/recent] is a pattern of its own and, as the longer
    match, wins over the subtree [/vp/servers/]; every other such path
    goes to the function above. This is for a path in clean form: the
    mux redirects a path with an empty or a dot segment before it looks
    for a pattern. *)
Inductive served : Type :=
| ByGetRecentServersHandler
| BySubtree (t : target).

Definition mux (method path : string) : served :=
  if String.eqb path "/vp/servers/recent" then ByGetRecentServersHandler
  else BySubtree (route method path).

End vp.

(** ** Reading the stores, and the scenarios of the specification *)

(** The unique index on [(server_id, source)] holds of a collection. *)
Fixpoint unique_index (coll : list doc.t) : bool :=
  match coll with
  | [] => true
  | d :: coll' => (negb (MongoDatabase.violates_unique d coll') && unique_index coll')%bool
  end.

(** The mean and the count the store holds for [(server_id, source)];
    zeros when it holds no record, as a Go read into a zero struct. *)
Definition stored_rating (serverID source : string) (w : World) : float * Z :=
  match MongoDatabase.FindOne_Decode (MongoDatabase.by_id_source serverID source)
          (server_stats w) with
  | Ok st => (ServerStats.Rating st, ServerStats.RatingCount st)
  | Err _ => (0%float, 0)
  end.

(** The installation count the store holds for [(server_id, source)];
    zero when it holds no record. *)
Definition stored_installs (serverID source : string) (w : World) : Z :=
  match MongoDatabase.FindOne_Decode (MongoDatabase.by_id_source serverID source)
          (server_stats w) with
  | Ok st => ServerStats.InstallationCount st
  | Err _ => 0
  end.

(** The state a call leaves behind, and the value it returns, if any. *)
Definition state_after {A : Type} (m : M A) (w : World) : World :=
  match m w with
  | Returns _ w' => w'
  | Blocks w' => w'
  end.

Definition value_of {A : Type} (m : M A) (w : World) : option A :=
  match m w with
  | Returns a _ => Some a
  | Blocks _ => None
  end.

(** A document whose [server_id] is a string, that is, a server's record. *)
Definition string_keyed (d : doc.t) : bool :=
  match doc.server_id d with
  | KString _ => true
  | KInt _ => false
  end.

(** A document whose [server_id] is an integer. *)
Definition int_keyed (d : doc.t) : bool := negb (string_keyed d).

(** No rune of [ps] starts with the byte [c]. *)
Definition starts_otherwise (c : ascii) (ps : list (list ascii)) : bool :=
  forallb (fun p => match p with [] => false | b :: _ => negb (gostrings.ascii_eqb b c) end)
    ps.

(** The unique indexes of [server_feedback] hold of a collection: no two
    documents share their [_id], or their [(server_id, user_id, source)]. *)
Fixpoint feedback_indexes (coll : list ServerFeedback.t) : bool :=
  match coll with
  | [] => true
  | f :: coll' =>
      (negb (existsb (MongoFeedbackDatabase.duplicate_key f) coll')
       && feedback_indexes coll')%bool
  end.

(** Not-a-number, on the specification side of the floats. *)
Definition SFnan (f : spec_float) : bool :=
  match f with
  | S754_nan => true
  | _ => false
  end.

(** The global counters the specification names for an event type, and
    the value the metrics document holds for a counter. *)
Definition counters_of (type : string) : list string :=
  if String.eqb type "install" then ["total_installs"; "installs_today"]
  else if String.eqb type "rating" then ["total_ratings"]
  else if String.eqb type "search" then ["total_searches"]
  else [].

Definition counter (field : string) (w : World) : option bson :=
  match analytics_metrics w !! "global_metrics" with
  | Some metrics => metrics !! field
  | None => None
  end.

(** The last byte of a string. *)
Fixpoint last_byte (s : string) : option ascii :=
  match s with
  | EmptyString => None
  | String c EmptyString => Some c
  | String _ s' => last_byte s'
  end.

(** The cache key [GetServerFeedbackHandler] computes for a request. *)
Definition list_request_key (r : VPHandlers.Request) : string :=
  VPHandlers.feedback_list_key
    (VPHandlers.part 0 (VPHandlers.path_parts (VPHandlers.Path r)))
    (if String.eqb (VPHandlers.Query r "source") "" then SourceRegistry
     else VPHandlers.Query r "source")
    (VPHandlers.limit_param (VPHandlers.Query r "limit") 20 100)
    (VPHandlers.offset_param (VPHandlers.Query r "offset"))
    (VPHandlers.sort_param (VPHandlers.Query r "sort")).

(** A call, whether it returns or blocks, leaves the clock, the
    time-to-live and every cached feedback list as they were. *)
Definition keeps_lists {A : Type} (m : M A) : Prop :=
  forall w : World,
    let w' := state_after m w in
    now w' = now w /\ ttl w' = ttl w
    /\ forall (serverID source : string) (limit offset : Z) (sort : FeedbackSortOrder),
         cache w' !! VPHandlers.feedback_list_key serverID source limit offset sort
         = cache w !! VPHandlers.feedback_list_key serverID source limit offset sort.










Module Scenario.

(** A fresh process: empty collections and cache, five minutes of
    time-to-live, the mutex free. *)
Definition fresh : World :=
  mkWorld 1000 0%nat 300000000000 ∅ unlocked [] [] ∅ [] false [].

(** Scenario 5: community stats of server X, no registry target. *)
Definition community_X : doc.t :=
  doc.mk (KString "X") (Some "COMMUNITY") (Some 100) (Some 4%float) (Some 10)
    (Some 5) (Some 6) None None None None None None None.

Definition claim_world : World := set_server_stats [community_X] fresh.

Definition stats_X : ServerStats.t :=
  ServerStats.mk "X" "COMMUNITY" 100 4%float 10 5 6 0 0 0 "" 0.

(** A request to create feedback that asks for [is_public = false]. *)
Definition private_feedback : ServerFeedback.t :=
  ServerFeedback.mk "" "foo" "" "u1" 4%float "not for display" 0 0 false "" "".

(** A server's record, and one update of the analytics sync. *)
Definition postgres_tools : doc.t :=
  doc.mk (KString "postgres-tools") (Some "REGISTRY") (Some 2) (Some 0%float) (Some 0)
    (Some 5) (Some 6) None None None None None None None.

Definition sync_world : World := set_server_stats [postgres_tools] fresh.

Definition sync_update : StatsUpdateRequest.t := StatsUpdateRequest.mk 0 150 45 120 0.

(** An install event, and a metrics document that counts 7 installs. *)
Definition install_event : ActivityEvent.t :=
  ActivityEvent.mk "" "install" "foo" "" "u1" None [] 0.

Definition metrics_world : World :=
  set_analytics_metrics
    {["global_metrics" := {["total_installs" := BInt 7; "installs_today" := BInt 2]}]}
    fresh.

(** Cache read-through on a feedback list: the request that lists the
    feedback of foo, and user u1 rating foo with 5. *)
Definition no_query : string -> string := fun _ => "".

Definition list_feedback : VPHandlers.Request :=
  VPHandlers.mkRequest "GET" "/vp/servers/foo/feedback" no_query.

Definition rate_foo : VPHandlers.Request :=
  VPHandlers.mkRequest "POST" "/vp/servers/foo/rate" no_query.

Definition five_stars : RatingRequest.t := RatingRequest.mk 5%float "great" "" "u1" "".

Definition after_listing : World :=
  state_after (VPHandlers.GetServerFeedbackHandler list_feedback) fresh.

Definition after_rating : World :=
  state_after (VPHandlers.SubmitFeedbackHandler rate_foo (Some five_stars)) after_listing.

(** Feedback f1 on foo by user u1, and user u2 trying to change and to
    delete it. *)
Definition feedback_f1 : ServerFeedback.t :=
  ServerFeedback.mk "f1" "foo" "REGISTRY" "u1" 5%float "great" 900 900 true "" "".

Definition rated_world : World := set_server_feedback [feedback_f1] fresh.






(** Scenario 4: no activity events; three rated servers, as the rating
    endpoint writes their records, in the order they were first rated. *)
Definition rated (id : string) (rating : float) : doc.t :=
  doc.mk (KString id) (Some "REGISTRY") None (Some rating) (Some 5)
    (Some 5) (Some 6) None None None None None None None.

Definition trending_world : World :=
  mkWorld 1000 0%nat 300000000000 ∅ unlocked
    [rated "low" 3.9%float; rated "mid" 4.2%float; rated "high" 4.5%float]
    [] ∅ [] false
    [Server.mk "low" "" ""; Server.mk "mid" "" ""; Server.mk "high" "" ""].

(** The same servers with every field of the score present; the
    lowest-rated one has by far the most installations. *)
Definition scored (id : string) (installs : Z) (rating : float) : doc.t :=
  doc.mk (KString id) (Some "REGISTRY") (Some installs) (Some rating) (Some 5)
    (Some 5) (Some 6) (Some 1) None None (Some 0%float) None None None.

Definition scored_world : World :=
  set_server_stats
    [scored "high" 10 4.5%float; scored "mid" 10 4.2%float; scored "low" 1000 3.9%float]
    trending_world.






End Scenario.

(** * Properties *)

(** ** Running the monad *)

Lemma bind_Returns {A B : Type} (m : M A) (k : A -> M B) (w w' : World) (a : A) :
  m w = Returns a w' -> (m ≫= k) w = k a w'.
Proof. intros H. unfold mbind, M_bind. now rewrite H. Qed.

Lemma bind_Blocks {A B : Type} (m : M A) (k : A -> M B) (w w' : World) :
  m w = Blocks w' -> (m ≫= k) w = Blocks w'.
Proof. intros H. unfold mbind, M_bind. now rewrite H. Qed.

Lemma Lock_unlocked (w : World) :
  mu w = unlocked -> Lock w = Returns tt (set_mu (mkRWMutex true 0) w).
Proof. intros H. unfold Lock. now rewrite H. Qed.

Lemma Lock_held (w : World) : writer (mu w) = true -> Lock w = Blocks w.
Proof. intros H. unfold Lock. now rewrite H. Qed.

Lemma with_Lock_held {A : Type} (body : M A) (w : World) :
  writer (mu w) = true -> with_Lock body w = Blocks w.
Proof. intros H. unfold with_Lock. apply bind_Blocks. now apply Lock_held. Qed.

(** ** The stats store *)

Section StatsStore.
Import MongoDatabase.

Lemma bson_key_eqb_eq (a b : bson_key) : bson_key_eqb a b = true <-> a = b.
Proof.
  destruct a as [x|x], b as [y|y]; simpl; split; intros H; try congruence.
  - apply String.eqb_eq in H. now subst.
  - inversion H. apply String.eqb_refl.
  - apply Z.eqb_eq in H. now subst.
  - inversion H. apply Z.eqb_refl.
Qed.

Lemma option_string_eqb_eq (a b : option string) : option_string_eqb a b = true <-> a = b.
Proof.
  destruct a as [x|], b as [y|]; simpl; split; intros H; try congruence.
  - apply String.eqb_eq in H. now subst.
  - inversion H. apply String.eqb_refl.
Qed.

Lemma by_id_source_spec (id src : string) (d : doc.t) :
  by_id_source id src d = true <-> doc.server_id d = KString id /\ doc.source d = Some src.
Proof.
  unfold by_id_source. rewrite andb_true_iff, bson_key_eqb_eq, option_string_eqb_eq.
  tauto.
Qed.

Lemma Decode_string_id (d : doc.t) (id : string) :
  doc.server_id d = KString id -> exists st, Decode d = Ok st /\ ServerStats.ServerID st = id.
Proof. intros H. unfold Decode. rewrite H. eexists. split; reflexivity. Qed.

(** A read through the filter [{server_id, source}] finds nothing or
    decodes: the matched document has a string under [server_id]. *)
Lemma FindOne_Decode_by_id_source (id src : string) (coll : list doc.t) :
  FindOne_Decode (by_id_source id src) coll = Err ErrNoDocuments
  \/ exists st, FindOne_Decode (by_id_source id src) coll = Ok st.
Proof.
  unfold FindOne_Decode. destruct (List.find _ coll) as [d|] eqn:Hf; [right|now left].
  apply List.find_some in Hf as [_ Hm]. apply by_id_source_spec in Hm as [Hid _].
  destruct (Decode_string_id d id Hid) as [st [Hst _]]. now exists st.
Qed.

Lemma UpsertStats_held (st : ServerStats.t) (w : World) :
  writer (mu w) = true -> UpsertStats st w = Blocks w.
Proof. intros H. unfold UpsertStats. now apply with_Lock_held. Qed.

End StatsStore.

Lemma TransferStats_blocks_in_UpsertStats
    (w : World) (fromServerID toServerID fromSource toSource : string) (d : doc.t) :
  mu w = unlocked ->
  List.find
    (MongoDatabase.by_id_source fromServerID
       (if String.eqb fromSource "" then SourceCommunity else fromSource))
    (server_stats w) = Some d ->
  MongoDatabase.TransferStats fromServerID toServerID fromSource toSource w
  = Blocks (set_mu (mkRWMutex true 0) w).
Proof.
  intros Hmu Hfind.
  unfold MongoDatabase.TransferStats, with_Lock.
  rewrite (bind_Returns _ _ _ _ _ (Lock_unlocked w Hmu)).
  apply bind_Blocks.
  set (w1 := set_mu (mkRWMutex true 0) w).
  unfold mbind at 1. unfold M_bind, get.
  change (server_stats w1) with (server_stats w).
  unfold MongoDatabase.FindOne_Decode at 1. rewrite Hfind.
  pose proof (List.find_some _ _ Hfind) as [_ Hm].
  apply by_id_source_spec in Hm as [Hid _].
  destruct (Decode_string_id d _ Hid) as [st [Hst _]]. rewrite Hst.
  destruct (FindOne_Decode_by_id_source toServerID
              (if String.eqb toSource "" then SourceRegistry else toSource)
              (server_stats w)) as [He | [tst He]]; rewrite He; simpl;
    unfold mbind, M_bind, time_Now; now rewrite UpsertStats_held.
Qed.

(** C3: whenever a stats record exists for [(from_id, from_source)],
    [TransferStats] never returns and writes nothing. With the mutex
    free at entry it takes the write lock and, still holding it, calls
    [UpsertStats], which asks for the same non-reentrant mutex: the call
    blocks there with the mutex held (otherwise it already waits at its
    own first [Lock]). *)
Theorem TransferStats_self_deadlock
    (w : World) (fromServerID toServerID fromSource toSource : string) (d : doc.t) :
  List.find
    (MongoDatabase.by_id_source fromServerID
       (if String.eqb fromSource "" then SourceCommunity else fromSource))
    (server_stats w) = Some d ->
  exists w',
    MongoDatabase.TransferStats fromServerID toServerID fromSource toSource w = Blocks w'
    /\ server_stats w' = server_stats w
    /\ (mu w = unlocked ->
        w' = set_mu (mkRWMutex true 0) w
        /\ MongoDatabase.UpsertStats
             (MongoDatabase.mergedStats ServerStats.zero None toServerID toSource fromSource 0)
             w' = Blocks w').
Proof.
  intros Hfind.
  destruct (mu w) as [wr rd] eqn:Hmu. destruct wr, rd as [|rd].
  - exists w. split; [|split; [reflexivity|discriminate]].
    apply with_Lock_held. now rewrite Hmu.
  - exists w. split; [|split; [reflexivity|discriminate]].
    apply with_Lock_held. now rewrite Hmu.
  - exists (set_mu (mkRWMutex true 0) w).
    split; [now apply (TransferStats_blocks_in_UpsertStats w _ _ _ _ d)|].
    split; [reflexivity|]. intros _. split; [reflexivity|].
    now apply UpsertStats_held.
  - exists w. split; [|split; [reflexivity|discriminate]].
    unfold MongoDatabase.TransferStats, with_Lock. apply bind_Blocks.
    unfold Lock. now rewrite Hmu.
Qed.

(** C1 (the code deviates): in the claim scenario [TransferStats] never
    completes. It blocks on its own mutex before the upsert; the
    collection still holds the community record alone, without a
    registry record and without [claimed_to]. The value it had computed
    for the target is the one the claim expects. *)
Theorem TransferStats_claim_scenario_blocks :
  (exists w',
     MongoDatabase.TransferStats "X" "X" SourceCommunity SourceRegistry Scenario.claim_world
       = Blocks w'
     /\ writer (mu w') = true
     /\ server_stats w' = [Scenario.community_X]
     /\ List.find (MongoDatabase.by_id_source "X" SourceRegistry) (server_stats w') = None
     /\ doc.claimed_to Scenario.community_X = None)
  /\ (let newStats :=
        MongoDatabase.mergedStats Scenario.stats_X None "X" SourceRegistry SourceCommunity
          (now Scenario.claim_world) in
      MongoDatabase.Decode Scenario.community_X = Ok Scenario.stats_X
      /\ ServerStats.InstallationCount newStats = 100
      /\ ServerStats.Rating newStats = 4%float
      /\ ServerStats.RatingCount newStats = 10
      /\ ServerStats.ClaimedFrom newStats = "COMMUNITY").
Proof.
  split.
  - eexists. split; [vm_compute; reflexivity|]. repeat split; reflexivity.
  - cbv zeta. repeat split; reflexivity.
Qed.

(** C2 (the code deviates): a first transfer already never returns, so
    there is no second run; and the merge step itself is not idempotent:
    applied to its own result it adds the source's counts once more. *)
Theorem TransferStats_rerun_blocks_and_merge_adds_again :
  (exists w',
     MongoDatabase.TransferStats "X" "X" SourceCommunity SourceRegistry Scenario.claim_world
       = Blocks w')
  /\ (let once :=
        MongoDatabase.mergedStats Scenario.stats_X None "X" SourceRegistry SourceCommunity 7 in
      let twice :=
        MongoDatabase.mergedStats Scenario.stats_X (Some once) "X" SourceRegistry
          SourceCommunity 8 in
      ServerStats.InstallationCount once = 100 /\ ServerStats.RatingCount once = 10
      /\ ServerStats.InstallationCount twice = 200 /\ ServerStats.RatingCount twice = 20).
Proof.
  split; [eexists; vm_compute; reflexivity|]. vm_compute. repeat split; reflexivity.
Qed.

Lemma TransferStats_self_deadlock_witness :
  List.find (MongoDatabase.by_id_source "X" SourceCommunity)
    (server_stats Scenario.claim_world) = Some Scenario.community_X
  /\ exists w',
       MongoDatabase.TransferStats "X" "X" "" "" Scenario.claim_world = Blocks w'
       /\ server_stats w' = server_stats Scenario.claim_world
       /\ (mu Scenario.claim_world = unlocked ->
           w' = set_mu (mkRWMutex true 0) Scenario.claim_world
           /\ MongoDatabase.UpsertStats
                (MongoDatabase.mergedStats ServerStats.zero None "X" "" "" 0) w' = Blocks w').
Proof.
  split; [reflexivity|].
  apply (TransferStats_self_deadlock Scenario.claim_world "X" "X" "" "" Scenario.community_X).
  reflexivity.
Defined.

(** ** [UpdateOne] under the unique index *)

Section UpdateOneFacts.
Import MongoDatabase.

Lemma wrap64_small (z : Z) : min_int <= z <= max_int -> wrap64 z = z.
Proof.
  unfold wrap64, min_int, max_int.
  assert (H63 : 2 ^ 63 = 9223372036854775808) by reflexivity.
  assert (H64 : 2 ^ 64 = 18446744073709551616) by reflexivity.
  rewrite H63, H64. intros H. rewrite Z.mod_small; lia.
Qed.

Lemma same_key_cong (a b o : doc.t) :
  doc.server_id a = doc.server_id b -> doc.source a = doc.source b ->
  same_key a o = same_key b o.
Proof. intros H1 H2. unfold same_key. now rewrite H1, H2. Qed.

Lemma violates_unique_cong (a b : doc.t) (l : list doc.t) :
  doc.server_id a = doc.server_id b -> doc.source a = doc.source b ->
  violates_unique a l = violates_unique b l.
Proof.
  intros H1 H2. induction l as [|o l IH]; simpl; [reflexivity|].
  now rewrite IH, (same_key_cong a b o H1 H2).
Qed.

(** A document under the key of the filter collides with no document
    the filter rejects. *)
Lemma same_key_rejected (id src : string) (d x : doc.t) :
  doc.server_id d = KString id -> doc.source d = Some src ->
  by_id_source id src x = false -> same_key d x = false.
Proof.
  intros Hid Hsrc Hx. unfold same_key. rewrite Hid, Hsrc.
  destruct (bson_key_eqb (KString id) (doc.server_id x)) eqn:E1; [|reflexivity].
  destruct (option_string_eqb (Some src) (doc.source x)) eqn:E2; [|reflexivity].
  apply bson_key_eqb_eq in E1. apply option_string_eqb_eq in E2.
  assert (by_id_source id src x = true) by (apply by_id_source_spec; split; congruence).
  congruence.
Qed.

Lemma violates_unique_no_match (id src : string) (d : doc.t) (coll : list doc.t) :
  doc.server_id d = KString id -> doc.source d = Some src ->
  List.find (by_id_source id src) coll = None ->
  violates_unique d coll = false.
Proof.
  intros Hid Hsrc. induction coll as [|x coll IH]; simpl; [reflexivity|].
  destruct (by_id_source id src x) eqn:Hx; [discriminate|]. intros Hf.
  rewrite (same_key_rejected id src d x Hid Hsrc Hx). simpl. now apply IH.
Qed.

Lemma violates_unique_in_place (id src : string) (d d' : doc.t) (coll : list doc.t) :
  unique_index coll = true ->
  List.find (by_id_source id src) coll = Some d ->
  doc.server_id d' = doc.server_id d -> doc.source d' = doc.source d ->
  violates_unique d' (remove_first (by_id_source id src) coll) = false.
Proof.
  intros Hu Hf Hid Hsrc. induction coll as [|x coll IH]; simpl in *; [discriminate|].
  apply andb_true_iff in Hu as [Hx Hu]. apply negb_true_iff in Hx.
  destruct (by_id_source id src x) eqn:Hm.
  - inversion Hf; subst x. rewrite <- Hx. now apply violates_unique_cong.
  - simpl. rewrite (IH Hu Hf), orb_false_r.
    pose proof (List.find_some _ _ Hf) as [_ Hd].
    apply by_id_source_spec in Hd as [Hdid Hdsrc].
    apply (same_key_rejected id src); congruence.
Qed.

Lemma find_replace_first (p : doc.t -> bool) (f : doc.t -> doc.t) (d : doc.t)
    (coll : list doc.t) :
  List.find p coll = Some d -> p (f d) = true ->
  List.find p (replace_first p f coll) = Some (f d).
Proof.
  induction coll as [|x coll IH]; simpl; [discriminate|].
  destruct (p x) eqn:Hx; intros Hf Hp.
  - inversion Hf; subst x. simpl. now rewrite Hp.
  - simpl. rewrite Hx. now apply IH.
Qed.

Lemma find_app_new (p : doc.t -> bool) (d : doc.t) (coll : list doc.t) :
  List.find p coll = None -> p d = true -> List.find p (coll ++ [d])%list = Some d.
Proof.
  induction coll as [|x coll IH]; simpl; intros Hf Hp.
  - now rewrite Hp.
  - destruct (p x); [discriminate|]. now apply IH.
Qed.

Lemma bson_key_eqb_sym (a b : bson_key) : bson_key_eqb a b = bson_key_eqb b a.
Proof.
  destruct a, b; simpl; try reflexivity; [apply String.eqb_sym | apply Z.eqb_sym].
Qed.

Lemma option_string_eqb_sym (a b : option string) :
  option_string_eqb a b = option_string_eqb b a.
Proof. destruct a, b; simpl; try reflexivity. apply String.eqb_sym. Qed.

Lemma same_key_sym (a b : doc.t) : same_key a b = same_key b a.
Proof. unfold same_key. now rewrite bson_key_eqb_sym, option_string_eqb_sym. Qed.

Lemma unique_index_app (coll : list doc.t) (d : doc.t) :
  unique_index coll = true -> violates_unique d coll = false ->
  unique_index (coll ++ [d])%list = true.
Proof.
  induction coll as [|x coll IH]; simpl; intros Hu Hv; [reflexivity|].
  apply andb_true_iff in Hu as [Hx Hu]. apply orb_false_iff in Hv as [Hdx Hv].
  rewrite (IH Hu Hv), andb_true_r. apply negb_true_iff in Hx. apply negb_true_iff.
  unfold violates_unique in *. rewrite existsb_app, Hx. simpl.
  now rewrite same_key_sym, Hdx.
Qed.

Lemma violates_unique_replace_first (d : doc.t) (p : doc.t -> bool) (f : doc.t -> doc.t)
    (coll : list doc.t) :
  (forall x, doc.server_id (f x) = doc.server_id x) ->
  (forall x, p x = true -> doc.source (f x) = doc.source x) ->
  violates_unique d (replace_first p f coll) = violates_unique d coll.
Proof.
  intros Hid Hsrc. induction coll as [|x coll IH]; simpl; [reflexivity|].
  destruct (p x) eqn:Hp; simpl; [|now rewrite IH].
  f_equal. rewrite (same_key_sym d (f x)), (same_key_sym d x).
  apply same_key_cong; [apply Hid | now apply Hsrc].
Qed.

Lemma unique_index_replace_first (p : doc.t -> bool) (f : doc.t -> doc.t)
    (coll : list doc.t) :
  (forall x, doc.server_id (f x) = doc.server_id x) ->
  (forall x, p x = true -> doc.source (f x) = doc.source x) ->
  unique_index coll = true -> unique_index (replace_first p f coll) = true.
Proof.
  intros Hid Hsrc. induction coll as [|x coll IH]; simpl; [reflexivity|].
  intros Hu. apply andb_true_iff in Hu as [Hx Hu].
  destruct (p x) eqn:Hp; simpl.
  - rewrite Hu, andb_true_r. rewrite <- Hx. f_equal.
    apply violates_unique_cong; [apply Hid | now apply Hsrc].
  - rewrite (IH Hu), andb_true_r.
    now rewrite violates_unique_replace_first.
Qed.

(** An upsert through [{server_id, source}] whose update keeps the key
    succeeds on a collection that satisfies the unique index, and the
    next read through the same filter returns the written document. *)
Lemma UpdateOne_by_id_source (id src : string) (upd : doc.t -> doc.t) (ins : doc.t)
    (coll : list doc.t) :
  unique_index coll = true ->
  (forall d, doc.server_id (upd d) = doc.server_id d) ->
  (forall d, doc.source (upd d) = Some src) ->
  doc.server_id ins = KString id -> doc.source ins = Some src ->
  exists coll',
    UpdateOne (by_id_source id src) upd (Some ins) coll = Ok coll'
    /\ unique_index coll' = true
    /\ List.find (by_id_source id src) coll'
       = Some (match List.find (by_id_source id src) coll with
               | Some d => upd d
               | None => ins
               end).
Proof.
  intros Hu Hkid Hksrc Hiid Hisrc. unfold UpdateOne.
  destruct (List.find (by_id_source id src) coll) as [d|] eqn:Hf.
  - pose proof (List.find_some _ _ Hf) as [_ Hd].
    apply by_id_source_spec in Hd as [Hdid Hdsrc].
    rewrite (violates_unique_in_place id src d (upd d) coll Hu Hf);
      [|apply Hkid|rewrite Hksrc; congruence].
    eexists. split; [reflexivity|]. split.
    + apply unique_index_replace_first; [assumption| |assumption].
      intros x Hx. apply by_id_source_spec in Hx as [_ Hx]. now rewrite Hksrc.
    + apply find_replace_first; [assumption|].
      apply by_id_source_spec. rewrite Hkid, Hksrc. now split.
  - pose proof (violates_unique_no_match id src ins coll Hiid Hisrc Hf) as Hv.
    rewrite Hv. eexists. split; [reflexivity|]. split.
    + now apply unique_index_app.
    + apply find_app_new; [assumption|]. now apply by_id_source_spec.
Qed.

End UpdateOneFacts.

(** ** The running mean of [UpdateRating] *)

Section RunningMean.
Import MongoDatabase.

Lemma UpdateRating_step
    (w : World) (serverID source : string) (newRating : float)
    (sid src : string) (r : float) (c : Z) :
  mu w = unlocked ->
  unique_index (server_stats w) = true ->
  validation.SanitizeServerID serverID = Ok sid ->
  src = (if String.eqb source "" then SourceRegistry else source) ->
  validation.ValidateSource src = Ok src ->
  stored_rating sid src w = (r, c) ->
  min_int <= c < max_int ->
  exists w',
    UpdateRating serverID source newRating w = Returns None w'
    /\ mu w' = unlocked
    /\ unique_index (server_stats w') = true
    /\ stored_rating sid src w'
       = (((r * float_of_int c + newRating) / float_of_int (c + 1))%float, c + 1).
Proof.
  intros Hmu Hu Hsan Hsrc Hval Hsr Hc.
  unfold UpdateRating, with_Lock.
  rewrite (bind_Returns _ _ _ _ _ (Lock_unlocked w Hmu)).
  rewrite Hsan. rewrite <- Hsrc. rewrite Hval.
  unfold mbind, M_bind, get, time_Now, modify, Unlock, mret, M_ret.
  cbn [server_stats set_mu now mu readers].
  assert (Hcur : exists current,
            match FindOne_Decode (by_id_source sid src) (server_stats w) with
            | Ok current => Ok current
            | Err e => if is_ErrNoDocuments e then Ok ServerStats.zero else Err e
            end = Ok current
            /\ ServerStats.Rating current = r /\ ServerStats.RatingCount current = c).
  { unfold stored_rating in Hsr.
    destruct (FindOne_Decode_by_id_source sid src (server_stats w)) as [He|[st He]];
      rewrite He in *; simpl.
    - exists ServerStats.zero. inversion Hsr. now repeat split.
    - exists st. inversion Hsr. now repeat split. }
  destruct Hcur as [current [Hcur [Hr Hcnt]]]. rewrite Hcur.
  rewrite Hr, Hcnt.
  unfold int_add. rewrite wrap64_small by (unfold min_int, max_int in *; lia).
  change (now (set_mu {| writer := true; readers := 0 |} w)) with (now w).
  set (r' := ((r * float_of_int c + newRating) / float_of_int (c + 1))%float).
  set (upd := set_rating r' (c + 1) (now w) src).
  set (ins := set_first_seen (now w) (upd (doc.of_filter (KString sid) (Some src)))).
  destruct (UpdateOne_by_id_source sid src upd ins (server_stats w) Hu)
    as [coll' [Hup [Hu' Hfind]]]; try reflexivity.
  rewrite Hup.
  eexists. split; [reflexivity|]. split; [reflexivity|]. split; [exact Hu'|].
  unfold stored_rating. simpl. unfold FindOne_Decode. rewrite Hfind.
  destruct (List.find (by_id_source sid src) (server_stats w)) as [d|] eqn:Hf.
  - pose proof (List.find_some _ _ Hf) as [_ Hd].
    apply by_id_source_spec in Hd as [Hdid _].
    unfold Decode. simpl. rewrite Hdid. reflexivity.
  - reflexivity.
Qed.

End RunningMean.

(** C4: [UpdateRating] on a record with mean [r] and count [c] (zeros
    when there is no record yet) stores the mean
    [(r*c + new)/(c+1)] and the count [c+1], in [float64] arithmetic;
    from no record, the ratings 5, 3, 4 give the count 3 and the mean 4.0
    exactly, so within 1e-6. The identifier and the source are taken
    valid and in canonical form, and the count below the largest [int]. *)
Theorem UpdateRating_running_mean :
  (forall (w : World) (serverID source : string) (newRating : float)
          (sid src : string) (r : float) (c : Z),
     mu w = unlocked ->
     unique_index (server_stats w) = true ->
     validation.SanitizeServerID serverID = Ok sid ->
     src = (if String.eqb source "" then SourceRegistry else source) ->
     validation.ValidateSource src = Ok src ->
     stored_rating sid src w = (r, c) ->
     min_int <= c < max_int ->
     exists w',
       MongoDatabase.UpdateRating serverID source newRating w = Returns None w'
       /\ mu w' = unlocked
       /\ unique_index (server_stats w') = true
       /\ stored_rating sid src w'
          = (((r * float_of_int c + newRating) / float_of_int (c + 1))%float, c + 1))
  /\ (exists w1 w2 w3 w4 st,
        MongoDatabase.UpdateRating "foo" "REGISTRY" 5%float Scenario.fresh = Returns None w1
        /\ MongoDatabase.UpdateRating "foo" "REGISTRY" 3%float w1 = Returns None w2
        /\ MongoDatabase.UpdateRating "foo" "REGISTRY" 4%float w2 = Returns None w3
        /\ MongoDatabase.GetStats "foo" "" w3 = Returns (Ok st) w4
        /\ ServerStats.RatingCount st = 3
        /\ ServerStats.Rating st = 4%float
        /\ PrimFloat.leb (PrimFloat.abs (ServerStats.Rating st - 4)) 1e-6 = true).
Proof.
  split; [exact UpdateRating_step|].
  do 5 eexists.
  split; [vm_compute; reflexivity|].
  split; [vm_compute; reflexivity|].
  split; [vm_compute; reflexivity|].
  split; [vm_compute; reflexivity|].
  repeat split; vm_compute; reflexivity.
Qed.

Lemma UpdateRating_running_mean_witness :
  exists w',
    MongoDatabase.UpdateRating "foo" "" 5%float Scenario.fresh = Returns None w'
    /\ mu w' = unlocked
    /\ unique_index (server_stats w') = true
    /\ stored_rating "foo" "REGISTRY" w'
       = (((0 * float_of_int 0 + 5) / float_of_int (0 + 1))%float, 0 + 1).
Proof.
  apply (proj1 UpdateRating_running_mean Scenario.fresh "foo" "" 5%float "foo" "REGISTRY"
           0%float 0).
  - reflexivity.
  - reflexivity.
  - vm_compute. reflexivity.
  - reflexivity.
  - vm_compute. reflexivity.
  - reflexivity.
  - split; [vm_compute; discriminate | reflexivity].
Defined.

(** ** The feedback store *)

Section Feedback.
Import MongoFeedbackDatabase.

Lemma InsertOne_Ok (f : ServerFeedback.t) (coll coll' : list ServerFeedback.t) :
  InsertOne f coll = Ok coll' -> coll' = (coll ++ [stored f])%list.
Proof. unfold InsertOne. destruct (existsb _ coll); intros H; now inversion H. Qed.

Lemma public_after_default (f : ServerFeedback.t) :
  ServerFeedback.IsPublic
    (if negb (ServerFeedback.IsPublic f) then with_IsPublic true f else f) = true.
Proof. destruct (ServerFeedback.IsPublic f) eqn:E; simpl; [exact E|reflexivity]. Qed.

Lemma CreateFeedback_outcome (w : World) (feedback : ServerFeedback.t) :
  exists fb' err w',
    CreateFeedback feedback w = Returns (fb', err) w'
    /\ (err = None ->
        ServerFeedback.IsPublic fb' = true
        /\ server_feedback w' = (server_feedback w ++ [stored fb'])%list
        /\ ServerFeedback.IsPublic (stored fb') = true)
    /\ (err <> None -> server_feedback w' = server_feedback w).
Proof.
  unfold CreateFeedback.
  destruct (_ || _)%bool.
  { do 3 eexists. split; [reflexivity|]. split; [discriminate|reflexivity]. }
  destruct (validation.SanitizeServerID _) as [sid|e].
  2:{ do 3 eexists. split; [reflexivity|]. split; [discriminate|reflexivity]. }
  destruct (validation.ValidateSource _) as [vs|e].
  2:{ do 3 eexists. split; [reflexivity|]. split; [discriminate|reflexivity]. }
  unfold mbind, M_bind, mret, M_ret, fresh_id, time_Now, get, modify.
  match goal with |- context [String.eqb (ServerFeedback.ID ?f) ""] =>
    destruct (String.eqb (ServerFeedback.ID f) "") end.
  all: match goal with |- context [InsertOne ?f ?c] =>
         destruct (InsertOne f c) as [coll'|e] eqn:Hins end.
  all: try (apply InsertOne_Ok in Hins; subst coll';
            do 3 eexists; split; [reflexivity|]; split; [|congruence];
            intros _; split; [apply public_after_default|];
            split; [reflexivity|apply public_after_default]).
  all: destruct (IsDuplicateKeyError e);
       do 3 eexists; (split; [reflexivity|]); (split; [discriminate|reflexivity]).
Qed.
End Feedback.

(** C10: whatever [is_public] the caller supplies, a record written by
    [CreateFeedback] has [is_public = true]: the call always returns,
    on success it has appended exactly one record, a public one, and on
    failure it has written nothing; a request with [is_public = false]
    is stored public. *)
Theorem CreateFeedback_always_public :
  (forall (w : World) (feedback : ServerFeedback.t),
     exists fb' err w',
       MongoFeedbackDatabase.CreateFeedback feedback w = Returns (fb', err) w'
       /\ (err = None ->
           ServerFeedback.IsPublic fb' = true
           /\ server_feedback w'
              = (server_feedback w ++ [MongoFeedbackDatabase.stored fb'])%list
           /\ ServerFeedback.IsPublic (MongoFeedbackDatabase.stored fb') = true)
       /\ (err <> None -> server_feedback w' = server_feedback w))
  /\ (ServerFeedback.IsPublic Scenario.private_feedback = false
      /\ exists fb' w' f,
           MongoFeedbackDatabase.CreateFeedback Scenario.private_feedback Scenario.fresh
             = Returns (fb', None) w'
           /\ server_feedback w' = [f]
           /\ ServerFeedback.UserID f = "u1"
           /\ ServerFeedback.IsPublic f = true).
Proof.
  split; [exact CreateFeedback_outcome|].
  split; [reflexivity|]. do 3 eexists.
  split; [vm_compute; reflexivity|]. repeat split; reflexivity.
Qed.

(** ** The analytics sync never reaches a server's record *)

Section Sync.
Import MongoDatabase.

Lemma by_id_KInt_not_string (n : Z) (d : doc.t) :
  by_id (KInt n) d = true -> string_keyed d = false.
Proof.
  unfold by_id, string_keyed. intros H. apply bson_key_eqb_eq in H. now rewrite H.
Qed.

Lemma filter_string_keyed_replace_first (n : Z) (f : doc.t -> doc.t) (coll : list doc.t) :
  (forall d, doc.server_id (f d) = doc.server_id d) ->
  List.filter string_keyed (replace_first (by_id (KInt n)) f coll)
  = List.filter string_keyed coll.
Proof.
  intros Hid. induction coll as [|x coll IH]; simpl; [reflexivity|].
  destruct (by_id (KInt n) x) eqn:Hx; simpl.
  - apply by_id_KInt_not_string in Hx. rewrite Hx.
    unfold string_keyed in *. rewrite Hid. now rewrite Hx.
  - now rewrite IH.
Qed.

Lemma write_model_string_keyed (now : time) (u : StatsUpdateRequest.t)
    (coll coll' : list doc.t) :
  write_model now u coll = Ok coll' ->
  List.filter string_keyed coll' = List.filter string_keyed coll.
Proof.
  unfold write_model, UpdateOne.
  destruct (List.find _ coll) as [d|].
  - destruct (violates_unique _ _); intros H; inversion H; subst.
    now apply filter_string_keyed_replace_first.
  - destruct (violates_unique _ _); intros H; inversion H; subst.
    rewrite List.filter_app. simpl. apply app_nil_r.
Qed.

Lemma BulkWrite_string_keyed (now : time) (updates : list StatsUpdateRequest.t)
    (coll : list doc.t) :
  List.filter string_keyed (BulkWrite now updates coll).2 = List.filter string_keyed coll.
Proof.
  revert coll. induction updates as [|u updates IH]; intros coll; simpl; [reflexivity|].
  destruct (write_model now u coll) as [coll'|e] eqn:Hw; simpl; [|reflexivity].
  rewrite IH. now apply (write_model_string_keyed now u).
Qed.

Lemma SyncAnalyticsData_string_keyed (w : World) (updates : list StatsUpdateRequest.t) :
  mu w = unlocked ->
  exists err w',
    SyncAnalyticsData updates w = Returns err w'
    /\ mu w' = unlocked
    /\ List.filter string_keyed (server_stats w') = List.filter string_keyed (server_stats w).
Proof.
  intros Hmu. unfold SyncAnalyticsData, with_Lock.
  rewrite (bind_Returns _ _ _ _ _ (Lock_unlocked w Hmu)).
  unfold mbind, M_bind, mret, M_ret, time_Now, get, modify, Unlock.
  destruct (Nat.ltb 0 (List.length updates)).
  - cbn [server_stats set_mu].
    pose proof (BulkWrite_string_keyed
                  (now (set_mu {| writer := true; readers := 0 |} w)) updates
                  (server_stats w)) as Hb.
    destruct (BulkWrite _ updates (server_stats w)) as [err coll].
    destruct err; do 2 eexists; (split; [reflexivity|]); (split; [reflexivity|]); exact Hb.
  - do 2 eexists. split; [reflexivity|]. split; reflexivity.
Qed.

End Sync.

(** C8 (the code deviates): [SyncAnalyticsData] filters on
    [server_id = update.InstallationDelta], an integer, so it never
    selects a server's record: after any batch the records whose
    [server_id] is a string are exactly what they were, and the analytics
    fields land in a document keyed by the integer. In the example the
    record of postgres-tools keeps no [active_installs] while a document
    with [server_id = 0] receives 150, 45 and 120. *)
Theorem SyncAnalyticsData_misses_server_records :
  (forall (w : World) (updates : list StatsUpdateRequest.t),
     mu w = unlocked ->
     exists err w',
       MongoDatabase.SyncAnalyticsData updates w = Returns err w'
       /\ mu w' = unlocked
       /\ List.filter string_keyed (server_stats w')
          = List.filter string_keyed (server_stats w))
  /\ (exists w' d,
        MongoDatabase.SyncAnalyticsData [Scenario.sync_update] Scenario.sync_world
          = Returns None w'
        /\ server_stats w' = [Scenario.postgres_tools; d]
        /\ doc.active_installs Scenario.postgres_tools = None
        /\ doc.server_id d = KInt 0
        /\ doc.active_installs d = Some 150
        /\ doc.daily_active_users d = Some 45
        /\ doc.monthly_active_users d = Some 120).
Proof.
  split; [exact SyncAnalyticsData_string_keyed|].
  do 2 eexists. split; [vm_compute; reflexivity|]. repeat split; reflexivity.
Qed.

Lemma SyncAnalyticsData_misses_server_records_witness :
  exists err w',
    MongoDatabase.SyncAnalyticsData [Scenario.sync_update] Scenario.sync_world
      = Returns err w'
    /\ mu w' = unlocked
    /\ List.filter string_keyed (server_stats w')
       = List.filter string_keyed (server_stats Scenario.sync_world).
Proof.
  apply (proj1 SyncAnalyticsData_misses_server_records Scenario.sync_world
           [Scenario.sync_update]).
  reflexivity.
Defined.

(** ** The activity log and the global counters *)

Section Activity.
Import MongoAnalyticsDatabase.

(** Evaluate the tests on the (now known) event type. *)
Ltac eval_type_tests :=
  repeat match goal with
    | |- context [String.eqb ?a ?b] =>
        let v := eval vm_compute in (String.eqb a b) in
        change (String.eqb a b) with v; cbv iota
    end;
  match goal with
  | |- context [Nat.ltb 0%nat (size ?m)] => change (Nat.ltb 0%nat (size m)) with true; cbv iota
  end.

Lemma RecordActivity_counter (w : World) (event : ActivityEvent.t) (field : string) :
  In field (counters_of (ActivityEvent.Type_ event)) ->
  exists ev err w',
    RecordActivity event w = Returns (ev, err) w'
    /\ activity_events w' = (activity_events w ++ [ev])%list
    /\ ev = with_ID_Timestamp ("oid-" +:+ gostrings.Itoa (Z.of_nat (next_id w))) (now w) event
    /\ counter field w' = (if dollar_fields_storable w then Some inc_1 else counter field w)
    /\ (err = None <-> dollar_fields_storable w = true).
Proof.
  intros Hin. unfold counters_of in Hin.
  unfold RecordActivity.
  unfold mbind, M_bind, mret, M_ret, fresh_id, time_Now, get, modify.
  cbn [ActivityEvent.Type_ with_ID_Timestamp].
  unfold UpdateAnalyticsMetrics, storable.
  unfold mbind, M_bind, mret, M_ret, time_Now, get, modify.
  destruct (String.eqb (ActivityEvent.Type_ event) "install") eqn:E1;
    [|destruct (String.eqb (ActivityEvent.Type_ event) "rating") eqn:E2;
      [|destruct (String.eqb (ActivityEvent.Type_ event) "search") eqn:E3;
        [|destruct Hin]]].
  all: match goal with
       | |- context [Nat.ltb 0%nat (size ?m)] =>
           change (Nat.ltb 0%nat (size m)) with true; cbv beta iota
       end.
  all: match goal with
       | |- context [existsb ?f (map_to_list ?m)] =>
           let H := fresh "Hex" in
           assert (H : existsb f (map_to_list m) = true) by (vm_compute; reflexivity);
           rewrite H; clear H
       end.
  all: unfold counter; cbn [dollar_fields_storable set_activity_events set_next_id
                             analytics_metrics set_analytics_metrics orb negb].
  all: destruct (dollar_fields_storable w);
    cbn [orb negb analytics_metrics set_analytics_metrics set_activity_events set_next_id];
    do 3 eexists; (split; [reflexivity|]); (split; [reflexivity|]);
    (split; [reflexivity|]).
  all: try (split; [reflexivity | split; [discriminate | discriminate]]).
  all: split; [|split; reflexivity].
  all: cbn [analytics_metrics set_analytics_metrics]; rewrite lookup_insert_eq.
  all: apply lookup_union_Some_l.
  all: simpl in Hin; repeat (destruct Hin as [Hin|Hin]; [subst field|]);
       try contradiction; vm_compute; reflexivity.
Qed.

End Activity.

(** C7 (the code deviates): [RecordActivity] inserts the event with a
    fresh id and [timestamp = now], but it does not increment the
    counters: it hands [{counter: {"$inc": 1}}] to
    [UpdateAnalyticsMetrics], which wraps its argument in [$set]. Each
    counter named for the event type ends up holding the document
    [{"$inc": 1}] where the server stores such a value, and its old value
    where the server rejects the write; never the old value plus one. *)
Theorem RecordActivity_counters_not_incremented
    (w : World) (event : ActivityEvent.t) (field : string) :
  In field (counters_of (ActivityEvent.Type_ event)) ->
  exists ev err w',
    MongoAnalyticsDatabase.RecordActivity event w = Returns (ev, err) w'
    /\ activity_events w' = (activity_events w ++ [ev])%list
    /\ ActivityEvent.Timestamp ev = now w
    /\ ActivityEvent.ID ev = "oid-" +:+ gostrings.Itoa (Z.of_nat (next_id w))
    /\ counter field w'
       = (if dollar_fields_storable w then Some MongoAnalyticsDatabase.inc_1
          else counter field w)
    /\ (forall n, counter field w = Some (BInt n) -> counter field w' <> Some (BInt (n + 1)))
    /\ (counter field w = None -> counter field w' <> Some (BInt 1)).
Proof.
  intros Hin.
  destruct (RecordActivity_counter w event field Hin)
    as [ev [err [w' [Hrun [Hlog [Hev [Hcnt _]]]]]]].
  exists ev, err, w'. split; [exact Hrun|]. split; [exact Hlog|].
  split; [now rewrite Hev|]. split; [now rewrite Hev|]. split; [exact Hcnt|].
  rewrite Hcnt. split.
  - intros n Hn. destruct (dollar_fields_storable w); [discriminate|].
    rewrite Hn. intros H. inversion H. lia.
  - intros Hn. destruct (dollar_fields_storable w); [discriminate|].
    rewrite Hn. discriminate.
Qed.

Lemma RecordActivity_counters_not_incremented_witness :
  exists ev err w',
    MongoAnalyticsDatabase.RecordActivity Scenario.install_event Scenario.metrics_world
      = Returns (ev, err) w'
    /\ activity_events w' = (activity_events Scenario.metrics_world ++ [ev])%list
    /\ ActivityEvent.Timestamp ev = now Scenario.metrics_world
    /\ ActivityEvent.ID ev
       = "oid-" +:+ gostrings.Itoa (Z.of_nat (next_id Scenario.metrics_world))
    /\ counter "total_installs" w'
       = (if dollar_fields_storable Scenario.metrics_world
          then Some MongoAnalyticsDatabase.inc_1
          else counter "total_installs" Scenario.metrics_world)
    /\ (forall n, counter "total_installs" Scenario.metrics_world = Some (BInt n) ->
                  counter "total_installs" w' <> Some (BInt (n + 1)))
    /\ (counter "total_installs" Scenario.metrics_world = None ->
        counter "total_installs" w' <> Some (BInt 1)).
Proof.
  apply (RecordActivity_counters_not_incremented Scenario.metrics_world
           Scenario.install_event "total_installs").
  simpl. left. reflexivity.
Defined.

(** ** Cache keys *)

Section CacheKeys.
Import VPHandlers.

Lemma append_nonempty (x y : string) : y <> "" -> x +:+ y <> "".
Proof. destruct x; simpl; [auto|discriminate]. Qed.

Lemma last_byte_append (x y : string) : y <> "" -> last_byte (x +:+ y) = last_byte y.
Proof.
  intros Hy. induction x as [|c x IH]; simpl; [reflexivity|].
  destruct (x +:+ y) eqn:E; [now apply append_nonempty in E|exact IH].
Qed.

Lemma sort_string_nonempty (sort : FeedbackSortOrder) : FeedbackSortOrder_string sort <> "".
Proof. destruct sort; discriminate. Qed.

(** A feedback-list key ends with the name of a sort order. *)
Lemma last_byte_feedback_list_key (serverID source : string) (limit offset : Z)
    (sort : FeedbackSortOrder) :
  last_byte (feedback_list_key serverID source limit offset sort)
  = last_byte (FeedbackSortOrder_string sort).
Proof.
  unfold feedback_list_key.
  pose proof (sort_string_nonempty sort) as Hs.
  repeat (rewrite last_byte_append; [|repeat apply append_nonempty; exact Hs]).
  reflexivity.
Qed.

Lemma feedback_list_key_not_pattern (serverID source : string) (limit offset : Z)
    (sort : FeedbackSortOrder) (serverID' : string) :
  "vp:feedback:" +:+ serverID' +:+ ":*" <> feedback_list_key serverID source limit offset sort.
Proof.
  intros H. apply (f_equal last_byte) in H.
  rewrite last_byte_feedback_list_key in H.
  rewrite (last_byte_append "vp:feedback:") in H by (apply append_nonempty; discriminate).
  rewrite (last_byte_append serverID') in H by discriminate.
  destruct sort; discriminate.
Qed.

Lemma feedback_list_key_prefix (serverID source : string) (limit offset : Z)
    (sort : FeedbackSortOrder) :
  exists rest, feedback_list_key serverID source limit offset sort = "vp:f" +:+ rest.
Proof. eexists. unfold feedback_list_key. simpl. reflexivity. Qed.

(** [invalidateFeedbackCache] deletes five keys; none of them is the key
    of a cached feedback list, so every such entry survives it. *)
Lemma invalidateFeedbackCache_keeps_lists (w : World) (serverID' source' : string)
    (serverID source : string) (limit offset : Z) (sort : FeedbackSortOrder) :
  exists w',
    invalidateFeedbackCache serverID' source' w = Returns tt w'
    /\ cache w' !! feedback_list_key serverID source limit offset sort
       = cache w !! feedback_list_key serverID source limit offset sort
    /\ now w' = now w /\ ttl w' = ttl w /\ server_feedback w' = server_feedback w
    /\ server_stats w' = server_stats w /\ mu w' = mu w.
Proof.
  pose proof (feedback_list_key_not_pattern serverID source limit offset sort serverID') as H1.
  destruct (feedback_list_key_prefix serverID source limit offset sort) as [rest Hk].
  unfold invalidateFeedbackCache, CacheService.Delete.
  unfold mbind, M_bind, mret, M_ret.
  destruct (negb (String.eqb source' "")); eexists; (split; [reflexivity|]);
    (split; [|repeat split; reflexivity]); cbn [cache set_cache];
    rewrite !lookup_delete_ne; try reflexivity; try exact H1;
    rewrite Hk; simpl; discriminate.
Qed.

End CacheKeys.

(** ** What a rating submission leaves in the cache *)

Section Frame.
Import VPHandlers.

Lemma keeps_ret {A : Type} (a : A) : keeps_lists (mret a : M A).
Proof. intros w. simpl. auto. Qed.

Lemma keeps_bind {A B : Type} (m : M A) (k : A -> M B) :
  keeps_lists m -> (forall a, keeps_lists (k a)) -> keeps_lists (m ≫= k).
Proof.
  intros Hm Hk w. specialize (Hm w). unfold state_after in *.
  unfold mbind, M_bind. destruct (m w) as [a w1|w1]; [|exact Hm].
  specialize (Hk a w1). unfold state_after in Hk. simpl in *.
  destruct (k a w1) as [b w2|w2]; simpl in *;
    destruct Hm as [Hn [Ht Hc]], Hk as [Hn' [Ht' Hc']];
    (split; [congruence|split; [congruence|]]); intros; rewrite Hc'; apply Hc.
Qed.

Lemma keeps_get : keeps_lists get.
Proof. intros w. simpl. auto. Qed.

Lemma keeps_time_Now : keeps_lists time_Now.
Proof. intros w. simpl. auto. Qed.

Lemma keeps_fresh_id (prefix : string) : keeps_lists (fresh_id prefix).
Proof. intros w. simpl. auto. Qed.

Lemma keeps_Lock : keeps_lists Lock.
Proof. intros w. unfold state_after, Lock. destruct (_ || _)%bool; simpl; auto. Qed.

Lemma keeps_Unlock : keeps_lists Unlock.
Proof. intros w. simpl. auto. Qed.

Lemma keeps_RLock : keeps_lists RLock.
Proof. intros w. unfold state_after, RLock. destruct (writer (mu w)); simpl; auto. Qed.

Lemma keeps_RUnlock : keeps_lists RUnlock.
Proof. intros w. simpl. auto. Qed.

Lemma keeps_set_server_stats (c : list doc.t) : keeps_lists (modify (set_server_stats c)).
Proof. intros w. simpl. auto. Qed.

Lemma keeps_set_server_feedback (c : list ServerFeedback.t) :
  keeps_lists (modify (set_server_feedback c)).
Proof. intros w. simpl. auto. Qed.

Lemma keeps_invalidateFeedbackCache (serverID source : string) :
  keeps_lists (invalidateFeedbackCache serverID source).
Proof.
  intros w. unfold state_after.
  destruct (invalidateFeedbackCache_keeps_lists w serverID source "" "" 0 0 FeedbackSortNewest)
    as [w' [Hrun [_ [Hn [Ht _]]]]].
  rewrite Hrun. simpl. split; [exact Hn|]. split; [exact Ht|].
  intros sid src l o srt.
  destruct (invalidateFeedbackCache_keeps_lists w serverID source sid src l o srt)
    as [w'' [Hrun' [Hc _]]].
  rewrite Hrun in Hrun'. inversion Hrun'. subst w''. exact Hc.
Qed.

Create HintDb keeps discriminated.
#[local] Hint Resolve keeps_get keeps_time_Now keeps_fresh_id keeps_Lock
  keeps_Unlock keeps_RLock keeps_RUnlock keeps_set_server_stats keeps_set_server_feedback
  keeps_invalidateFeedbackCache : keeps.

(** Walk through a monadic term: binds, returns, and every branch of a
    [match] or [if]. *)
Ltac keeps :=
  repeat first
    [ apply keeps_ret
    | solve [auto with keeps]
    | apply keeps_bind; [|intros]
    | match goal with
      | |- keeps_lists (match ?x with _ => _ end) => destruct x
      | |- keeps_lists (if ?b then _ else _) => destruct b
      | |- keeps_lists (let (_, _) := ?x in _) => destruct x
      end ].

Lemma keeps_UpdateRating (serverID source : string) (newRating : float) :
  keeps_lists (MongoDatabase.UpdateRating serverID source newRating).
Proof. unfold MongoDatabase.UpdateRating, with_Lock. keeps. Qed.

Lemma keeps_GetStats (serverID source : string) :
  keeps_lists (MongoDatabase.GetStats serverID source).
Proof. unfold MongoDatabase.GetStats, with_RLock. keeps. Qed.

Lemma keeps_GetUserFeedback (serverID userID source : string) :
  keeps_lists (MongoFeedbackDatabase.GetUserFeedback serverID userID source).
Proof. unfold MongoFeedbackDatabase.GetUserFeedback. keeps. Qed.

Lemma keeps_CreateFeedback (feedback : ServerFeedback.t) :
  keeps_lists (MongoFeedbackDatabase.CreateFeedback feedback).
Proof. unfold MongoFeedbackDatabase.CreateFeedback. keeps. Qed.

Lemma keeps_UpdateFeedback (feedback : ServerFeedback.t) :
  keeps_lists (MongoFeedbackDatabase.UpdateFeedback feedback).
Proof. unfold MongoFeedbackDatabase.UpdateFeedback. keeps. Qed.

#[local] Hint Resolve keeps_UpdateRating keeps_GetStats keeps_GetUserFeedback
  keeps_CreateFeedback keeps_UpdateFeedback : keeps.

Lemma keeps_SubmitFeedbackHandler (r : Request) (decoded : option RatingRequest.t) :
  keeps_lists (SubmitFeedbackHandler r decoded).
Proof. unfold SubmitFeedbackHandler. keeps. Qed.

End Frame.

Section Stale.
Import VPHandlers.

Lemma GetServerFeedback_reads (serverID source : string) (limit offset : Z)
    (sort : FeedbackSortOrder) (w : World) :
  exists res,
    MongoFeedbackDatabase.GetServerFeedback serverID source limit offset sort w
    = Returns res w.
Proof.
  unfold MongoFeedbackDatabase.GetServerFeedback.
  destruct (validation.SanitizeServerID serverID); [|eexists; reflexivity].
  destruct (validation.ValidateSource _); eexists; reflexivity.
Qed.

(** A listing that misses the cache stores its response under the
    request's key, to expire one time-to-live later. *)
Lemma GetServerFeedbackHandler_miss (g : Request) (w w1 : World) (first : Response) :
  GetServerFeedbackHandler g w = Returns first w1 ->
  XCache first = "MISS" ->
  exists v,
    first = mkResponse StatusOK "MISS" (JSON v)
    /\ w1 = set_cache (<[list_request_key g := mkCacheEntry v (now w + ttl w)]> (cache w)) w
    /\ (Nat.ltb (List.length (path_parts (Path g))) 2
        || String.eqb (part 0 (path_parts (Path g))) ""
        || negb (String.eqb (part 1 (path_parts (Path g))) "feedback"))%bool = false.
Proof.
  unfold GetServerFeedbackHandler. fold (list_request_key g).
  destruct (_ || _ || _)%bool eqn:Hpath.
  { intros H Hx. inversion H; subst. discriminate. }
  unfold mbind, M_bind. unfold CacheService.Get at 1.
  destruct (cache w !! list_request_key g) as [entry|] eqn:Hc.
  - destruct (time_After (now w) (expiresAt entry)).
    + destruct (GetServerFeedback_reads
                  (part 0 (path_parts (Path g)))
                  (if String.eqb (Query g "source") "" then SourceRegistry
                   else Query g "source")
                  (limit_param (Query g "limit") 20 100)
                  (offset_param (Query g "offset"))
                  (sort_param (Query g "sort")) w) as [res Hres].
      rewrite Hres. unfold CacheService.Set_, mret, M_ret.
      intros H _. inversion H; subst. eexists. repeat split; reflexivity.
    + intros H Hx. inversion H; subst. discriminate.
  - destruct (GetServerFeedback_reads
                (part 0 (path_parts (Path g)))
                (if String.eqb (Query g "source") "" then SourceRegistry
                 else Query g "source")
                (limit_param (Query g "limit") 20 100)
                (offset_param (Query g "offset"))
                (sort_param (Query g "sort")) w) as [res Hres].
    rewrite Hres. unfold CacheService.Set_, mret, M_ret.
    intros H _. inversion H; subst. eexists. repeat split; reflexivity.
Qed.

Lemma rating_leaves_list_cached
    (w w1 w2 : World) (g r : Request) (decoded : option RatingRequest.t)
    (first post : Response) (d : Z) :
  GetServerFeedbackHandler g w = Returns first w1 ->
  XCache first = "MISS" ->
  SubmitFeedbackHandler r decoded w1 = Returns post w2 ->
  0 <= d <= ttl w ->
  GetServerFeedbackHandler g (advance d w2)
  = Returns (mkResponse StatusOK "HIT" (body first)) (advance d w2).
Proof.
  intros Hget Hmiss Hrate Hd.
  destruct (GetServerFeedbackHandler_miss g w w1 first Hget Hmiss) as [v [Hfirst [Hw1 Hpath]]].
  pose proof (keeps_SubmitFeedbackHandler r decoded w1) as Hk.
  unfold state_after in Hk. rewrite Hrate in Hk. simpl in Hk.
  destruct Hk as [Hnow [_ Hcache]].
  unfold GetServerFeedbackHandler. fold (list_request_key g). rewrite Hpath.
  unfold mbind, M_bind, CacheService.Get.
  change (cache (advance d w2)) with (cache w2).
  unfold list_request_key at 1. rewrite Hcache. fold (list_request_key g).
  rewrite Hw1. cbn [cache set_cache]. rewrite lookup_insert_eq.
  cbn [expiresAt data]. change (now (advance d w2)) with (now w2 + d).
  rewrite Hnow, Hw1. change (now (set_cache _ w)) with (now w).
  unfold time_After.
  destruct (Z.ltb_spec (now w + ttl w) (now w + d)) as [Hlt|Hge]; [lia|].
  rewrite Hfirst. reflexivity.
Qed.

End Stale.

(** C5 (the code deviates): a rating does not invalidate the cached
    feedback lists. [invalidateFeedbackCache] deletes the literal key
    [vp:feedback:<id>:*] with an exact-match [Delete], which is the key
    of no list. So when a listing has missed the cache and stored its
    response, then after any rating submission, a listing of the same
    request within the time-to-live is a cache hit that returns the
    first response again, not the state after the rating. *)
Theorem rating_leaves_feedback_list_cached
    (w w1 w2 : World) (g r : VPHandlers.Request) (decoded : option RatingRequest.t)
    (first post : VPHandlers.Response) (d : Z) :
  VPHandlers.GetServerFeedbackHandler g w = Returns first w1 ->
  VPHandlers.XCache first = "MISS" ->
  VPHandlers.SubmitFeedbackHandler r decoded w1 = Returns post w2 ->
  0 <= d <= ttl w ->
  VPHandlers.GetServerFeedbackHandler g (advance d w2)
  = Returns (VPHandlers.mkResponse VPHandlers.StatusOK "HIT" (VPHandlers.body first))
      (advance d w2)
  /\ forall (serverID' source' serverID source : string) (limit offset : Z)
            (sort : FeedbackSortOrder),
       cache (state_after (VPHandlers.invalidateFeedbackCache serverID' source') w)
         !! VPHandlers.feedback_list_key serverID source limit offset sort
       = cache w !! VPHandlers.feedback_list_key serverID source limit offset sort.
Proof.
  intros Hget Hmiss Hrate Hd. split.
  - exact (rating_leaves_list_cached w w1 w2 g r decoded first post d Hget Hmiss Hrate Hd).
  - intros. apply (keeps_invalidateFeedbackCache serverID' source' w).
Qed.

Lemma rating_leaves_feedback_list_cached_witness :
  exists first post listed,
    VPHandlers.GetServerFeedbackHandler Scenario.list_feedback Scenario.fresh
      = Returns first Scenario.after_listing
    /\ VPHandlers.SubmitFeedbackHandler Scenario.rate_foo (Some Scenario.five_stars)
         Scenario.after_listing
       = Returns post Scenario.after_rating
    /\ VPHandlers.StatusCode post = 200
    /\ VPHandlers.body first = VPHandlers.JSON (CachedFeedback (FeedbackResponse.mk [] 0 false))
    /\ MongoFeedbackDatabase.GetServerFeedback "foo" "REGISTRY" 20 0 FeedbackSortNewest
         Scenario.after_rating
       = Returns (Ok listed) Scenario.after_rating
    /\ FeedbackResponse.TotalCount listed = 1
    /\ VPHandlers.GetServerFeedbackHandler Scenario.list_feedback
         (advance 1000000000 Scenario.after_rating)
       = Returns (VPHandlers.mkResponse VPHandlers.StatusOK "HIT" (VPHandlers.body first))
           (advance 1000000000 Scenario.after_rating).
Proof.
  assert (H1 : exists first,
             VPHandlers.GetServerFeedbackHandler Scenario.list_feedback Scenario.fresh
             = Returns first Scenario.after_listing
             /\ VPHandlers.XCache first = "MISS"
             /\ VPHandlers.body first
                = VPHandlers.JSON (CachedFeedback (FeedbackResponse.mk [] 0 false))).
  { eexists. split; [vm_compute; reflexivity|]. split; reflexivity. }
  assert (H2 : exists post,
             VPHandlers.SubmitFeedbackHandler Scenario.rate_foo (Some Scenario.five_stars)
               Scenario.after_listing
             = Returns post Scenario.after_rating
             /\ VPHandlers.StatusCode post = 200).
  { eexists. split; [vm_compute; reflexivity|]. reflexivity. }
  destruct H1 as [first [Hget [Hmiss Hbody]]]. destruct H2 as [post [Hrate Hok]].
  exists first, post. eexists.
  split; [exact Hget|]. split; [exact Hrate|]. split; [exact Hok|]. split; [exact Hbody|].
  split; [vm_compute; reflexivity|]. split; [reflexivity|].
  apply (proj1 (rating_leaves_feedback_list_cached Scenario.fresh Scenario.after_listing
                  Scenario.after_rating Scenario.list_feedback Scenario.rate_foo
                  (Some Scenario.five_stars) first post 1000000000 Hget Hmiss Hrate
                  ltac:(vm_compute; split; discriminate))).
Defined.

(** ** Feedback of another user *)

Section Ownership.
Import MongoFeedbackDatabase VPHandlers.




Lemma find_by_id_user_absent (coll : list ServerFeedback.t) (feedbackID userID : string) :
  List.find (by_id feedbackID) coll = None ->
  List.find (by_id_user feedbackID userID) coll = None.
Proof.
  intros Hf. destruct (List.find (by_id_user _ _) coll) as [g|] eqn:Hg; [|reflexivity].
  apply List.find_some in Hg as [Hin Hm]. unfold by_id_user in Hm.
  apply andb_true_iff in Hm as [Hid _].
  apply (List.find_none _ _ Hf) in Hin. unfold by_id in Hin. congruence.
Qed.

Lemma eqb_false_of_ne (a b : string) : a <> b -> String.eqb a b = false.
Proof. intros H. now apply String.eqb_neq. Qed.


(** What the store and the delete handler answer depends only on there
    being no record with this id and this user. *)
Lemma DeleteFeedback_no_match (w : World) (feedbackID userID : string) :
  feedbackID <> "" -> userID <> "" ->
  List.find (by_id_user feedbackID userID) (server_feedback w) = None ->
  DeleteFeedback feedbackID userID w = Returns (Some ErrFeedbackNotFound) w.
Proof.
  intros Hf Hu Hfind. unfold DeleteFeedback.
  rewrite (eqb_false_of_ne _ _ Hf), (eqb_false_of_ne _ _ Hu). simpl.
  unfold mbind, M_bind, get. now rewrite Hfind.
Qed.





End Ownership.

(** ** The ranking of [GetTrending] *)

Section Ranking.
Import MongoDatabase.

Lemma SFltb_asym (x y : spec_float) : SFltb x y = true -> SFltb y x = false.
Proof.
  unfold SFltb.
  destruct x as [sx|sx| |sx mx ex], y as [sy|sy| |sy my ey]; simpl;
    try discriminate; try reflexivity;
    try (destruct sx; try discriminate; try reflexivity);
    try (destruct sy; try discriminate; try reflexivity).
  - rewrite (Z.compare_antisym ey ex).
    destruct (ey ?= ex)%Z; simpl; try discriminate; try reflexivity.
    change (Pos.compare_cont Eq mx my) with (Pos.compare mx my).
    change (Pos.compare_cont Eq my mx) with (Pos.compare my mx).
    rewrite (Pos.compare_antisym my mx).
    destruct (my ?= mx)%positive; simpl; try discriminate; reflexivity.
  - rewrite (Z.compare_antisym ey ex).
    destruct (ey ?= ex)%Z; simpl; try discriminate; try reflexivity.
    change (Pos.compare_cont Eq mx my) with (Pos.compare mx my).
    change (Pos.compare_cont Eq my mx) with (Pos.compare my mx).
    rewrite (Pos.compare_antisym my mx).
    destruct (my ?= mx)%positive; simpl; try discriminate; reflexivity.
Qed.



End Ranking.

(** ** The trending endpoint *)

Section Trending.
Import MongoDatabase VPHandlers.

Lemma Decode_all_string_keyed (l : list doc.t) :
  Forall (fun d => string_keyed d = true) l ->
  exists results,
    Decode_all l = Ok results /\ Forall2 (fun d st => Decode d = Ok st) l results.
Proof.
  induction l as [|d l IH]; intros Hall.
  - exists []. split; [reflexivity|constructor].
  - inversion Hall as [|? ? Hd Hl]; subst. destruct (IH Hl) as [results [Hdec Hf2]].
    unfold string_keyed in Hd. destruct (doc.server_id d) as [id|n] eqn:Hid; [|discriminate].
    destruct (Decode_string_id d id Hid) as [st [Hst _]].
    exists (st :: results). simpl. rewrite Hst, Hdec. split; [reflexivity|].
    constructor; assumption.
Qed.






Lemma omap_shorter {A B : Type} (f : A -> option B) (l : list A) :
  (List.length (omap f l) <= List.length l)%nat.
Proof.
  induction l as [|x l IH]; [reflexivity|].
  change (omap f (x :: l)) with (match f x with Some y => y :: omap f l | None => omap f l end).
  destruct (f x); simpl; lia.
Qed.

Lemma entries_length (w : World) (results : list ServerStats.t) :
  (List.length (NewExtendedServers
                  (omap (fun id => GetByID id w) (map ServerStats.ServerID results))
                  (stats_map results)) <= List.length results)%nat.
Proof.
  unfold NewExtendedServers. rewrite List.length_map.
  etransitivity; [apply omap_shorter|]. now rewrite List.length_map.
Qed.





End Trending.


(** ** Validation of identifiers, sources and limits *)

Section Validation.
Import gostrings validation.

(** A property of bytes that holds of each of the 256 holds of all. *)
Lemma all_bytes (P : ascii -> bool) :
  forallb P (map ascii_of_nat (seq 0 256)) = true -> forall c, P c = true.
Proof.
  intros H c. rewrite forallb_forall in H. apply H. apply in_map_iff.
  exists (nat_of_ascii c). split; [apply ascii_nat_embedding|].
  apply in_seq. pose proof (nat_ascii_bounded c). lia.
Qed.

Lemma id_byte_not_space (c : ascii) :
  is_id_byte c = true ->
  starts_otherwise c white_space = true
  /\ starts_otherwise c (map (@rev ascii) white_space) = true.
Proof.
  intros H.
  pose proof (all_bytes
                (fun c => implb (is_id_byte c)
                            (starts_otherwise c white_space
                             && starts_otherwise c (map (@rev ascii) white_space)))
                ltac:(vm_compute; reflexivity) c) as Hc.
  simpl in Hc. rewrite H in Hc. simpl in Hc. now apply andb_true_iff in Hc.
Qed.

Lemma strip_any_None (ps : list (list ascii)) (c : ascii) (l : list ascii) :
  starts_otherwise c ps = true -> strip_any ps (c :: l) = None.
Proof.
  unfold starts_otherwise.
  induction ps as [|p ps IH]; simpl; [reflexivity|].
  intros H. apply andb_true_iff in H as [Hp Hps].
  destruct p as [|b p]; [discriminate|]. simpl.
  apply negb_true_iff in Hp. rewrite Hp. now apply IH.
Qed.

Lemma trim_left_fixed (ps : list (list ascii)) (n : nat) (c : ascii) (l : list ascii) :
  starts_otherwise c ps = true -> trim_left ps n (c :: l) = c :: l.
Proof. intros H. destruct n; simpl; [reflexivity|]. now rewrite strip_any_None. Qed.

Lemma rev_head (P : ascii -> bool) (c : ascii) (l : list ascii) :
  forallb P (c :: l) = true -> exists c' l', rev (c :: l) = c' :: l' /\ P c' = true.
Proof.
  intros H. destruct (rev (c :: l)) as [|c' l'] eqn:E.
  - apply (f_equal (@List.length ascii)) in E. rewrite length_rev in E. discriminate.
  - exists c', l'. split; [reflexivity|].
    rewrite forallb_forall in H. apply H. apply in_rev. rewrite E. now left.
Qed.

Lemma is_alnum_id_byte (c : ascii) : is_alnum c = true -> is_id_byte c = true.
Proof. unfold is_id_byte. intros ->. reflexivity. Qed.

Lemma idPattern_bytes (s : string) :
  idPattern s = true ->
  exists c rest, bytes s = c :: rest /\ is_alnum c = true
                 /\ (List.length rest <= 254)%nat /\ forallb is_id_byte rest = true.
Proof.
  unfold idPattern. destruct (bytes s) as [|c rest]; [discriminate|].
  intros H. apply andb_true_iff in H as [H H3]. apply andb_true_iff in H as [H1 H2].
  exists c, rest. repeat split; try assumption. now apply Nat.leb_le.
Qed.

Lemma of_bytes_bytes (s : string) : of_bytes (bytes s) = s.
Proof. apply string_of_list_ascii_of_string. Qed.

Lemma bytes_of_bytes (l : list ascii) : bytes (of_bytes l) = l.
Proof. apply list_ascii_of_string_of_list_ascii. Qed.

(** An identifier has no white space to trim. *)
Lemma TrimSpace_id (s : string) : idPattern s = true -> TrimSpace s = s.
Proof.
  intros H. destruct (idPattern_bytes s H) as [c [rest [Hb [Hc [_ Hrest]]]]].
  destruct (id_byte_not_space c (is_alnum_id_byte c Hc)) as [Hws _].
  assert (Hall : forallb is_id_byte (c :: rest) = true)
    by (simpl; now rewrite (is_alnum_id_byte c Hc), Hrest).
  destruct (rev_head is_id_byte c rest Hall) as [c' [l' [Hrev Hc']]].
  destruct (id_byte_not_space c' Hc') as [_ Hws'].
  unfold TrimSpace. rewrite Hb.
  rewrite (trim_left_fixed white_space (List.length (c :: rest)) c rest Hws).
  rewrite Hrev.
  rewrite (trim_left_fixed (map (@rev ascii) white_space) (List.length (c' :: l')) c' l' Hws').
  rewrite <- Hrev, rev_involutive, <- Hb. apply of_bytes_bytes.
Qed.

Lemma idPattern_nonempty (s : string) : idPattern s = true -> String.eqb s "" = false.
Proof. destruct s; [discriminate|reflexivity]. Qed.

Lemma lower_hex (c : ascii) :
  is_hex c = true ->
  is_hex (lower_byte c) = true /\ is_alnum (lower_byte c) = true
  /\ lower_byte (lower_byte c) = lower_byte c.
Proof.
  intros H.
  pose proof (all_bytes
                (fun c => implb (is_hex c)
                            (is_hex (lower_byte c) && is_alnum (lower_byte c)
                             && ascii_eqb (lower_byte (lower_byte c)) (lower_byte c)))
                ltac:(vm_compute; reflexivity) c) as Hc.
  simpl in Hc. rewrite H in Hc. simpl in Hc.
  apply andb_true_iff in Hc as [Hc H3]. apply andb_true_iff in Hc as [H1 H2].
  apply Ascii.eqb_eq in H3. now repeat split.
Qed.

Lemma lower_dash (c : ascii) :
  ascii_eqb c "-"%char = true -> lower_byte c = c /\ is_id_byte c = true.
Proof.
  intros H. apply Ascii.eqb_eq in H. subst c. split; reflexivity.
Qed.

Lemma uuid_from_lower (i : nat) (l : list ascii) :
  uuid_from i l = true ->
  uuid_from i (map lower_byte l) = true
  /\ forallb is_id_byte (map lower_byte l) = true
  /\ map lower_byte (map lower_byte l) = map lower_byte l
  /\ (List.length l + i = 36)%nat.
Proof.
  revert i. induction l as [|c l IH]; intros i H.
  - simpl in *. repeat split; try reflexivity; [exact H | now apply Nat.eqb_eq in H].
  - cbn [uuid_from] in H.
    apply andb_true_iff in H as [H H3]. apply andb_true_iff in H as [H1 H2].
    destruct (IH (S i) H3) as [IH1 [IH2 [IH3 IH4]]].
    cbn [map uuid_from forallb List.length]. rewrite H1, IH1, IH2, IH3.
    assert (Hc : (if (Nat.eqb i 8 || Nat.eqb i 13 || Nat.eqb i 18 || Nat.eqb i 23)%bool
                  then ascii_eqb (lower_byte c) "-"%char else is_hex (lower_byte c)) = true
                 /\ is_id_byte (lower_byte c) = true
                 /\ lower_byte (lower_byte c) = lower_byte c).
    { destruct (Nat.eqb i 8 || Nat.eqb i 13 || Nat.eqb i 18 || Nat.eqb i 23)%bool.
      - destruct (lower_dash c H2) as [Hl Hid]. rewrite Hl. now repeat split.
      - destruct (lower_hex c H2) as [Hh [Ha Hl]].
        repeat split; [exact Hh | now apply is_alnum_id_byte | exact Hl]. }
    destruct Hc as [Hc1 [Hc2 Hc3]]. rewrite Hc1, Hc2, Hc3.
    repeat split. lia.
Qed.

Lemma uuid_lower (t : string) :
  uuidPattern t = true ->
  uuidPattern (ToLower t) = true /\ idPattern (ToLower t) = true
  /\ ToLower (ToLower t) = ToLower t.
Proof.
  unfold uuidPattern, ToLower, idPattern. rewrite !bytes_of_bytes. intros H.
  destruct (uuid_from_lower 0 (bytes t) H) as [H1 [H2 [H3 H4]]].
  split; [exact H1|]. split; [|now rewrite H3].
  destruct (bytes t) as [|c l]; [discriminate|]. simpl in *.
  apply andb_true_iff in H as [H _]. simpl in H.
  destruct (lower_hex c H) as [_ [Ha _]]. rewrite Ha. simpl.
  apply andb_true_iff in H2 as [_ H2]. rewrite H2, andb_true_r.
  apply Nat.leb_le. rewrite length_map. lia.
Qed.

Lemma SanitizeID_cases (id s : string) :
  SanitizeID id = Ok s ->
  (uuidPattern (TrimSpace id) = true /\ s = ToLower (TrimSpace id))
  \/ (uuidPattern (TrimSpace id) = false /\ idPattern (TrimSpace id) = true
      /\ s = TrimSpace id).
Proof.
  unfold SanitizeID. destruct (String.eqb (TrimSpace id) ""); [discriminate|].
  destruct (uuidPattern (TrimSpace id)).
  - intros H. inversion H. now left.
  - destruct (idPattern (TrimSpace id)); simpl; [|discriminate].
    intros H. inversion H. right. now repeat split.
Qed.

Lemma SanitizeID_fixed (id s : string) :
  SanitizeID id = Ok s -> idPattern s = true /\ SanitizeID s = Ok s.
Proof.
  intros H. destruct (SanitizeID_cases id s H) as [[Hu Hs]|[Hu [Hi Hs]]]; subst s.
  - destruct (uuid_lower _ Hu) as [Hu' [Hi' Hl]]. split; [exact Hi'|].
    unfold SanitizeID. rewrite (TrimSpace_id _ Hi'), (idPattern_nonempty _ Hi'), Hu'.
    now rewrite Hl.
  - split; [exact Hi|].
    unfold SanitizeID. rewrite (TrimSpace_id _ Hi), (idPattern_nonempty _ Hi), Hu, Hi.
    reflexivity.
Qed.

Lemma AllowedSourceValues_spec (s : string) :
  AllowedSourceValues s = true <-> In s ["REGISTRY"; "COMMUNITY"; "ALL"; ""].
Proof.
  unfold AllowedSourceValues. rewrite !orb_true_iff, !String.eqb_eq. simpl.
  intuition congruence.
Qed.

Lemma ValidateSource_spec (source v : string) :
  ValidateSource source = Ok v <->
  v = TrimSpace source /\ In v ["REGISTRY"; "COMMUNITY"; "ALL"; ""].
Proof.
  unfold ValidateSource. split.
  - destruct (AllowedSourceValues (TrimSpace source)) eqn:Ha; simpl; [|discriminate].
    destruct (_ && _)%bool; [discriminate|]. intros H. inversion H. subst v.
    split; [reflexivity|]. now apply AllowedSourceValues_spec.
  - intros [-> Hin].
    pose proof (proj2 (AllowedSourceValues_spec _) Hin) as Ha. rewrite Ha. simpl.
    destruct Hin as [<-|[<-|[<-|[<-|[]]]]]; reflexivity.
Qed.

Lemma ValidateSource_canonical (s : string) :
  In s ["REGISTRY"; "COMMUNITY"; "ALL"; ""] -> ValidateSource s = Ok s.
Proof. intros [<-|[<-|[<-|[<-|[]]]]]; reflexivity. Qed.

End Validation.

(** X1: [ValidateSource] accepts exactly the strings that, once the white
    space around them is trimmed, are REGISTRY, COMMUNITY, ALL or empty,
    and returns the trimmed string; every rejection is "invalid source
    value" (the check for special characters that follows the white list
    never fires); and a filter built by [CreateSafeFilter] is empty or
    constrains the source to REGISTRY or to COMMUNITY. *)
Theorem ValidateSource_white_list (source : string) :
  (forall v, validation.ValidateSource source = Ok v <->
             v = gostrings.TrimSpace source /\ In v ["REGISTRY"; "COMMUNITY"; "ALL"; ""])
  /\ (forall e, validation.ValidateSource source = Err e -> e = Errorf "invalid source value")
  /\ (forall f, validation.CreateSafeFilter source = Ok f ->
                In f [None; Some "REGISTRY"; Some "COMMUNITY"]).
Proof.
  split; [intros v; apply ValidateSource_spec|]. split.
  - intros e. unfold validation.ValidateSource.
    destruct (validation.AllowedSourceValues (gostrings.TrimSpace source)) eqn:Ha; simpl.
    + apply AllowedSourceValues_spec in Ha.
      destruct Ha as [<-|[<-|[<-|[<-|[]]]]]; discriminate.
    + intros H. now inversion H.
  - intros f. unfold validation.CreateSafeFilter.
    destruct (validation.ValidateSource source) as [v|e] eqn:Hv; [|discriminate].
    apply ValidateSource_spec in Hv as [_ Hin].
    destruct Hin as [<-|[<-|[<-|[<-|[]]]]]; simpl; intros H; inversion H; simpl; tauto.
Qed.

(** X2: an identifier that [SanitizeID] accepts comes back in canonical
    form: trimmed, lower-cased when it is a UUID, matching
    [^[a-zA-Z0-9][a-zA-Z0-9._-]{0,254}$], and sanitizing it again returns
    it unchanged. *)
Theorem SanitizeID_canonical (id s : string) :
  validation.SanitizeID id = Ok s ->
  validation.idPattern s = true
  /\ validation.SanitizeID s = Ok s
  /\ validation.SanitizeServerID s = Ok s
  /\ s = (if validation.uuidPattern (gostrings.TrimSpace id)
          then gostrings.ToLower (gostrings.TrimSpace id)
          else gostrings.TrimSpace id).
Proof.
  intros H. destruct (SanitizeID_fixed id s H) as [Hi Hs].
  split; [exact Hi|]. split; [exact Hs|]. split; [exact Hs|].
  destruct (SanitizeID_cases id s H) as [[Hu ->]|[Hu [_ ->]]]; now rewrite Hu.
Qed.

Lemma SanitizeID_canonical_witness :
  validation.SanitizeID "  6BA7B810-9DAD-11D1-80B4-00C04FD430C8 "
  = Ok "6ba7b810-9dad-11d1-80b4-00c04fd430c8"
  /\ validation.SanitizeID "6ba7b810-9dad-11d1-80b4-00c04fd430c8"
     = Ok "6ba7b810-9dad-11d1-80b4-00c04fd430c8".
Proof.
  assert (H : validation.SanitizeID "  6BA7B810-9DAD-11D1-80B4-00C04FD430C8 "
              = Ok "6ba7b810-9dad-11d1-80b4-00c04fd430c8") by (vm_compute; reflexivity).
  split; [exact H|].
  exact (proj1 (proj2 (SanitizeID_canonical _ _ H))).
Defined.

(** X3: the limit a handler reads from the query string is the default
    unless the parameter is a decimal integer between 1 and the maximum;
    with a default in that range and a maximum of at most 1000 the stats
    store's [ValidateLimit] accepts it. The offset is never negative. *)
Theorem parseLimit_within_bounds (limitStr : string) (defaultLimit maxLimit : Z) :
  1 <= defaultLimit <= maxLimit -> maxLimit <= 1000 ->
  let limit := handlers.parseLimit limitStr defaultLimit maxLimit in
  1 <= limit <= maxLimit
  /\ validation.ValidateLimit limit = Ok limit
  /\ VPHandlers.limit_param limitStr defaultLimit maxLimit = limit
  /\ (limit <> defaultLimit -> gostrings.Atoi limitStr = Some limit)
  /\ (forall offsetStr, 0 <= handlers.parseOffset offsetStr
                        /\ VPHandlers.offset_param offsetStr = handlers.parseOffset offsetStr).
Proof.
  intros Hd Hm limit.
  assert (Hl : 1 <= limit <= maxLimit
               /\ (limit <> defaultLimit -> gostrings.Atoi limitStr = Some limit)).
  { subst limit. unfold handlers.parseLimit.
    destruct (String.eqb limitStr ""); [split; [lia|congruence]|].
    destruct (gostrings.Atoi limitStr) as [n|]; [|split; [lia|congruence]].
    destruct ((0 <? n) && (n <=? maxLimit))%bool eqn:E; [|split; [lia|congruence]].
    apply andb_true_iff in E as [E1 E2]. apply Z.ltb_lt in E1. apply Z.leb_le in E2.
    split; [lia|reflexivity]. }
  destruct Hl as [Hl Ha]. split; [exact Hl|]. split.
  { unfold validation.ValidateLimit.
    destruct (Z.ltb_spec limit 1); [lia|]. destruct (Z.ltb_spec 1000 limit); [lia|].
    reflexivity. }
  split; [reflexivity|]. split; [exact Ha|].
  intros offsetStr. split; [|reflexivity]. unfold handlers.parseOffset.
  destruct (String.eqb offsetStr ""); [lia|].
  destruct (gostrings.Atoi offsetStr) as [n|]; [|lia].
  destruct (Z.leb_spec 0 n); lia.
Qed.

Lemma parseLimit_within_bounds_witness :
  1 <= handlers.parseLimit "250" 20 100 <= 100
  /\ handlers.parseLimit "250" 20 100 = 20
  /\ handlers.parseLimit "50" 20 100 = 50.
Proof.
  split; [|split; reflexivity].
  apply (parseLimit_within_bounds "250" 20 100); lia.
Defined.

(** ** The cache *)

Section Cache.
Import CacheService.

Lemma Get_lookup (key : string) (w : World) :
  Get key w
  = Returns (match cache w !! key with
             | Some entry =>
                 if time_After (now w) (expiresAt entry) then None else Some (data entry)
             | None => None
             end) w.
Proof. unfold Get. destruct (cache w !! key) as [e|]; [|reflexivity]. now destruct (time_After _ _). Qed.

End Cache.

(** X4: a value stored in the cache is returned by [Get] under its key for
    as long as no more than the time-to-live has passed since the [Set],
    and no longer after that; [Delete] removes exactly the entry of the key
    it is given; neither changes what [Get] returns for another key. *)
Theorem CacheService_Set_Get_Delete (w : World) (key : string) (value : payload) (d : Z) :
  let w1 := state_after (CacheService.Set_ key value) w in
  let w2 := state_after (CacheService.Delete key) w1 in
  CacheService.Get key (advance d w1)
  = Returns (if d <=? ttl w then Some value else None) (advance d w1)
  /\ CacheService.Get key (advance d w2) = Returns None (advance d w2)
  /\ (forall key', key' <> key ->
        value_of (CacheService.Get key') (advance d w1)
        = value_of (CacheService.Get key') (advance d w)
        /\ value_of (CacheService.Get key') (advance d w2)
           = value_of (CacheService.Get key') (advance d w)).
Proof.
  intros w1 w2. subst w1 w2. unfold state_after, value_of. simpl.
  rewrite !Get_lookup. simpl. split; [|split].
  - rewrite lookup_insert_eq. simpl. unfold time_After.
    destruct (Z.ltb_spec (now w + ttl w) (now w + d)), (Z.leb_spec d (ttl w));
      try reflexivity; lia.
  - now rewrite lookup_delete_eq.
  - intros key' Hne.
    rewrite !Get_lookup. simpl.
    split; [|rewrite lookup_delete_ne by congruence];
      now rewrite lookup_insert_ne by congruence.
Qed.

(** X5: the periodic [cleanup] is invisible to readers: it removes
    exactly the entries that have expired, so at the tick and at any
    later time [Get] returns for every key what it would have returned
    without the cleanup. *)
Theorem cleanup_is_invisible (w : World) (key : string) (d : Z) :
  0 <= d ->
  let w' := state_after CacheService.cleanup_tick w in
  value_of (CacheService.Get key) (advance d w') = value_of (CacheService.Get key) (advance d w)
  /\ (forall entry, cache w' !! key = Some entry <->
                    cache w !! key = Some entry /\ now w <= expiresAt entry)
  /\ server_stats w' = server_stats w /\ server_feedback w' = server_feedback w.
Proof.
  intros Hd w'. subst w'. unfold state_after, value_of. simpl.
  rewrite !Get_lookup. simpl.
  assert (Hl : forall entry,
             filter (fun kv : string * cacheEntry =>
                       time_After (now w) (expiresAt kv.2) = false) (cache w) !! key
             = Some entry
             <-> cache w !! key = Some entry /\ now w <= expiresAt entry).
  { intros entry. rewrite map_lookup_filter_Some. simpl. unfold time_After.
    rewrite Z.ltb_ge. reflexivity. }
  split; [|split; [exact Hl|split; reflexivity]].
  destruct (cache w !! key) as [e|] eqn:E'.
  - destruct (Z.le_gt_cases (now w) (expiresAt e)) as [Hle|Hgt].
    + now rewrite (proj2 (Hl e) (conj eq_refl Hle)).
    + replace (filter _ (cache w) !! key) with (@None cacheEntry).
      * unfold time_After. destruct (Z.ltb_spec (expiresAt e) (now w + d)); [reflexivity|lia].
      * symmetry. apply eq_None_not_Some. intros [e0 He0].
        apply Hl in He0 as [He0 Hle]. inversion He0; subst e0. lia.
  - replace (filter _ (cache w) !! key) with (@None cacheEntry); [reflexivity|].
    symmetry. apply eq_None_not_Some. intros [e0 He0].
    apply Hl in He0 as [He0 _]. discriminate.
Qed.

Lemma cleanup_is_invisible_witness :
  value_of (CacheService.Get "vp:feedback:foo:REGISTRY:20:0:newest")
    (advance 400000000000
       (state_after CacheService.cleanup_tick (advance 1 Scenario.after_listing)))
  = value_of (CacheService.Get "vp:feedback:foo:REGISTRY:20:0:newest")
      (advance 400000000000 (advance 1 Scenario.after_listing)).
Proof.
  apply (cleanup_is_invisible (advance 1 Scenario.after_listing)
           "vp:feedback:foo:REGISTRY:20:0:newest" 400000000000).
  lia.
Defined.

(** ** Reading and writing one record of the stats store *)

Section StatsRecord.
Import MongoDatabase.

Lemma set_mu_restores (w : World) (m : RWMutex) (n : nat) :
  writer (mu w) = false ->
  set_mu (mkRWMutex false (Nat.pred (S (readers (mu w))))) (set_mu m w) = w.
Proof.
  destruct w as [nw ni tt c [wr rd] ss sf am ae dl ct]. simpl. intros ->. reflexivity.
Qed.

(** A body that only reads runs under the read lock and leaves the
    state as it found it. *)
Lemma with_RLock_reads {A : Type} (body : M A) (a : A) (w : World) :
  writer (mu w) = false ->
  (forall m, body (set_mu m w) = Returns a (set_mu m w)) ->
  with_RLock body w = Returns a w.
Proof.
  intros Hw Hb. unfold with_RLock, mbind, M_bind, RLock, RUnlock, mret, M_ret.
  rewrite Hw, Hb. cbn [mu set_mu writer readers]. f_equal.
  now apply (set_mu_restores w _ 0%nat).
Qed.

Lemma with_RLock_write_held {A : Type} (body : M A) (w : World) :
  writer (mu w) = true -> with_RLock body w = Blocks w.
Proof. intros H. unfold with_RLock, mbind, M_bind, RLock. now rewrite H. Qed.

(** A body that takes the write lock on a free mutex, runs and releases
    it. *)
Lemma with_Lock_runs {A : Type} (body : M A) (a : A) (w w1 : World) :
  mu w = unlocked ->
  body (set_mu (mkRWMutex true 0) w) = Returns a w1 ->
  mu w1 = mkRWMutex true 0 ->
  with_Lock body w = Returns a (set_mu unlocked w1).
Proof.
  intros Hmu Hb Hm. unfold with_Lock.
  rewrite (bind_Returns _ _ _ _ _ (Lock_unlocked w Hmu)).
  unfold mbind, M_bind, Unlock, mret, M_ret. rewrite Hb, Hm. reflexivity.
Qed.

Lemma violates_unique_replace_first_on (d : doc.t) (p : doc.t -> bool) (f : doc.t -> doc.t)
    (coll : list doc.t) :
  (forall x, p x = true ->
             doc.server_id (f x) = doc.server_id x /\ doc.source (f x) = doc.source x) ->
  violates_unique d (replace_first p f coll) = violates_unique d coll.
Proof.
  intros Hk. induction coll as [|x coll IH]; simpl; [reflexivity|].
  destruct (p x) eqn:Hp; simpl; [|now rewrite IH].
  f_equal. rewrite (same_key_sym d (f x)), (same_key_sym d x).
  destruct (Hk x Hp). now apply same_key_cong.
Qed.

Lemma unique_index_replace_first_on (p : doc.t -> bool) (f : doc.t -> doc.t)
    (coll : list doc.t) :
  (forall x, p x = true ->
             doc.server_id (f x) = doc.server_id x /\ doc.source (f x) = doc.source x) ->
  unique_index coll = true -> unique_index (replace_first p f coll) = true.
Proof.
  intros Hk. induction coll as [|x coll IH]; simpl; [reflexivity|].
  intros Hu. apply andb_true_iff in Hu as [Hx Hu].
  destruct (p x) eqn:Hp; simpl.
  - rewrite Hu, andb_true_r. rewrite <- Hx. f_equal.
    destruct (Hk x Hp). now apply violates_unique_cong.
  - rewrite (IH Hu), andb_true_r. now rewrite violates_unique_replace_first_on.
Qed.

(** An upsert through [{server_id, source}] whose update leaves the key
    of the matched document in place. *)
Lemma UpdateOne_upsert (id src : string) (upd : doc.t -> doc.t) (ins : doc.t)
    (coll : list doc.t) :
  unique_index coll = true ->
  (forall d, by_id_source id src d = true ->
             doc.server_id (upd d) = KString id /\ doc.source (upd d) = Some src) ->
  doc.server_id ins = KString id -> doc.source ins = Some src ->
  exists coll',
    UpdateOne (by_id_source id src) upd (Some ins) coll = Ok coll'
    /\ unique_index coll' = true
    /\ List.find (by_id_source id src) coll'
       = Some (match List.find (by_id_source id src) coll with
               | Some d => upd d
               | None => ins
               end)
    /\ coll' = match List.find (by_id_source id src) coll with
               | Some _ => replace_first (by_id_source id src) upd coll
               | None => (coll ++ [ins])%list
               end.
Proof.
  intros Hu Hk Hiid Hisrc. unfold UpdateOne.
  assert (Hk' : forall x, by_id_source id src x = true ->
                          doc.server_id (upd x) = doc.server_id x
                          /\ doc.source (upd x) = doc.source x).
  { intros x Hx. destruct (Hk x Hx) as [H1 H2].
    apply by_id_source_spec in Hx as [Hx1 Hx2]. split; congruence. }
  destruct (List.find (by_id_source id src) coll) as [d|] eqn:Hf.
  - pose proof (List.find_some _ _ Hf) as [_ Hd].
    destruct (Hk' d Hd) as [Hd1 Hd2].
    rewrite (violates_unique_in_place id src d (upd d) coll Hu Hf Hd1 Hd2).
    eexists. split; [reflexivity|]. split; [|split; [|reflexivity]].
    + now apply unique_index_replace_first_on.
    + apply find_replace_first; [assumption|].
      apply by_id_source_spec. exact (Hk d Hd).
  - pose proof (violates_unique_no_match id src ins coll Hiid Hisrc Hf) as Hv.
    rewrite Hv. eexists. split; [reflexivity|]. split; [|split; [|reflexivity]].
    + now apply unique_index_app.
    + apply find_app_new; [assumption|]. now apply by_id_source_spec.
Qed.

(** A write through one filter is not seen through a filter that
    selects other documents. *)
Lemma find_replace_first_other (p q : doc.t -> bool) (f : doc.t -> doc.t) (coll : list doc.t) :
  (forall x, p x = true -> q x = false /\ q (f x) = false) ->
  List.find q (replace_first p f coll) = List.find q coll.
Proof.
  intros H. induction coll as [|x coll IH]; simpl; [reflexivity|].
  destruct (p x) eqn:Hp; simpl.
  - destruct (H x Hp) as [H1 H2]. now rewrite H1, H2.
  - now rewrite IH.
Qed.

Lemma find_app_other (q : doc.t -> bool) (d : doc.t) (coll : list doc.t) :
  q d = false -> List.find q (coll ++ [d])%list = List.find q coll.
Proof.
  intros H. induction coll as [|x coll IH]; simpl; [now rewrite H|].
  destruct (q x); [reflexivity|exact IH].
Qed.

Lemma by_id_source_other (id src id' src' : string) (d : doc.t) :
  (id', src') <> (id, src) ->
  doc.server_id d = KString id -> doc.source d = Some src ->
  by_id_source id' src' d = false.
Proof.
  intros Hne Hid Hsrc. destruct (by_id_source id' src' d) eqn:E; [|reflexivity].
  apply by_id_source_spec in E as [E1 E2]. exfalso. apply Hne. congruence.
Qed.

(** What an upsert through [(id, src)] leaves of the collection as seen
    through another key. *)
Lemma upsert_frame (id src id' src' : string) (upd : doc.t -> doc.t) (ins : doc.t)
    (coll : list doc.t) :
  (id', src') <> (id, src) ->
  (forall d, by_id_source id src d = true ->
             doc.server_id (upd d) = KString id /\ doc.source (upd d) = Some src) ->
  doc.server_id ins = KString id -> doc.source ins = Some src ->
  List.find (by_id_source id' src')
    (match List.find (by_id_source id src) coll with
     | Some _ => replace_first (by_id_source id src) upd coll
     | None => (coll ++ [ins])%list
     end)
  = List.find (by_id_source id' src') coll.
Proof.
  intros Hne Hk Hiid Hisrc.
  destruct (List.find (by_id_source id src) coll).
  - apply find_replace_first_other. intros x Hx. destruct (Hk x Hx) as [H1 H2].
    apply by_id_source_spec in Hx as [Hx1 Hx2].
    split; now apply (by_id_source_other id src).
  - apply find_app_other. now apply (by_id_source_other id src).
Qed.

Lemma GetStats_reads (w : World) (serverID source : string) :
  writer (mu w) = false ->
  GetStats serverID source w
  = Returns
      (match validation.SanitizeServerID serverID with
       | Err _ => Err (Errorf "invalid server ID")
       | Ok sid =>
           match validation.ValidateSource
                   (if String.eqb source "" then SourceRegistry else source) with
           | Err _ => Err (Errorf "invalid source parameter")
           | Ok src =>
               match FindOne_Decode (by_id_source sid src) (server_stats w) with
               | Ok stats => Ok stats
               | Err e =>
                   if is_ErrNoDocuments e then Ok (empty_stats sid src (now w))
                   else Err (Errorf "failed to get stats")
               end
           end
       end) w.
Proof.
  intros Hw. unfold GetStats. apply with_RLock_reads; [exact Hw|]. intros m.
  destruct (validation.SanitizeServerID serverID) as [sid|e]; [|reflexivity].
  destruct (validation.ValidateSource _) as [src|e]; [|reflexivity].
  unfold mbind, M_bind, get, time_Now, mret, M_ret. cbn [server_stats set_mu now].
  destruct (FindOne_Decode _ _) as [st|e]; [reflexivity|].
  destruct (is_ErrNoDocuments e); reflexivity.
Qed.

Lemma FindOne_Decode_found (id src : string) (coll : list doc.t) (d : doc.t) :
  List.find (by_id_source id src) coll = Some d ->
  exists st, Decode d = Ok st /\ FindOne_Decode (by_id_source id src) coll = Ok st
             /\ ServerStats.ServerID st = id.
Proof.
  intros Hf. pose proof (List.find_some _ _ Hf) as [_ Hm].
  apply by_id_source_spec in Hm as [Hid _].
  destruct (Decode_string_id d id Hid) as [st [Hst Hsid]].
  exists st. unfold FindOne_Decode. rewrite Hf. now repeat split.
Qed.

End StatsRecord.

(** X6: [GetStats] only reads. When no writer holds the mutex it returns
    and leaves the state exactly as it found it; it fails exactly when
    the identifier or the source is not valid; and for a server without a
    record it reports zero counts stamped with the current time, without
    creating the record. *)
Theorem GetStats_reads_only (w : World) (serverID source : string) :
  writer (mu w) = false ->
  exists res,
    MongoDatabase.GetStats serverID source w = Returns res w
    /\ ((exists e, res = Err e) <->
        (exists e, validation.SanitizeServerID serverID = Err e)
        \/ (exists e, validation.ValidateSource
                        (if String.eqb source "" then SourceRegistry else source) = Err e))
    /\ (forall sid src,
          validation.SanitizeServerID serverID = Ok sid ->
          validation.ValidateSource
            (if String.eqb source "" then SourceRegistry else source) = Ok src ->
          List.find (MongoDatabase.by_id_source sid src) (server_stats w) = None ->
          res = Ok (ServerStats.mk sid src 0 0%float 0 (now w) (now w) 0 0 0 "" time_zero)).
Proof.
  intros Hw. eexists. split; [apply GetStats_reads; exact Hw|].
  destruct (validation.SanitizeServerID serverID) as [sid|e] eqn:Hs.
  2:{ split; [|intros ? ? H; discriminate H].
      split; [intros _; left; now exists e|intros _; eexists; reflexivity]. }
  destruct (validation.ValidateSource _) as [src|e] eqn:Hv.
  2:{ split; [|intros ? ? _ H; discriminate H].
      split; [intros _; right; now exists e|intros _; eexists; reflexivity]. }
  split.
  - split.
    + intros [e He]. exfalso.
      destruct (FindOne_Decode_by_id_source sid src (server_stats w)) as [Hn|[st Hn]];
        rewrite Hn in He; simpl in He; discriminate.
    + intros [[e He]|[e He]]; discriminate.
  - intros sid' src' Hs' Hv' Hnone. inversion Hs'; inversion Hv'; subst.
    unfold MongoDatabase.FindOne_Decode. rewrite Hnone. reflexivity.
Qed.

Lemma GetStats_reads_only_witness :
  exists res,
    MongoDatabase.GetStats "foo" "" Scenario.claim_world = Returns res Scenario.claim_world
    /\ res = Ok (ServerStats.mk "foo" "REGISTRY" 0 0%float 0 1000 1000 0 0 0 "" time_zero).
Proof.
  destruct (GetStats_reads_only Scenario.claim_world "foo" "" eq_refl)
    as [res [Hrun [_ Hnone]]].
  exists res. split; [exact Hrun|].
  apply (Hnone "foo" "REGISTRY"); reflexivity.
Defined.

Section StatsWrites.
Import MongoDatabase.


Lemma IncrementInstallCount_runs (w : World) (serverID source sid src : string) :
  mu w = unlocked ->
  unique_index (server_stats w) = true ->
  validation.SanitizeServerID serverID = Ok sid ->
  src = (if String.eqb source "" then SourceRegistry else source) ->
  validation.ValidateSource src = Ok src ->
  inc_overflows (by_id_source sid src) (server_stats w) = false ->
  exists coll',
    IncrementInstallCount serverID source w = Returns None (set_server_stats coll' w)
    /\ unique_index coll' = true
    /\ List.find (by_id_source sid src) coll'
       = Some (match List.find (by_id_source sid src) (server_stats w) with
               | Some d => inc_installs (now w) src d
               | None =>
                   set_first_seen (now w)
                     (inc_installs (now w) src (doc.of_filter (KString sid) (Some src)))
               end)
    /\ forall id' src', (id', src') <> (sid, src) ->
         List.find (by_id_source id' src') coll'
         = List.find (by_id_source id' src') (server_stats w).
Proof.
  intros Hmu Hu Hsan Hsrc Hval Hov.
  assert (Hk : forall d, by_id_source sid src d = true ->
                 doc.server_id (inc_installs (now w) src d) = KString sid
                 /\ doc.source (inc_installs (now w) src d) = Some src).
  { intros d Hd. apply by_id_source_spec in Hd as [Hd _]. now split. }
  destruct (UpdateOne_upsert sid src (inc_installs (now w) src)
              (set_first_seen (now w)
                 (inc_installs (now w) src (doc.of_filter (KString sid) (Some src))))
              (server_stats w) Hu Hk) as [coll' [Hup [Hu' [Hfind Hcoll]]]];
    try reflexivity.
  exists coll'. split; [|split; [exact Hu'|split; [exact Hfind|]]].
  - replace (set_server_stats coll' w)
      with (set_mu unlocked (set_server_stats coll' (set_mu (mkRWMutex true 0) w)))
      by (destruct w; simpl in *; now subst).
    unfold IncrementInstallCount. apply with_Lock_runs; [exact Hmu| |reflexivity].
    rewrite Hsan, <- Hsrc, Hval.
    unfold mbind, M_bind, get, time_Now, modify, mret, M_ret.
    cbn [server_stats set_mu now]. now rewrite Hov, Hup.
  - intros id' src' Hne. rewrite Hcoll. now apply upsert_frame.
Qed.

End StatsWrites.





(** X9: with the mutex free, [TransferStats] returns exactly when there
    is nothing to transfer: without a record for [(from_id, from_source)]
    it returns nil and leaves the state as it was; with one it never
    returns. *)
Theorem TransferStats_returns_iff_nothing_to_transfer
    (w : World) (fromServerID toServerID fromSource toSource : string) :
  mu w = unlocked ->
  let sourceFilter :=
    MongoDatabase.by_id_source fromServerID
      (if String.eqb fromSource "" then SourceCommunity else fromSource) in
  (List.find sourceFilter (server_stats w) = None ->
   MongoDatabase.TransferStats fromServerID toServerID fromSource toSource w
   = Returns None w)
  /\ ((exists err w',
         MongoDatabase.TransferStats fromServerID toServerID fromSource toSource w
         = Returns err w')
      <-> List.find sourceFilter (server_stats w) = None).
Proof.
  intros Hmu sourceFilter.
  assert (Hnone : List.find sourceFilter (server_stats w) = None ->
                  MongoDatabase.TransferStats fromServerID toServerID fromSource toSource w
                  = Returns None w).
  { intros Hf.
    replace w with (set_mu unlocked (set_mu (mkRWMutex true 0) w)) at 2
      by (destruct w; simpl in *; now subst).
    unfold MongoDatabase.TransferStats. apply with_Lock_runs; [exact Hmu| |reflexivity].
    unfold mbind, M_bind, get. cbn [server_stats set_mu].
    unfold MongoDatabase.FindOne_Decode at 1. fold sourceFilter. now rewrite Hf. }
  split; [exact Hnone|]. split.
  - intros [err [w' Hrun]].
    destruct (List.find sourceFilter (server_stats w)) as [d|] eqn:Hf; [|reflexivity].
    rewrite (TransferStats_blocks_in_UpsertStats w _ _ _ _ d Hmu Hf) in Hrun.
    discriminate.
  - intros Hf. exists None, w. now apply Hnone.
Qed.

Lemma TransferStats_returns_iff_nothing_to_transfer_witness :
  MongoDatabase.TransferStats "Y" "Y" "" "" Scenario.claim_world
  = Returns None Scenario.claim_world.
Proof.
  apply (proj1 (TransferStats_returns_iff_nothing_to_transfer
                  Scenario.claim_world "Y" "Y" "" "" eq_refl)).
  reflexivity.
Defined.

(** ** The analytics sync and the reads of the whole collection *)

Section SyncReads.
Import MongoDatabase.

Lemma violates_unique_false (x d : doc.t) (l : list doc.t) :
  violates_unique x l = false -> In d l -> same_key x d = false.
Proof.
  unfold violates_unique. intros H Hin.
  destruct (same_key x d) eqn:E; [|reflexivity].
  assert (existsb (same_key x) l = true) by (apply existsb_exists; now exists d).
  congruence.
Qed.

(** Updating the first document a filter matches, without changing its
    key, breaks no unique index. *)
Lemma violates_unique_first_match (p : doc.t -> bool) (d d' : doc.t) (coll : list doc.t) :
  unique_index coll = true ->
  List.find p coll = Some d ->
  doc.server_id d' = doc.server_id d -> doc.source d' = doc.source d ->
  violates_unique d' (remove_first p coll) = false.
Proof.
  intros Hu Hf Hid Hsrc. induction coll as [|x coll IH]; simpl in *; [discriminate|].
  apply andb_true_iff in Hu as [Hx Hu]. apply negb_true_iff in Hx.
  destruct (p x) eqn:Hm.
  - inversion Hf; subst x. rewrite <- Hx. now apply violates_unique_cong.
  - simpl. rewrite (IH Hu Hf), orb_false_r.
    pose proof (List.find_some _ _ Hf) as [Hin _].
    rewrite (same_key_cong d' d x Hid Hsrc), same_key_sym.
    now apply (violates_unique_false x d coll).
Qed.

Lemma write_model_runs (now : time) (u : StatsUpdateRequest.t) (coll : list doc.t) :
  unique_index coll = true ->
  exists coll',
    write_model now u coll = Ok coll'
    /\ unique_index coll' = true
    /\ existsb int_keyed coll' = true
    /\ (existsb int_keyed coll = true -> List.length coll' = List.length coll
                                         \/ List.length coll' = S (List.length coll)).
Proof.
  intros Hu. unfold write_model, UpdateOne.
  set (key := KInt (StatsUpdateRequest.InstallationDelta u)).
  destruct (List.find (by_id key) coll) as [d|] eqn:Hf.
  - rewrite (violates_unique_first_match (by_id key) d (set_analytics u now d) coll Hu Hf)
      by reflexivity.
    eexists. split; [reflexivity|]. split; [|split].
    + apply unique_index_replace_first_on; [|exact Hu]. intros x _. now split.
    + clear Hu. induction coll as [|x coll IH]; simpl in *; [discriminate|].
      destruct (by_id key x) eqn:Hx; simpl.
      * unfold int_keyed at 1, string_keyed. simpl.
        unfold by_id in Hx. apply bson_key_eqb_eq in Hx. now rewrite Hx.
      * rewrite (IH Hf). apply orb_true_r.
    + intros _. left. clear. induction coll as [|x coll IH]; simpl; [reflexivity|].
      destruct (by_id key x); simpl; [reflexivity|now rewrite IH].
  - assert (Hv : violates_unique (set_analytics u now (doc.of_filter key None)) coll = false).
    { clear Hu. induction coll as [|x coll IH]; simpl in *; [reflexivity|].
      destruct (by_id key x) eqn:Hx; [discriminate|]. rewrite (IH Hf), orb_false_r.
      unfold same_key. cbn [set_analytics doc.of_filter doc.server_id doc.source].
      unfold by_id in Hx. now rewrite bson_key_eqb_sym, Hx. }
    rewrite Hv. eexists. split; [reflexivity|]. split; [|split].
    + now apply unique_index_app.
    + rewrite existsb_app. simpl. apply orb_true_r.
    + intros _. right. rewrite length_app. simpl. lia.
Qed.

Lemma BulkWrite_runs (now : time) (updates : list StatsUpdateRequest.t) (coll : list doc.t) :
  unique_index coll = true ->
  updates <> [] ->
  exists coll',
    BulkWrite now updates coll = (None, coll')
    /\ unique_index coll' = true /\ existsb int_keyed coll' = true.
Proof.
  revert coll. induction updates as [|u updates IH]; intros coll Hu Hne; [congruence|].
  simpl. destruct (write_model_runs now u coll Hu) as [coll1 [Hw [Hu1 [Hk _]]]].
  rewrite Hw. destruct updates as [|u' updates'].
  - simpl. now exists coll1.
  - apply IH; [exact Hu1|discriminate].
Qed.

Lemma Decode_all_int_keyed (l : list doc.t) :
  existsb int_keyed l = true -> exists e, Decode_all l = Err e.
Proof.
  induction l as [|d l IH]; simpl; [discriminate|].
  intros H. apply orb_true_iff in H as [H|H].
  - unfold int_keyed, string_keyed in H. unfold Decode.
    destruct (doc.server_id d); [discriminate|]. eexists. reflexivity.
  - destruct (IH H) as [e He]. rewrite He.
    destruct (Decode d); eexists; reflexivity.
Qed.

Lemma Decode_all_length (l : list doc.t) (results : list ServerStats.t) :
  Decode_all l = Ok results -> List.length results = List.length l.
Proof.
  revert results. induction l as [|d l IH]; simpl; intros results H.
  - now inversion H.
  - destruct (Decode d); [|discriminate]. destruct (Decode_all l); [|discriminate].
    inversion H. simpl. f_equal. now apply IH.
Qed.

Lemma GetAllStats_reads (w : World) :
  writer (mu w) = false ->
  GetAllStats w
  = Returns (match Decode_all (server_stats w) with
             | Err _ => Err (Errorf "failed to decode all stats")
             | Ok results => Ok results
             end) w.
Proof.
  intros Hw. unfold GetAllStats. apply with_RLock_reads; [exact Hw|]. intros m.
  unfold mbind, M_bind, get, mret, M_ret. cbn [server_stats set_mu].
  now destruct (Decode_all (server_stats w)).
Qed.

End SyncReads.

(** X10: [SyncAnalyticsData] with at least one update never fails on a
    collection that respects the unique index, and it leaves a document
    whose [server_id] is an integer; from then on [GetAllStats], which
    decodes every document into a [ServerStats] with a string
    [ServerID], fails with "failed to decode all stats". Before the sync, on
    a collection of server records, [GetAllStats] returns one entry per
    record. *)
Theorem SyncAnalyticsData_then_GetAllStats_fails
    (w : World) (updates : list StatsUpdateRequest.t) :
  mu w = unlocked ->
  unique_index (server_stats w) = true ->
  updates <> [] ->
  (Forall (fun d => string_keyed d = true) (server_stats w) ->
   exists results,
     MongoDatabase.GetAllStats w = Returns (Ok results) w
     /\ List.length results = List.length (server_stats w))
  /\ exists w',
       MongoDatabase.SyncAnalyticsData updates w = Returns None w'
       /\ mu w' = unlocked
       /\ unique_index (server_stats w') = true
       /\ MongoDatabase.GetAllStats w'
          = Returns (Err (Errorf "failed to decode all stats")) w'.
Proof.
  intros Hmu Hu Hne. split.
  - intros Hall. rewrite GetAllStats_reads by now rewrite Hmu.
    destruct (Decode_all_string_keyed _ Hall) as [results [Hd Hf2]].
    exists results. rewrite Hd. split; [reflexivity|].
    now apply Decode_all_length.
  - destruct (BulkWrite_runs (now w) updates (server_stats w) Hu Hne)
      as [coll' [Hb [Hu' Hk]]].
    exists (set_server_stats coll' w).
    split; [|split; [exact Hmu|split; [exact Hu'|]]].
    + replace (set_server_stats coll' w)
        with (set_mu unlocked (set_server_stats coll' (set_mu (mkRWMutex true 0) w)))
        by (destruct w; simpl in *; now subst).
      unfold MongoDatabase.SyncAnalyticsData. apply with_Lock_runs; [exact Hmu| |reflexivity].
      unfold mbind, M_bind, get, time_Now, modify, mret, M_ret.
      cbn [server_stats set_mu now].
      destruct updates as [|u updates]; [congruence|].
      cbn [List.length Nat.ltb Nat.leb].
      change (server_stats (set_mu {| writer := true; readers := 0 |} w))
        with (server_stats w).
      now rewrite Hb.
    + rewrite GetAllStats_reads by (cbn [mu set_server_stats]; now rewrite Hmu).
      cbn [server_stats set_server_stats].
      destruct (Decode_all_int_keyed coll' Hk) as [e He]. now rewrite He.
Qed.

Lemma SyncAnalyticsData_then_GetAllStats_fails_witness :
  (exists results,
     MongoDatabase.GetAllStats Scenario.sync_world = Returns (Ok results) Scenario.sync_world
     /\ List.length results = 1%nat)
  /\ exists w',
       MongoDatabase.SyncAnalyticsData [Scenario.sync_update] Scenario.sync_world
       = Returns None w'
       /\ MongoDatabase.GetAllStats w'
          = Returns (Err (Errorf "failed to decode all stats")) w'.
Proof.
  destruct (SyncAnalyticsData_then_GetAllStats_fails Scenario.sync_world
              [Scenario.sync_update] eq_refl eq_refl ltac:(discriminate))
    as [Hbefore [w' [Hrun [_ [_ Hget]]]]].
  split; [apply Hbefore; repeat constructor|].
  exists w'. split; [exact Hrun|exact Hget].
Defined.

(** ** The migration that runs at every start *)

Section Migration.
Import MongoDatabase.




End Migration.



(** ** Batch lookups *)

Section Batch.
Import MongoDatabase.

Lemma find_filter {A : Type} (p q : A -> bool) (l : list A) :
  List.find p (List.filter q l) = List.find (fun x => (q x && p x)%bool) l.
Proof.
  induction l as [|x l IH]; simpl; [reflexivity|].
  destruct (q x); simpl; [|exact IH]. now destruct (p x).
Qed.

Lemma find_pointwise {A : Type} (p q : A -> bool) (l : list A) :
  (forall x, In x l -> p x = q x) -> List.find p l = List.find q l.
Proof.
  induction l as [|x l IH]; simpl; intros H; [reflexivity|].
  rewrite (H x (or_introl eq_refl)). destruct (q x); [reflexivity|].
  apply IH. intros y Hy. apply H. now right.
Qed.

Lemma by_ids_source_spec (serverIDs : list string) (source : string) (d : doc.t) :
  by_ids_source serverIDs source d = true <->
  exists id, doc.server_id d = KString id /\ In id serverIDs /\ doc.source d = Some source.
Proof.
  unfold by_ids_source. rewrite andb_true_iff, option_string_eqb_eq. split.
  - intros [H Hs]. destruct (doc.server_id d) as [id|n]; [|discriminate].
    apply existsb_exists in H as [x [Hx He]]. apply String.eqb_eq in He. subst x.
    exists id. now repeat split.
  - intros [id [Hid [Hin Hs]]]. rewrite Hid. split; [|exact Hs].
    apply existsb_exists. exists id. split; [exact Hin|apply String.eqb_refl].
Qed.

(** Under the unique index, the documents of one source have distinct
    server ids. *)
Lemma batch_distinct (serverIDs : list string) (source : string) (coll : list doc.t) :
  unique_index coll = true ->
  List.NoDup (map doc.server_id (List.filter (by_ids_source serverIDs source) coll)).
Proof.
  induction coll as [|x coll IH]; simpl; intros Hu; [constructor|].
  apply andb_true_iff in Hu as [Hx Hu]. apply negb_true_iff in Hx.
  destruct (by_ids_source serverIDs source x) eqn:Hm; [|now apply IH].
  simpl. constructor; [|now apply IH].
  intros Hin. apply in_map_iff in Hin as [y [Hy Hin]].
  apply filter_In in Hin as [Hin Hym].
  apply by_ids_source_spec in Hm as [id [Hid [_ Hs]]].
  apply by_ids_source_spec in Hym as [id' [Hid' [_ Hs']]].
  assert (Hk : same_key x y = true).
  { unfold same_key. rewrite <- Hy, Hs, Hs'. simpl.
    rewrite String.eqb_refl, andb_true_r. now apply bson_key_eqb_eq. }
  rewrite (violates_unique_false x y coll Hx Hin) in Hk. discriminate.
Qed.

Lemma decode_into_lookup (l : list doc.t) (m0 : gmap string ServerStats.t) :
  List.NoDup (map doc.server_id l) ->
  Forall (fun d => string_keyed d = true) l ->
  exists m,
    decode_into l m0 = Ok m
    /\ forall id,
         m !! id = match List.find (by_id (KString id)) l with
                   | Some d => match Decode d with Ok st => Some st | Err _ => None end
                   | None => m0 !! id
                   end.
Proof.
  revert m0. induction l as [|d l IH]; intros m0 Hnd Hall.
  - exists m0. split; reflexivity.
  - inversion Hnd as [|? ? Hnotin Hnd']; subst. inversion Hall as [|? ? Hd Hl]; subst.
    unfold string_keyed in Hd. destruct (doc.server_id d) as [idd|n] eqn:Hid; [|discriminate].
    destruct (Decode_string_id d idd Hid) as [st [Hst Hsid]].
    destruct (IH (<[idd := st]> m0) Hnd' Hl) as [m [Hm Hlook]].
    exists m. simpl. rewrite Hst, Hsid. split; [exact Hm|].
    intros id. rewrite Hlook. unfold by_id at 2. rewrite Hid. simpl.
    destruct (String.eqb idd id) eqn:E.
    + apply String.eqb_eq in E. subst id. rewrite Hst.
      destruct (List.find (by_id (KString idd)) l) as [d'|] eqn:Hf.
      * exfalso. apply Hnotin. apply List.find_some in Hf as [Hin Hb].
        unfold by_id in Hb. apply bson_key_eqb_eq in Hb. rewrite <- Hb.
        now apply in_map.
      * apply lookup_insert_eq.
    + apply String.eqb_neq in E.
      destruct (List.find (by_id (KString id)) l); [reflexivity|].
      now apply lookup_insert_ne.
Qed.

Lemma fill_missing_lookup (serverIDs : list string) (source : string) (now : time)
    (m : gmap string ServerStats.t) (id : string) :
  fill_missing serverIDs source now m !! id
  = match m !! id with
    | Some st => Some st
    | None =>
        if existsb (String.eqb id) serverIDs then Some (empty_stats id source now) else None
    end.
Proof.
  unfold fill_missing. revert m. induction serverIDs as [|a ids IH]; intros m; simpl.
  - now destruct (m !! id).
  - rewrite IH. destruct (m !! a) as [sa|] eqn:Ha.
    + destruct (m !! id) eqn:Hi; [reflexivity|].
      destruct (String.eqb id a) eqn:E; [|reflexivity].
      apply String.eqb_eq in E. congruence.
    + destruct (String.eqb id a) eqn:E.
      * apply String.eqb_eq in E. subst a. rewrite lookup_insert_eq, Ha. reflexivity.
      * apply String.eqb_neq in E. rewrite lookup_insert_ne by congruence.
        reflexivity.
Qed.

Lemma GetBatchStats_reads (w : World) (serverIDs : list string) (source src : string) :
  writer (mu w) = false ->
  src = (if String.eqb source "" then SourceRegistry else source) ->
  GetBatchStats serverIDs source w
  = Returns
      (match decode_into (List.filter (by_ids_source serverIDs src) (server_stats w)) ∅ with
       | Err _ => Err (Errorf "failed to decode stats")
       | Ok res => Ok (fill_missing serverIDs src (now w) res)
       end) w.
Proof.
  intros Hw ->. unfold GetBatchStats. apply with_RLock_reads; [exact Hw|]. intros m.
  unfold mbind, M_bind, get, time_Now, mret, M_ret. cbn [server_stats set_mu now].
  now destruct (decode_into _ _).
Qed.

End Batch.

(** X12: [GetBatchStats] only reads and never fails; its map has an entry
    for exactly the requested ids, each entry carrying the id it is filed
    under; and, on a collection that respects the unique index, the entry
    of an id is what [GetStats] returns for that id and source: the
    stored record, or zero counts stamped with the current time. *)
Theorem GetBatchStats_agrees_with_GetStats
    (w : World) (serverIDs : list string) (source : string) :
  writer (mu w) = false ->
  unique_index (server_stats w) = true ->
  exists m,
    MongoDatabase.GetBatchStats serverIDs source w = Returns (Ok m) w
    /\ (forall id, is_Some (m !! id) <-> In id serverIDs)
    /\ (forall id st, m !! id = Some st -> ServerStats.ServerID st = id)
    /\ (forall id src,
          In id serverIDs ->
          validation.SanitizeServerID id = Ok id ->
          src = (if String.eqb source "" then SourceRegistry else source) ->
          validation.ValidateSource src = Ok src ->
          exists st, m !! id = Some st
                     /\ MongoDatabase.GetStats id source w = Returns (Ok st) w).
Proof.
  intros Hw Hu.
  set (src := if String.eqb source "" then SourceRegistry else source).
  set (l := List.filter (MongoDatabase.by_ids_source serverIDs src) (server_stats w)).
  assert (Hall : Forall (fun d => string_keyed d = true) l).
  { apply List.Forall_forall. intros d Hd. apply filter_In in Hd as [_ Hd].
    apply by_ids_source_spec in Hd as [id [Hid _]]. unfold string_keyed. now rewrite Hid. }
  destruct (decode_into_lookup l ∅ (batch_distinct serverIDs src _ Hu) Hall)
    as [m0 [Hm0 Hlook]].
  assert (Hfind : forall id,
             In id serverIDs ->
             List.find (MongoDatabase.by_id (KString id)) l
             = List.find (MongoDatabase.by_id_source id src) (server_stats w)).
  { intros id Hin. unfold l. rewrite find_filter. apply find_pointwise. intros x _.
    destruct (MongoDatabase.by_id_source id src x) eqn:E.
    - apply by_id_source_spec in E as [E1 E2].
      apply andb_true_iff. split.
      + apply by_ids_source_spec. now exists id.
      + unfold MongoDatabase.by_id. now apply bson_key_eqb_eq.
    - destruct (MongoDatabase.by_ids_source serverIDs src x) eqn:E1; [|reflexivity].
      destruct (MongoDatabase.by_id (KString id) x) eqn:E2; [|reflexivity].
      apply by_ids_source_spec in E1 as [id' [Hid' [_ Hs]]].
      unfold MongoDatabase.by_id in E2. apply bson_key_eqb_eq in E2.
      assert (MongoDatabase.by_id_source id src x = true)
        by (apply by_id_source_spec; now split).
      congruence. }
  assert (Hentry : forall id,
             MongoDatabase.fill_missing serverIDs src (now w) m0 !! id
             = match List.find (MongoDatabase.by_id (KString id)) l with
               | Some d => match MongoDatabase.Decode d with
                           | Ok st => Some st
                           | Err _ => None
                           end
               | None => if existsb (String.eqb id) serverIDs
                         then Some (MongoDatabase.empty_stats id src (now w)) else None
               end).
  { intros id. rewrite fill_missing_lookup, Hlook.
    destruct (List.find (MongoDatabase.by_id (KString id)) l) as [d|] eqn:Hf.
    - apply List.find_some in Hf as [Hin Hb].
      unfold MongoDatabase.by_id in Hb. apply bson_key_eqb_eq in Hb.
      destruct (Decode_string_id d id Hb) as [st [Hst _]]. now rewrite Hst.
    - now rewrite lookup_empty. }
  assert (Hexists : forall id, existsb (String.eqb id) serverIDs = true <-> In id serverIDs).
  { intros id. rewrite existsb_exists. split.
    - intros [x [Hx He]]. apply String.eqb_eq in He. now subst.
    - intros Hin. exists id. split; [exact Hin|apply String.eqb_refl]. }
  exists (MongoDatabase.fill_missing serverIDs src (now w) m0).
  split; [|split; [|split]].
  - rewrite (GetBatchStats_reads w serverIDs source src Hw eq_refl). fold l.
    now rewrite Hm0.
  - intros id. rewrite Hentry.
    destruct (List.find (MongoDatabase.by_id (KString id)) l) as [d|] eqn:Hf.
    + apply List.find_some in Hf as [Hin Hb].
      unfold MongoDatabase.by_id in Hb. apply bson_key_eqb_eq in Hb.
      destruct (Decode_string_id d id Hb) as [st [Hst _]]. rewrite Hst.
      split; [intros _|eauto].
      apply filter_In in Hin as [_ Hin].
      apply by_ids_source_spec in Hin as [id' [Hid' [Hin' _]]]. congruence.
    + destruct (existsb (String.eqb id) serverIDs) eqn:E.
      * split; [intros _; now apply Hexists|eauto].
      * split; [intros [? H]; discriminate|].
        intros Hin. apply Hexists in Hin. congruence.
  - intros id st. rewrite Hentry.
    destruct (List.find (MongoDatabase.by_id (KString id)) l) as [d|] eqn:Hf.
    + apply List.find_some in Hf as [Hin Hb].
      unfold MongoDatabase.by_id in Hb. apply bson_key_eqb_eq in Hb.
      destruct (Decode_string_id d id Hb) as [st' [Hst Hsid]]. rewrite Hst.
      intros H. inversion H. now subst.
    + destruct (existsb (String.eqb id) serverIDs); intros H; inversion H. reflexivity.
  - intros id src' Hin Hsan -> Hval. fold src in Hval.
    rewrite (GetStats_reads w id source Hw). rewrite Hsan. fold src. rewrite Hval.
    rewrite Hentry, (Hfind id Hin). unfold MongoDatabase.FindOne_Decode.
    destruct (List.find (MongoDatabase.by_id_source id src) (server_stats w)) as [d|] eqn:Hf.
    + destruct (FindOne_Decode_found id src _ d Hf) as [st [Hd _]]. rewrite Hd. eauto.
    + rewrite (proj2 (Hexists id) Hin). simpl. eauto.
Qed.

Lemma GetBatchStats_agrees_with_GetStats_witness :
  exists m st,
    MongoDatabase.GetBatchStats ["X"; "Y"] "COMMUNITY" Scenario.claim_world
    = Returns (Ok m) Scenario.claim_world
    /\ m !! "X" = Some st
    /\ MongoDatabase.GetStats "X" "COMMUNITY" Scenario.claim_world
       = Returns (Ok st) Scenario.claim_world.
Proof.
  destruct (GetBatchStats_agrees_with_GetStats Scenario.claim_world ["X"; "Y"] "COMMUNITY"
              eq_refl eq_refl) as [m [Hrun [_ [_ Hagree]]]].
  destruct (Hagree "X" "COMMUNITY") as [st [Hm Hget]];
    [now left|reflexivity|reflexivity|reflexivity|].
  exists m, st. split; [exact Hrun|]. split; [exact Hm|exact Hget].
Defined.

(** ** The leaderboards *)

Section SortDesc.
Import MongoDatabase.

Variable below : doc.t -> doc.t -> bool.

Lemma insert_by_perm (x : doc.t) (l : list doc.t) : insert_by below x l ≡ₚ x :: l.
Proof.
  induction l as [|y l IH]; simpl; [reflexivity|].
  destruct (below x y); [|reflexivity].
  rewrite IH. apply Permutation_swap.
Qed.

Lemma sort_desc_perm (l : list doc.t) : sort_desc below l ≡ₚ l.
Proof.
  induction l as [|x l IH]; simpl; [reflexivity|].
  rewrite insert_by_perm. now rewrite IH.
Qed.

Hypothesis below_asym : forall a b, below a b = true -> below b a = false.
Hypothesis below_trans :
  forall a b c, below a b = false -> below b c = false -> below a c = false.

Lemma insert_by_sorted (x : doc.t) (l : list doc.t) :
  StronglySorted (fun a b => below a b = false) l ->
  StronglySorted (fun a b => below a b = false) (insert_by below x l).
Proof.
  induction l as [|y l IH]; simpl; intros Hs.
  - repeat constructor.
  - inversion Hs as [|? ? Hl Hy]; subst.
    destruct (below x y) eqn:E.
    + constructor; [now apply IH|].
      apply List.Forall_forall. intros z Hz.
      apply (Permutation_in _ (insert_by_perm x l)) in Hz.
      destruct Hz as [<-|Hz]; [now apply below_asym|].
      rewrite List.Forall_forall in Hy. now apply Hy.
    + constructor; [exact Hs|].
      constructor; [exact E|].
      rewrite List.Forall_forall in *. intros z Hz.
      apply (below_trans x y z E). now apply Hy.
Qed.

Lemma sort_desc_sorted (l : list doc.t) :
  StronglySorted (fun a b => below a b = false) (sort_desc below l).
Proof.
  induction l as [|x l IH]; simpl; [constructor|]. now apply insert_by_sorted.
Qed.

(** The first [k] of a sorted list are sorted, and none of the others
    ranks above one of them. *)
Lemma take_top (k : nat) (l : list doc.t) :
  StronglySorted (fun a b => below a b = false) l ->
  StronglySorted (fun a b => below a b = false) (take k l)
  /\ forall a b, In a (take k l) -> In b (drop k l) -> below a b = false.
Proof.
  revert k. induction l as [|x l IH]; intros k Hs.
  - destruct k; simpl; split; try constructor; intros a b [].
  - destruct k as [|k]; simpl.
    + split; [constructor|intros a b []].
    + inversion Hs as [|? ? Hl Hx]; subst. destruct (IH k Hl) as [IH1 IH2].
      rewrite List.Forall_forall in Hx. split.
      * constructor; [exact IH1|]. apply List.Forall_forall. intros z Hz.
        apply Hx. apply list_elem_of_In. apply list_elem_of_In in Hz.
        now apply (subseteq_take k l).
      * intros a b [<-|Ha] Hb; [|now apply IH2].
        apply Hx. apply list_elem_of_In. apply list_elem_of_In in Hb.
        now apply (subseteq_drop k l).
Qed.

End SortDesc.

Section Leaderboards.
Import MongoDatabase.

Lemma int_below_asym (a b : option Z) : int_below a b = true -> int_below b a = false.
Proof.
  destruct a as [x|], b as [y|]; simpl; try reflexivity; try discriminate.
  intros H. apply Z.ltb_lt in H. apply Z.ltb_ge. lia.
Qed.

Lemma int_below_trans (a b c : option Z) :
  int_below a b = false -> int_below b c = false -> int_below a c = false.
Proof.
  destruct a as [x|], b as [y|], c as [z|]; simpl; try reflexivity; try discriminate.
  rewrite !Z.ltb_ge. lia.
Qed.

Lemma GetTopByInstalls_reads (w : World) (limit : Z) (source : string)
    (filter : option string) :
  writer (mu w) = false ->
  1 <= limit <= 1000 ->
  validation.CreateSafeFilter source = Ok filter ->
  GetTopByInstalls limit source w
  = Returns
      (match Decode_all
               (take (Z.to_nat limit)
                  (sort_desc installs_below
                     (List.filter (by_safe_filter filter) (server_stats w)))) with
       | Err _ => Err (Errorf "failed to decode results")
       | Ok results => Ok results
       end) w.
Proof.
  intros Hw Hl Hf. unfold GetTopByInstalls. apply with_RLock_reads; [exact Hw|]. intros m.
  unfold validation.ValidateLimit.
  destruct (Z.ltb_spec limit 1); [lia|]. destruct (Z.ltb_spec 1000 limit); [lia|].
  rewrite Hf. unfold mbind, M_bind, get, mret, M_ret. cbn [server_stats set_mu].
  now destruct (Decode_all _).
Qed.

Lemma GetTopByRating_reads (w : World) (limit : Z) (source : string)
    (filter : option string) :
  writer (mu w) = false ->
  1 <= limit <= 1000 ->
  source_filter source = Ok filter ->
  GetTopByRating limit source w
  = Returns
      (match Decode_all
               (take (Z.to_nat limit)
                  (sort_desc rating_below
                     (List.filter
                        (fun d => (rated_five_times d && by_safe_filter filter d)%bool)
                        (server_stats w)))) with
       | Err _ => Err (Errorf "failed to decode results")
       | Ok results => Ok results
       end) w.
Proof.
  intros Hw Hl Hf. unfold GetTopByRating. apply with_RLock_reads; [exact Hw|]. intros m.
  unfold validation.ValidateLimit.
  destruct (Z.ltb_spec limit 1); [lia|]. destruct (Z.ltb_spec 1000 limit); [lia|].
  rewrite Hf. unfold mbind, M_bind, get, mret, M_ret. cbn [server_stats set_mu].
  now destruct (Decode_all _).
Qed.

Lemma Forall_string_keyed_perm (l l' : list doc.t) :
  l' ≡ₚ l -> Forall (fun d => string_keyed d = true) l ->
  Forall (fun d => string_keyed d = true) l'.
Proof. intros Hp H. now rewrite Hp. Qed.

Lemma Forall_take_of {A : Type} (P : A -> Prop) (k : nat) (l : list A) :
  Forall P l -> Forall P (take k l).
Proof. apply Forall_take. Qed.

Lemma Forall2_decoded (l : list doc.t) (results : list ServerStats.t) (st : ServerStats.t) :
  Forall2 (fun d st => Decode d = Ok st) l results ->
  In st results -> exists d, In d l /\ Decode d = Ok st.
Proof.
  intros Hf2. induction Hf2 as [|d st' l results Hd Hf2 IH]; intros Hin; [destruct Hin|].
  destruct Hin as [<-|Hin]; [exists d; split; [now left|exact Hd]|].
  destruct (IH Hin) as [b [Hb Hdb]]. exists b. split; [now right|exact Hdb].
Qed.

(** Decoding carries an order on the documents over to the records. *)
Lemma Forall2_sorted (R : doc.t -> doc.t -> Prop) (S : ServerStats.t -> ServerStats.t -> Prop)
    (l : list doc.t) (results : list ServerStats.t) :
  (forall a b sa sb, In a l -> In b l -> Decode a = Ok sa -> Decode b = Ok sb ->
                     R a b -> S sa sb) ->
  Forall2 (fun d st => Decode d = Ok st) l results ->
  StronglySorted R l -> StronglySorted S results.
Proof.
  intros H Hf2. induction Hf2 as [|d st l results Hd Hf2 IH]; intros Hs; [constructor|].
  inversion Hs as [|? ? Hl Hx]; subst.
  constructor.
  - apply IH; [|exact Hl]. intros a b sa sb Ha Hb. apply H; now right.
  - rewrite List.Forall_forall in *. intros sb Hsb.
    destruct (Forall2_decoded l results sb Hf2 Hsb) as [b [Hb Hdb]].
    apply (H d b st sb); [now left|now right|exact Hd|exact Hdb|now apply Hx].
Qed.

End Leaderboards.

(** X13: [GetTopByInstalls] returns the servers with the highest
    installation counts. For a limit in 1..1000 and an accepted source,
    on a collection of server records, it returns as many records as the
    limit allows, decoded from documents that match the source; these are
    in descending order of [installation_count] (a document without the
    field after all that have it), and no matching document that was left
    out ranks above one that was returned. With no negative count
    stored, the records returned are in descending order of
    [InstallationCount]. *)
Theorem GetTopByInstalls_top (w : World) (limit : Z) (source : string)
    (filter : option string) :
  writer (mu w) = false ->
  1 <= limit <= 1000 ->
  validation.CreateSafeFilter source = Ok filter ->
  Forall (fun d => string_keyed d = true) (server_stats w) ->
  let matched := List.filter (MongoDatabase.by_safe_filter filter) (server_stats w) in
  exists (shown rest : list doc.t) (results : list ServerStats.t),
    MongoDatabase.GetTopByInstalls limit source w = Returns (Ok results) w
    /\ Forall2 (fun d st => MongoDatabase.Decode d = Ok st) shown results
    /\ (shown ++ rest)%list ≡ₚ matched
    /\ List.length results = Nat.min (Z.to_nat limit) (List.length matched)
    /\ StronglySorted (fun a b => MongoDatabase.installs_below a b = false) shown
    /\ (forall a b, In a shown -> In b rest -> MongoDatabase.installs_below a b = false)
    /\ (Forall (fun d => 0 <= default 0 (doc.installation_count d)) (server_stats w) ->
        StronglySorted
          (fun a b => ServerStats.InstallationCount b <= ServerStats.InstallationCount a)
          results).
Proof.
  intros Hw Hl Hf Hall matched.
  set (sorted := MongoDatabase.sort_desc MongoDatabase.installs_below matched).
  assert (Hperm : sorted ≡ₚ matched) by apply sort_desc_perm.
  assert (Hsorted : StronglySorted (fun a b => MongoDatabase.installs_below a b = false) sorted).
  { apply sort_desc_sorted.
    - intros a b. apply int_below_asym.
    - intros a b c. apply int_below_trans. }
  destruct (take_top MongoDatabase.installs_below (Z.to_nat limit) sorted Hsorted)
    as [Htop Hrest].
  assert (Hmatched : Forall (fun d => string_keyed d = true) matched).
  { apply List.Forall_forall. intros d Hd. apply filter_In in Hd as [Hd _].
    rewrite List.Forall_forall in Hall. now apply Hall. }
  assert (Hshown : Forall (fun d => string_keyed d = true) (take (Z.to_nat limit) sorted)).
  { apply Forall_take. now rewrite Hperm. }
  destruct (Decode_all_string_keyed _ Hshown) as [results [Hdec Hf2]].
  exists (take (Z.to_nat limit) sorted), (drop (Z.to_nat limit) sorted), results.
  split; [|split; [exact Hf2|split; [|split; [|split; [exact Htop|split; [exact Hrest|]]]]]].
  - rewrite (GetTopByInstalls_reads w limit source filter Hw Hl Hf).
    fold matched. fold sorted. now rewrite Hdec.
  - now rewrite take_drop.
  - rewrite <- (Forall2_length _ _ _ Hf2), length_take, (Permutation_length Hperm).
    reflexivity.
  - intros Hnn.
    refine (Forall2_sorted _ _ _ _ _ Hf2 Htop).
    intros a b sa sb Ha Hb Hda Hdb Hab. simpl in Hab.
    assert (Hin : forall x, In x (take (Z.to_nat limit) sorted) ->
                            0 <= default 0 (doc.installation_count x)).
    { intros x Hx. rewrite List.Forall_forall in Hnn. apply Hnn.
      apply list_elem_of_In in Hx. apply (subseteq_take _ _) in Hx.
      apply list_elem_of_In in Hx. apply (Permutation_in _ Hperm) in Hx.
      now apply filter_In in Hx as [Hx _]. }
    pose proof (Hin a Ha) as Ha0. pose proof (Hin b Hb) as Hb0.
    unfold MongoDatabase.Decode in Hda, Hdb.
    destruct (doc.server_id a); [|discriminate]. destruct (doc.server_id b); [|discriminate].
    inversion Hda; inversion Hdb; subst. simpl.
    unfold MongoDatabase.installs_below, MongoDatabase.int_below in Hab.
    destruct (doc.installation_count a) as [x|], (doc.installation_count b) as [y|];
      simpl in *; try discriminate; lia.
Qed.

Lemma GetTopByInstalls_top_witness :
  exists results,
    MongoDatabase.GetTopByInstalls 2 "" Scenario.scored_world
    = Returns (Ok results) Scenario.scored_world
    /\ map ServerStats.ServerID results = ["low"; "high"]
    /\ map ServerStats.InstallationCount results = [1000; 10].
Proof.
  destruct (GetTopByInstalls_top Scenario.scored_world 2 "" None eq_refl
              ltac:(lia) eq_refl ltac:(repeat constructor))
    as [shown [rest [results [Hrun _]]]].
  exists results. split; [exact Hrun|].
  assert (Hc : MongoDatabase.GetTopByInstalls 2 "" Scenario.scored_world
               = Returns (Ok (map (fun d => match MongoDatabase.Decode d with
                                            | Ok st => st
                                            | Err _ => ServerStats.zero
                                            end)
                                [Scenario.scored "low" 1000 3.9%float;
                                 Scenario.scored "high" 10 4.5%float]))
                   Scenario.scored_world) by (vm_compute; reflexivity).
  rewrite Hc in Hrun. inversion Hrun. split; reflexivity.
Defined.

(** ** The order of ratings, and the leaderboard of ratings *)

Section RatingOrder.
Import MongoDatabase.

Lemma SFeqb_refl (f : spec_float) : SFeqb f f = negb (SFnan f).
Proof.
  unfold SFeqb. destruct f as [s|s| |s m e]; simpl; try reflexivity.
  - now destruct s.
  - destruct s; rewrite Z.compare_refl;
      change (Pos.compare_cont Eq m m) with (Pos.compare m m);
      now rewrite Pos.compare_refl.
Qed.

Ltac compare_cases :=
  repeat match goal with
    | H : context [(?x ?= ?y)%Z] |- _ => destruct (Z.compare_spec x y); simpl in H
    | |- context [(?x ?= ?y)%Z] => destruct (Z.compare_spec x y); simpl
    | H : context [(?x ?= ?y)%positive] |- _ => destruct (Pos.compare_spec x y); simpl in H
    | |- context [(?x ?= ?y)%positive] => destruct (Pos.compare_spec x y); simpl
    end.

(** On the numbers, "not less than" is transitive. *)
Lemma SFltb_trans (a b c : spec_float) :
  SFnan b = false ->
  SFltb a b = false -> SFltb b c = false -> SFltb a c = false.
Proof.
  unfold SFltb.
  destruct a as [sa|sa| |sa ma ea], b as [sb|sb| |sb mb eb], c as [sc|sc| |sc mc ec];
    simpl; intros Hb Hab Hbc; try discriminate; try reflexivity;
    try (destruct sa); try (destruct sb); try (destruct sc);
    simpl in *; try discriminate; try reflexivity;
    change (Pos.compare_cont Eq) with Pos.compare in *;
    compare_cases; subst; try discriminate; try reflexivity; try lia.
Qed.

Lemma SFltb_nan_r (a b : spec_float) : SFnan b = true -> SFltb a b = false.
Proof. destruct b; try discriminate. intros _. unfold SFltb. now destruct a. Qed.

Lemma is_nan_spec (x : float) : PrimFloat.is_nan x = SFnan (Prim2SF x).
Proof.
  unfold PrimFloat.is_nan. now rewrite FloatAxioms.eqb_spec, SFeqb_refl, negb_involutive.
Qed.

Lemma double_below_asym (a b : option float) :
  double_below a b = true -> double_below b a = false.
Proof.
  destruct a as [x|], b as [y|]; simpl; try discriminate; try reflexivity.
  rewrite !is_nan_spec, !FloatAxioms.ltb_spec.
  destruct (SFnan (Prim2SF x)) eqn:Hx, (SFnan (Prim2SF y)) eqn:Hy; simpl;
    try discriminate; try reflexivity.
  - intros _. now apply SFltb_nan_r.
  - now rewrite (SFltb_nan_r (Prim2SF x) (Prim2SF y) Hy).
  - apply SFltb_asym.
Qed.

Lemma double_below_trans (a b c : option float) :
  double_below a b = false -> double_below b c = false -> double_below a c = false.
Proof.
  destruct a as [x|], b as [y|], c as [z|]; simpl; try discriminate; try reflexivity.
  rewrite !is_nan_spec, !FloatAxioms.ltb_spec.
  destruct (SFnan (Prim2SF x)) eqn:Hx, (SFnan (Prim2SF y)) eqn:Hy,
    (SFnan (Prim2SF z)) eqn:Hz; simpl; try discriminate; try reflexivity;
    intros Hab Hbc.
  - now apply SFltb_nan_r.
  - now apply SFltb_nan_r.
  - now apply (SFltb_trans _ (Prim2SF y)).
Qed.

End RatingOrder.

(** X14: [GetTopByRating] lists only servers that have been rated at
    least five times, however high the rating of the others. For a limit
    in 1..1000, on a collection of server records, it returns as many
    records as the limit allows among the documents with
    [rating_count >= 5] that match the source; these are in descending
    order of [rating], and none that was left out ranks above one that
    was returned. *)
Theorem GetTopByRating_top (w : World) (limit : Z) (source : string)
    (filter : option string) :
  writer (mu w) = false ->
  1 <= limit <= 1000 ->
  MongoDatabase.source_filter source = Ok filter ->
  Forall (fun d => string_keyed d = true) (server_stats w) ->
  let matched :=
    List.filter
      (fun d => (MongoDatabase.rated_five_times d
                 && MongoDatabase.by_safe_filter filter d)%bool) (server_stats w) in
  exists (shown rest : list doc.t) (results : list ServerStats.t),
    MongoDatabase.GetTopByRating limit source w = Returns (Ok results) w
    /\ Forall2 (fun d st => MongoDatabase.Decode d = Ok st) shown results
    /\ (shown ++ rest)%list ≡ₚ matched
    /\ List.length results = Nat.min (Z.to_nat limit) (List.length matched)
    /\ (forall st, In st results -> 5 <= ServerStats.RatingCount st)
    /\ StronglySorted (fun a b => MongoDatabase.rating_below a b = false) shown
    /\ (forall a b, In a shown -> In b rest -> MongoDatabase.rating_below a b = false).
Proof.
  intros Hw Hl Hf Hall matched.
  set (sorted := MongoDatabase.sort_desc MongoDatabase.rating_below matched).
  assert (Hperm : sorted ≡ₚ matched) by apply sort_desc_perm.
  assert (Hsorted : StronglySorted (fun a b => MongoDatabase.rating_below a b = false) sorted).
  { apply sort_desc_sorted.
    - intros a b. apply double_below_asym.
    - intros a b c. apply double_below_trans. }
  destruct (take_top MongoDatabase.rating_below (Z.to_nat limit) sorted Hsorted)
    as [Htop Hrest].
  assert (Hshown : Forall (fun d => string_keyed d = true) (take (Z.to_nat limit) sorted)).
  { apply Forall_take. rewrite Hperm.
    apply List.Forall_forall. intros d Hd. apply filter_In in Hd as [Hd _].
    rewrite List.Forall_forall in Hall. now apply Hall. }
  destruct (Decode_all_string_keyed _ Hshown) as [results [Hdec Hf2]].
  exists (take (Z.to_nat limit) sorted), (drop (Z.to_nat limit) sorted), results.
  split; [|split; [exact Hf2|split; [|split; [|split; [|split; [exact Htop|exact Hrest]]]]]].
  - rewrite (GetTopByRating_reads w limit source filter Hw Hl Hf).
    fold matched. fold sorted. now rewrite Hdec.
  - now rewrite take_drop.
  - rewrite <- (Forall2_length _ _ _ Hf2), length_take, (Permutation_length Hperm).
    reflexivity.
  - intros st Hst. destruct (Forall2_decoded _ _ st Hf2 Hst) as [d [Hd Hdd]].
    apply list_elem_of_In in Hd. apply (subseteq_take _ _) in Hd.
    apply list_elem_of_In in Hd. apply (Permutation_in _ Hperm) in Hd.
    apply filter_In in Hd as [_ Hd]. apply andb_true_iff in Hd as [Hd _].
    unfold MongoDatabase.rated_five_times in Hd. unfold MongoDatabase.Decode in Hdd.
    destruct (doc.server_id d); [|discriminate]. inversion Hdd; subst. simpl.
    destruct (doc.rating_count d) as [c|]; [|discriminate]. simpl. now apply Z.leb_le.
Qed.

Lemma GetTopByRating_top_witness :
  exists results,
    MongoDatabase.GetTopByRating 2 "REGISTRY" Scenario.trending_world
    = Returns (Ok results) Scenario.trending_world
    /\ map ServerStats.ServerID results = ["high"; "mid"].
Proof.
  destruct (GetTopByRating_top Scenario.trending_world 2 "REGISTRY" (Some "REGISTRY")
              eq_refl ltac:(lia) eq_refl ltac:(repeat constructor))
    as [shown [rest [results [Hrun _]]]].
  exists results. split; [exact Hrun|].
  assert (Hc : MongoDatabase.GetTopByRating 2 "REGISTRY" Scenario.trending_world
               = Returns (Ok (map (fun d => match MongoDatabase.Decode d with
                                            | Ok st => st
                                            | Err _ => ServerStats.zero
                                            end)
                                [Scenario.rated "high" 4.5%float;
                                 Scenario.rated "mid" 4.2%float]))
                   Scenario.trending_world) by (vm_compute; reflexivity).
  rewrite Hc in Hrun. inversion Hrun. reflexivity.
Defined.

(** ** The statistics of one server over all its sources *)

Section Aggregated.
Import MongoDatabase.

(** A body that only reads, run under a read lock that may be nested in
    another. *)
Lemma with_RLock_nested {A : Type} (body : M A) (a : A) (w : World) :
  writer (mu w) = false ->
  body (set_mu (mkRWMutex false (S (readers (mu w)))) w)
  = Returns a (set_mu (mkRWMutex false (S (readers (mu w)))) w) ->
  with_RLock body w = Returns a w.
Proof.
  intros Hw Hb. unfold with_RLock, mbind, M_bind, RLock, RUnlock, mret, M_ret.
  rewrite Hw, Hb. cbn [mu set_mu writer readers]. f_equal.
  now apply (set_mu_restores w _ 0%nat).
Qed.

Lemma GetStatsByServerID_reads (w : World) (serverID sid : string) :
  writer (mu w) = false ->
  validation.SanitizeServerID serverID = Ok sid ->
  GetStatsByServerID serverID w
  = Returns
      (match Decode_all (List.filter (by_id (KString sid)) (server_stats w)) with
       | Err _ => Err (Errorf "failed to decode stats")
       | Ok results => Ok results
       end) w.
Proof.
  intros Hw Hsan. unfold GetStatsByServerID. apply with_RLock_reads; [exact Hw|].
  intros m. rewrite Hsan. unfold mbind, M_bind, get, mret, M_ret.
  cbn [server_stats set_mu]. now destruct (Decode_all _).
Qed.

Lemma by_id_string_keyed (sid : string) (coll : list doc.t) :
  Forall (fun d => string_keyed d = true) (List.filter (by_id (KString sid)) coll).
Proof.
  apply List.Forall_forall. intros d Hd. apply filter_In in Hd as [_ Hd].
  unfold by_id in Hd. apply bson_key_eqb_eq in Hd. unfold string_keyed. now rewrite Hd.
Qed.

(** Under the unique index, the records of one server have distinct
    sources. *)
Lemma sources_distinct (sid : string) (coll : list doc.t) :
  unique_index coll = true ->
  List.NoDup (map doc.source (List.filter (by_id (KString sid)) coll)).
Proof.
  induction coll as [|x coll IH]; simpl; intros Hu; [constructor|].
  apply andb_true_iff in Hu as [Hx Hu]. apply negb_true_iff in Hx.
  destruct (by_id (KString sid) x) eqn:Hm; [|now apply IH].
  simpl. constructor; [|now apply IH].
  intros Hin. apply in_map_iff in Hin as [y [Hy Hin]].
  apply filter_In in Hin as [Hin Hym].
  unfold by_id in Hm, Hym. apply bson_key_eqb_eq in Hm, Hym.
  assert (Hk : same_key x y = true).
  { unfold same_key. rewrite Hm, Hym, Hy. apply andb_true_iff.
    split; [now apply bson_key_eqb_eq|now apply option_string_eqb_eq]. }
  rewrite (violates_unique_false x y coll Hx Hin) in Hk. discriminate.
Qed.

(** The loop [SourceBreakdown[stats.Source] = stats] over the decoded
    records, read at a source that is not the empty string. *)
Lemma breakdown_lookup (l : list doc.t) (results : list ServerStats.t)
    (m0 : gmap string ServerStats.t) (src : string) :
  List.NoDup (map doc.source l) ->
  Forall2 (fun d st => Decode d = Ok st) l results ->
  src <> "" ->
  fold_left (fun m stats => <[ServerStats.Source stats := stats]> m) results m0 !! src
  = match List.find (fun d => option_string_eqb (doc.source d) (Some src)) l with
    | Some d => match Decode d with Ok st => Some st | Err _ => None end
    | None => m0 !! src
    end.
Proof.
  intros Hnd Hf2 Hne. revert m0 Hnd.
  induction Hf2 as [|d st l results Hd Hf2 IH]; intros m0 Hnd; [reflexivity|].
  inversion Hnd as [|? ? Hnotin Hnd']; subst. simpl. rewrite (IH _ Hnd').
  assert (Hsrc : ServerStats.Source st = default "" (doc.source d)).
  { unfold Decode in Hd. destruct (doc.server_id d); [|discriminate]. now inversion Hd. }
  destruct (option_string_eqb (doc.source d) (Some src)) eqn:E.
  - apply option_string_eqb_eq in E.
    destruct (List.find _ l) as [d'|] eqn:Hf.
    + exfalso. apply Hnotin. apply List.find_some in Hf as [Hin Hb].
      apply option_string_eqb_eq in Hb. rewrite E, <- Hb. now apply in_map.
    + rewrite Hd, Hsrc, E. simpl. apply lookup_insert_eq.
  - destruct (List.find _ l) as [d'|]; [reflexivity|].
    apply lookup_insert_ne. rewrite Hsrc. intros Heq.
    destruct (doc.source d) as [s|]; simpl in Heq; [|congruence].
    subst s. simpl in E. now rewrite String.eqb_refl in E.
Qed.

End Aggregated.

(** X26: [GetAggregatedStats] and [GetStats] agree. With no writer
    holding the mutex and the unique index in place, the call takes the
    read lock twice, returns and leaves the state as it was; the result
    carries the sanitized id; under every source other than the empty
    string its breakdown holds exactly the record that a read through
    that server and source finds; and for a server without records the
    totals are zero and the breakdown is empty. *)
Theorem GetAggregatedStats_breakdown (w : World) (serverID sid : string) :
  writer (mu w) = false ->
  unique_index (server_stats w) = true ->
  validation.SanitizeServerID serverID = Ok sid ->
  exists agg,
    MongoDatabase.GetAggregatedStats serverID w = Returns (Ok agg) w
    /\ AggregatedStats.ServerID agg = sid
    /\ (forall src st, src <> "" ->
          (AggregatedStats.SourceBreakdown agg !! src = Some st
           <-> MongoDatabase.FindOne_Decode (MongoDatabase.by_id_source sid src)
                 (server_stats w) = Ok st))
    /\ (List.filter (MongoDatabase.by_id (KString sid)) (server_stats w) = [] ->
        agg = AggregatedStats.mk sid 0 0%float 0 ∅ (now w)).
Proof.
  intros Hw Hu Hsan.
  destruct (SanitizeID_fixed serverID sid Hsan) as [_ Hfix].
  set (docs := List.filter (MongoDatabase.by_id (KString sid)) (server_stats w)).
  destruct (Decode_all_string_keyed docs (by_id_string_keyed sid (server_stats w)))
    as [results [Hdec Hf2]].
  set (w1 := set_mu (mkRWMutex false (S (readers (mu w)))) w).
  assert (Hinner : MongoDatabase.GetStatsByServerID sid w1 = Returns (Ok results) w1).
  { rewrite (GetStatsByServerID_reads w1 sid sid); [|reflexivity|exact Hfix].
    cbn [server_stats set_mu w1]. fold docs. now rewrite Hdec. }
  assert (Hlook : forall (m : gmap string ServerStats.t) src st, src <> "" ->
            m = fold_left (fun m stats => <[ServerStats.Source stats := stats]> m) results ∅ ->
            (m !! src = Some st
             <-> MongoDatabase.FindOne_Decode (MongoDatabase.by_id_source sid src)
                   (server_stats w) = Ok st)).
  { intros m src st Hne ->.
    rewrite (breakdown_lookup docs results ∅ src (sources_distinct sid _ Hu) Hf2 Hne).
    unfold docs. rewrite find_filter. unfold MongoDatabase.FindOne_Decode.
    change (fun x : doc.t =>
              (MongoDatabase.by_id (KString sid) x
               && MongoDatabase.option_string_eqb (doc.source x) (Some src))%bool)
      with (MongoDatabase.by_id_source sid src).
    destruct (List.find (MongoDatabase.by_id_source sid src) (server_stats w)) as [d|];
      [|rewrite lookup_empty; split; discriminate].
    destruct (MongoDatabase.Decode d); split; congruence. }
  destruct results as [|st0 results].
  - eexists. split; [|split; [|split]].
    + unfold MongoDatabase.GetAggregatedStats. apply with_RLock_nested; [exact Hw|].
      fold w1. rewrite Hsan. rewrite (bind_Returns _ _ _ _ _ Hinner).
      unfold mbind, M_bind, time_Now, mret, M_ret. reflexivity.
    + reflexivity.
    + intros src st Hne. now apply Hlook.
    + intros _. reflexivity.
  - eexists. split; [|split; [|split]].
    + unfold MongoDatabase.GetAggregatedStats. apply with_RLock_nested; [exact Hw|].
      fold w1. rewrite Hsan. rewrite (bind_Returns _ _ _ _ _ Hinner).
      unfold mbind, M_bind, time_Now, mret, M_ret. reflexivity.
    + reflexivity.
    + intros src st Hne. now apply Hlook.
    + intros Hnil. fold docs in Hnil. rewrite Hnil in Hf2. inversion Hf2.
Qed.

Lemma GetAggregatedStats_breakdown_witness :
  exists agg,
    MongoDatabase.GetAggregatedStats " X" Scenario.claim_world
    = Returns (Ok agg) Scenario.claim_world
    /\ AggregatedStats.SourceBreakdown agg !! "COMMUNITY" = Some Scenario.stats_X.
Proof.
  destruct (GetAggregatedStats_breakdown Scenario.claim_world " X" "X" eq_refl eq_refl eq_refl)
    as [agg [Hrun [_ [Hbreak _]]]].
  exists agg. split; [exact Hrun|].
  apply Hbreak; [discriminate|reflexivity].
Defined.

(** ** The most recent servers, and the source filters of the leaderboards *)

Section Recent.
Import MongoDatabase.

Lemma GetRecentServers_reads (w : World) (limit : Z) (source : string)
    (filter : option string) :
  writer (mu w) = false ->
  1 <= limit <= 1000 ->
  source_filter source = Ok filter ->
  GetRecentServers limit source w
  = Returns
      (match Decode_all
               (take (Z.to_nat limit)
                  (sort_desc first_seen_below
                     (List.filter (by_safe_filter filter) (server_stats w)))) with
       | Err _ => Err (Errorf "failed to decode results")
       | Ok results => Ok results
       end) w.
Proof.
  intros Hw Hl Hf. unfold GetRecentServers. apply with_RLock_reads; [exact Hw|]. intros m.
  unfold validation.ValidateLimit.
  destruct (Z.ltb_spec limit 1); [lia|]. destruct (Z.ltb_spec 1000 limit); [lia|].
  rewrite Hf. unfold mbind, M_bind, get, mret, M_ret. cbn [server_stats set_mu].
  now destruct (Decode_all _).
Qed.

(** A source that reads [ALL] once its white space is trimmed, without
    being [ALL]: the two ways the store builds its source filter. *)
Lemma padded_ALL_filters (source : string) :
  gostrings.TrimSpace source = "ALL" -> source <> "ALL" ->
  validation.CreateSafeFilter source = Ok None
  /\ source_filter source = Ok (Some "ALL").
Proof.
  intros Ht Hne.
  assert (Hv : validation.ValidateSource source = Ok "ALL").
  { apply ValidateSource_spec. split; [now rewrite Ht|]. right. right. now left. }
  split.
  - unfold validation.CreateSafeFilter. now rewrite Hv.
  - unfold source_filter. rewrite Hv.
    assert (H0 : String.eqb source "" = false).
    { apply String.eqb_neq. intros ->. discriminate Ht. }
    apply String.eqb_neq in Hne. now rewrite H0, Hne.
Qed.

Lemma filter_none {A : Type} (p : A -> bool) (l : list A) :
  Forall (fun x => p x = false) l -> List.filter p l = [].
Proof.
  induction 1 as [|x l Hx Hl IH]; [reflexivity|]. simpl. now rewrite Hx.
Qed.

End Recent.



(** X28: the leaderboards do not read a padded [ALL] alike. For a source
    that is [ALL] with white space around it, [GetTopByInstalls] trims
    it and lists the records of every source, while [GetTopByRating] and
    [GetRecentServers] filter on the source [ALL] itself and, no record
    carrying that source, return an empty list. *)
Theorem padded_ALL_source (w : World) (limit : Z) (source : string) :
  writer (mu w) = false ->
  1 <= limit <= 1000 ->
  gostrings.TrimSpace source = "ALL" -> source <> "ALL" ->
  Forall (fun d => string_keyed d = true) (server_stats w) ->
  Forall (fun d => MongoDatabase.by_safe_filter (Some "ALL") d = false) (server_stats w) ->
  (exists results,
     MongoDatabase.GetTopByInstalls limit source w = Returns (Ok results) w
     /\ List.length results = Nat.min (Z.to_nat limit) (List.length (server_stats w)))
  /\ MongoDatabase.GetTopByRating limit source w = Returns (Ok []) w
  /\ MongoDatabase.GetRecentServers limit source w = Returns (Ok []) w.
Proof.
  intros Hw Hl Ht Hne Hall Hnone.
  destruct (padded_ALL_filters source Ht Hne) as [Hsafe Hfilter].
  split; [|split].
  - rewrite (GetTopByInstalls_reads w limit source None Hw Hl Hsafe).
    set (sorted := MongoDatabase.sort_desc MongoDatabase.installs_below
                     (List.filter (MongoDatabase.by_safe_filter None) (server_stats w))).
    assert (Hfil : List.filter (MongoDatabase.by_safe_filter None) (server_stats w)
                   = server_stats w).
    { clear. induction (server_stats w) as [|d l IH]; [reflexivity|]. simpl. now rewrite IH. }
    assert (Hperm : sorted ≡ₚ server_stats w).
    { unfold sorted. rewrite sort_desc_perm. now rewrite Hfil. }
    assert (Hshown : Forall (fun d => string_keyed d = true) (take (Z.to_nat limit) sorted)).
    { apply Forall_take. now rewrite Hperm. }
    destruct (Decode_all_string_keyed _ Hshown) as [results [Hdec Hf2]].
    exists results. rewrite Hdec. split; [reflexivity|].
    rewrite <- (Forall2_length _ _ _ Hf2), length_take, (Permutation_length Hperm).
    reflexivity.
  - rewrite (GetTopByRating_reads w limit source (Some "ALL") Hw Hl Hfilter).
    rewrite filter_none; [now destruct (Z.to_nat limit)|].
    eapply List.Forall_impl; [|exact Hnone]. intros d Hd. simpl in *.
    rewrite Hd. apply andb_false_r.
  - rewrite (GetRecentServers_reads w limit source (Some "ALL") Hw Hl Hfilter).
    rewrite filter_none; [now destruct (Z.to_nat limit)|exact Hnone].
Qed.

Lemma padded_ALL_source_witness :
  (exists results,
     MongoDatabase.GetTopByInstalls 2 " ALL" Scenario.scored_world
     = Returns (Ok results) Scenario.scored_world
     /\ List.length results = 2%nat)
  /\ MongoDatabase.GetTopByRating 2 " ALL" Scenario.scored_world
     = Returns (Ok []) Scenario.scored_world
  /\ MongoDatabase.GetRecentServers 2 " ALL" Scenario.scored_world
     = Returns (Ok []) Scenario.scored_world.
Proof.
  apply (padded_ALL_source Scenario.scored_world 2 " ALL").
  - reflexivity.
  - lia.
  - reflexivity.
  - discriminate.
  - repeat constructor.
  - repeat constructor.
Defined.
(** ** The ranking of the trending endpoint *)

Section TrendRanking.
Import MongoDatabase VPHandlers.








End TrendRanking.




(** ** The feedback store: the unique indexes and the creation of feedback *)

Section FeedbackStore.
Import ServerFeedback MongoFeedbackDatabase.

Lemma duplicate_key_sym (f g : t) : duplicate_key f g = duplicate_key g f.
Proof.
  unfold duplicate_key.
  now rewrite (String.eqb_sym (ID f)), (String.eqb_sym (ServerID f)),
    (String.eqb_sym (UserID f)), (String.eqb_sym (Source f)).
Qed.

(** [duplicate_key] looks at the four key fields only. *)
Lemma duplicate_key_ext_l (f f' g : t) :
  ID f' = ID f -> ServerID f' = ServerID f -> UserID f' = UserID f -> Source f' = Source f ->
  duplicate_key f' g = duplicate_key f g.
Proof. unfold duplicate_key. now intros -> -> -> ->. Qed.

Lemma duplicate_key_ext_r (f g g' : t) :
  ID g' = ID g -> ServerID g' = ServerID g -> UserID g' = UserID g -> Source g' = Source g ->
  duplicate_key f g' = duplicate_key f g.
Proof. unfold duplicate_key. now intros -> -> -> ->. Qed.

Lemma existsb_duplicate_ext (f f' : t) (coll : list t) :
  ID f' = ID f -> ServerID f' = ServerID f -> UserID f' = UserID f -> Source f' = Source f ->
  existsb (duplicate_key f') coll = existsb (duplicate_key f) coll.
Proof.
  intros H1 H2 H3 H4. induction coll as [|g coll IH]; [reflexivity|]. simpl.
  now rewrite IH, (duplicate_key_ext_l f f' g H1 H2 H3 H4).
Qed.

Lemma feedback_indexes_app (coll : list t) (f : t) :
  feedback_indexes coll = true -> existsb (duplicate_key f) coll = false ->
  feedback_indexes (coll ++ [stored f]) = true.
Proof.
  induction coll as [|g coll IH]; simpl; intros Hi He; [reflexivity|].
  apply andb_true_iff in Hi as [Hg Hi]. apply orb_false_iff in He as [Hfg He].
  rewrite (IH Hi He), andb_true_r, existsb_app. simpl.
  apply negb_true_iff in Hg. rewrite Hg, orb_false_r. simpl.
  rewrite (duplicate_key_ext_r g f (stored f)) by reflexivity.
  now rewrite duplicate_key_sym, Hfg.
Qed.

Lemma existsb_update_first (p : t -> bool) (u : t -> t) (f : t) (coll : list t) :
  (forall g, ID (u g) = ID g /\ ServerID (u g) = ServerID g /\ UserID (u g) = UserID g
             /\ Source (u g) = Source g) ->
  existsb (duplicate_key f) (update_first p u coll) = existsb (duplicate_key f) coll.
Proof.
  intros Hu. induction coll as [|g coll IH]; [reflexivity|]. simpl.
  destruct (p g); simpl.
  - destruct (Hu g) as [H1 [H2 [H3 H4]]].
    now rewrite (duplicate_key_ext_r f g (u g) H1 H2 H3 H4).
  - now rewrite IH.
Qed.

Lemma feedback_indexes_update_first (p : t -> bool) (u : t -> t) (coll : list t) :
  (forall g, ID (u g) = ID g /\ ServerID (u g) = ServerID g /\ UserID (u g) = UserID g
             /\ Source (u g) = Source g) ->
  feedback_indexes coll = true -> feedback_indexes (update_first p u coll) = true.
Proof.
  intros Hu. induction coll as [|g coll IH]; simpl; intros Hi; [reflexivity|].
  apply andb_true_iff in Hi as [Hg Hi]. destruct (p g); simpl.
  - destruct (Hu g) as [H1 [H2 [H3 H4]]].
    now rewrite (existsb_duplicate_ext g (u g) coll H1 H2 H3 H4), Hg, Hi.
  - now rewrite (existsb_update_first p u g coll Hu), Hg, (IH Hi).
Qed.

Lemma existsb_delete_first (p : t -> bool) (f : t) (coll : list t) :
  existsb (duplicate_key f) coll = false ->
  existsb (duplicate_key f) (delete_first p coll) = false.
Proof.
  induction coll as [|g coll IH]; simpl; intros He; [reflexivity|].
  apply orb_false_iff in He as [Hg He]. destruct (p g); simpl; [exact He|].
  now rewrite Hg, (IH He).
Qed.

Lemma feedback_indexes_delete_first (p : t -> bool) (coll : list t) :
  feedback_indexes coll = true -> feedback_indexes (delete_first p coll) = true.
Proof.
  induction coll as [|g coll IH]; simpl; intros Hi; [reflexivity|].
  apply andb_true_iff in Hi as [Hg Hi]. destruct (p g); simpl; [exact Hi|].
  apply negb_true_iff in Hg.
  now rewrite (existsb_delete_first p g coll Hg), (IH Hi).
Qed.

(** The struct [CreateFeedback] inserts, the identifier it generates and
    the state it generates it in. *)
Lemma CreateFeedback_runs (f : t) (w : World) (sid src : string) :
  ServerID f <> "" -> UserID f <> "" ->
  validation.SanitizeServerID (ServerID f) = Ok sid ->
  validation.ValidateSource (if String.eqb (Source f) "" then SourceRegistry else Source f)
  = Ok src ->
  let w0 := if String.eqb (ID f) "" then set_next_id (S (next_id w)) w else w in
  let id := if String.eqb (ID f) ""
            then "uuid-" +:+ gostrings.Itoa (Z.of_nat (next_id w)) else ID f in
  let g := mk id sid src (UserID f) (Rating f) (Comment f) (now w) (now w) true
             (Username f) (UserAvatar f) in
  CreateFeedback f w
  = if existsb (duplicate_key g) (server_feedback w)
    then Returns (g, Some ErrDuplicateFeedback) w0
    else Returns (g, None) (set_server_feedback (server_feedback w ++ [stored g]) w0).
Proof.
  intros Hs Hu Hsid Hsrc. unfold CreateFeedback.
  apply String.eqb_neq in Hs, Hu. rewrite Hs, Hu. cbn [orb]. rewrite Hsid.
  destruct f as [fid fserver fsource fuser frating fcomment fcreated fupdated fpublic fname favatar].
  cbn [ID ServerID Source UserID Rating Comment Username UserAvatar] in *.
  destruct (String.eqb fsource "") eqn:Hsrc0;
    cbn [Source with_ServerID with_Source]; rewrite Hsrc0;
    cbn [Source with_ServerID with_Source]; rewrite Hsrc;
    cbn [ID with_Source with_ServerID];
    destruct (String.eqb fid "") eqn:Hid; cbv zeta;
    unfold mbind, M_bind, fresh_id, time_Now, get, mret, M_ret, InsertOne, modify;
    cbn -[existsb gostrings.Itoa String.append]; rewrite ?Hid;
    destruct fpublic; cbn -[existsb gostrings.Itoa String.append];
    destruct (existsb _ _); reflexivity.
Qed.

(** What a call of [CreateFeedback] that reports no error went through. *)
Lemma CreateFeedback_succeeded (f f1 : t) (w w1 : World) :
  CreateFeedback f w = Returns (f1, None) w1 ->
  ServerID f <> "" /\ UserID f <> ""
  /\ exists sid src,
       validation.SanitizeServerID (ServerID f) = Ok sid
       /\ validation.ValidateSource
            (if String.eqb (Source f) "" then SourceRegistry else Source f) = Ok src.
Proof.
  unfold CreateFeedback.
  destruct (String.eqb (ServerID f) "") eqn:Hs; [discriminate|].
  destruct (String.eqb (UserID f) "") eqn:Hu; [discriminate|]. cbn [orb].
  destruct (validation.SanitizeServerID (ServerID f)) as [sid|e] eqn:Hsid; [|discriminate].
  destruct (String.eqb (Source f) "") eqn:Hsrc0;
    cbn [Source with_ServerID with_Source]; rewrite Hsrc0; cbn [Source with_ServerID with_Source];
    (destruct (validation.ValidateSource _) as [src|e] eqn:Hsrc; [|discriminate]);
    intros _; (split; [now apply String.eqb_neq|split; [now apply String.eqb_neq|]]);
    exists sid, src; split; first [reflexivity|assumption].
Qed.

Lemma find_none_of_existsb (p q : t -> bool) (coll : list t) :
  (forall g, q g = true -> p g = true) ->
  existsb p coll = false -> List.find q coll = None.
Proof.
  intros Hpq. induction coll as [|g coll IH]; simpl; intros He; [reflexivity|].
  apply orb_false_iff in He as [Hg He].
  destruct (q g) eqn:Hq; [apply Hpq in Hq; congruence|now apply IH].
Qed.


End FeedbackStore.

(** X15: the feedback store keeps its unique indexes: if no two stored
    feedbacks share their id, or their server, user and source, then the
    same holds after [CreateFeedback], [UpdateFeedback] and
    [DeleteFeedback], whatever their arguments and whether they succeed. *)
Theorem feedback_indexes_kept (w : World) :
  feedback_indexes (server_feedback w) = true ->
  (forall f, feedback_indexes
               (server_feedback (state_after (MongoFeedbackDatabase.CreateFeedback f) w)) = true)
  /\ (forall f, feedback_indexes
                  (server_feedback (state_after (MongoFeedbackDatabase.UpdateFeedback f) w))
                = true)
  /\ (forall feedbackID userID,
        feedback_indexes
          (server_feedback
             (state_after (MongoFeedbackDatabase.DeleteFeedback feedbackID userID) w)) = true).
Proof.
  intros Hi. split; [|split].
  - intros f. unfold state_after, MongoFeedbackDatabase.CreateFeedback.
    destruct (String.eqb (ServerFeedback.ServerID f) "" || String.eqb (ServerFeedback.UserID f) "")%bool;
      [exact Hi|].
    destruct (validation.SanitizeServerID _); [|exact Hi].
    match goal with |- context [validation.ValidateSource ?s] =>
      destruct (validation.ValidateSource s) end; [|exact Hi].
    unfold mbind, M_bind, fresh_id, time_Now, get, mret, M_ret, modify,
      MongoFeedbackDatabase.InsertOne.
    match goal with |- context [if String.eqb ?i "" then _ else _] =>
      destruct (String.eqb i "") end;
      cbn -[existsb gostrings.Itoa String.append feedback_indexes];
      match goal with |- context [existsb ?p ?l] => destruct (existsb p l) eqn:He end;
      cbn -[existsb gostrings.Itoa String.append feedback_indexes];
      try exact Hi; now apply feedback_indexes_app.
  - intros f. unfold state_after, MongoFeedbackDatabase.UpdateFeedback.
    destruct (String.eqb (ServerFeedback.ID f) ""); [exact Hi|].
    unfold mbind, M_bind, time_Now, get, mret, M_ret, modify.
    cbn -[feedback_indexes List.find MongoFeedbackDatabase.update_first].
    destruct (List.find _ _); cbn -[feedback_indexes MongoFeedbackDatabase.update_first];
      [|exact Hi].
    apply feedback_indexes_update_first; [|exact Hi]. intros g. now repeat split.
  - intros feedbackID userID. unfold state_after, MongoFeedbackDatabase.DeleteFeedback.
    destruct (String.eqb feedbackID "" || String.eqb userID "")%bool; [exact Hi|].
    unfold mbind, M_bind, get, mret, M_ret, modify.
    cbn -[feedback_indexes List.find MongoFeedbackDatabase.delete_first].
    destruct (List.find _ _); cbn -[feedback_indexes MongoFeedbackDatabase.delete_first];
      [|exact Hi].
    now apply feedback_indexes_delete_first.
Qed.

Lemma feedback_indexes_kept_witness :
  (forall f, feedback_indexes
               (server_feedback
                  (state_after (MongoFeedbackDatabase.CreateFeedback f) Scenario.rated_world))
             = true)
  /\ (forall f, feedback_indexes
                  (server_feedback
                     (state_after (MongoFeedbackDatabase.UpdateFeedback f) Scenario.rated_world))
                = true)
  /\ (forall feedbackID userID,
        feedback_indexes
          (server_feedback
             (state_after (MongoFeedbackDatabase.DeleteFeedback feedbackID userID)
                Scenario.rated_world)) = true).
Proof. exact (feedback_indexes_kept Scenario.rated_world eq_refl). Defined.

Section CreateFeedbackFacts.
Import ServerFeedback MongoFeedbackDatabase.

(** A successful [CreateFeedback], in full. *)
Lemma CreateFeedback_inserted (f f1 : t) (w w1 : World) :
  CreateFeedback f w = Returns (f1, None) w1 ->
  exists sid src,
    validation.SanitizeServerID (ServerID f) = Ok sid
    /\ validation.ValidateSource
         (if String.eqb (Source f) "" then SourceRegistry else Source f) = Ok src
    /\ ServerID f1 = sid /\ Source f1 = src /\ UserID f1 = UserID f
    /\ Rating f1 = Rating f /\ Comment f1 = Comment f
    /\ CreatedAt f1 = now w /\ UpdatedAt f1 = now w
    /\ existsb (duplicate_key f1) (server_feedback w) = false
    /\ server_feedback w1 = (server_feedback w ++ [stored f1])%list
    /\ now w1 = now w.
Proof.
  intros H. destruct (CreateFeedback_succeeded f f1 w w1 H) as [Hs [Hu [sid [src [Hsid Hsrc]]]]].
  rewrite (CreateFeedback_runs f w sid src Hs Hu Hsid Hsrc) in H.
  exists sid, src. split; [exact Hsid|split; [exact Hsrc|]].
  match type of H with (if existsb ?p ?l then _ else _) = _ =>
    destruct (existsb p l) eqn:He end; [discriminate|].
  inversion H; subst f1 w1. rewrite He.
  repeat split; try reflexivity. now destruct (String.eqb (ID f) "").
Qed.

End CreateFeedbackFacts.

(** X16: a user rates a server once per source. After a [CreateFeedback]
    that succeeded, a [CreateFeedback] with the same server, user and
    source fails with [ErrDuplicateFeedback], whatever its id, rating
    and comment, and stores nothing. *)
Theorem CreateFeedback_twice (f f1 g : ServerFeedback.t) (w w1 w2 : World) :
  MongoFeedbackDatabase.CreateFeedback f w = Returns (f1, None) w1 ->
  server_feedback w2 = server_feedback w1 ->
  ServerFeedback.ServerID g = ServerFeedback.ServerID f ->
  ServerFeedback.UserID g = ServerFeedback.UserID f ->
  ServerFeedback.Source g = ServerFeedback.Source f ->
  exists g2 w3,
    MongoFeedbackDatabase.CreateFeedback g w2 = Returns (g2, Some ErrDuplicateFeedback) w3
    /\ server_feedback w3 = server_feedback w2.
Proof.
  intros H Hw2 Hgs Hgu Hgsrc.
  destruct (CreateFeedback_succeeded f f1 w w1 H) as [Hs [Hu _]].
  destruct (CreateFeedback_inserted f f1 w w1 H)
    as [sid [src [Hsid [Hsrc [H1 [H2 [H3 [_ [_ [_ [_ [_ [Hcoll _]]]]]]]]]]]]].
  rewrite <- Hgs in Hs, Hsid. rewrite <- Hgu in Hu. rewrite <- Hgsrc in Hsrc.
  rewrite (CreateFeedback_runs g w2 sid src Hs Hu Hsid Hsrc).
  match goal with |- context [existsb ?p ?l] =>
    assert (He : existsb p l = true) end.
  { rewrite Hw2, Hcoll, existsb_app. apply orb_true_iff. right. simpl.
    unfold MongoFeedbackDatabase.duplicate_key. simpl.
    rewrite H1, H2, H3, Hgu, !String.eqb_refl. simpl. now rewrite orb_true_r. }
  rewrite He. eexists. eexists. split; [reflexivity|].
  now destruct (String.eqb (ServerFeedback.ID g) "").
Qed.

Lemma CreateFeedback_twice_witness :
  exists g2 w3,
    MongoFeedbackDatabase.CreateFeedback Scenario.private_feedback
      (advance 10 (state_after (MongoFeedbackDatabase.CreateFeedback Scenario.private_feedback)
                     Scenario.fresh))
    = Returns (g2, Some ErrDuplicateFeedback) w3
    /\ server_feedback w3
       = server_feedback
           (advance 10 (state_after (MongoFeedbackDatabase.CreateFeedback Scenario.private_feedback)
                          Scenario.fresh)).
Proof.
  refine (CreateFeedback_twice Scenario.private_feedback _ Scenario.private_feedback
            Scenario.fresh
            (state_after (MongoFeedbackDatabase.CreateFeedback Scenario.private_feedback)
               Scenario.fresh)
            (advance 10
               (state_after (MongoFeedbackDatabase.CreateFeedback Scenario.private_feedback)
                  Scenario.fresh))
            _ eq_refl eq_refl eq_refl eq_refl).
  vm_compute. reflexivity.
Defined.



(** ** The feedback store: pages *)

Section FeedbackPages.
Import ServerFeedback MongoFeedbackDatabase.

Lemma insert_sorted_perm (s : FeedbackSortOrder) (x : t) (l : list t) :
  insert_sorted s x l ≡ₚ x :: l.
Proof.
  induction l as [|y l IH]; [reflexivity|]. simpl.
  destruct (before s y x); [|reflexivity].
  rewrite IH. apply Permutation_swap.
Qed.

Lemma sort_feedback_perm (s : FeedbackSortOrder) (l : list t) : sort_feedback s l ≡ₚ l.
Proof.
  induction l as [|x l IH]; [reflexivity|].
  unfold sort_feedback in *. simpl. rewrite insert_sorted_perm. now rewrite IH.
Qed.

(** The page size [GetServerFeedback] and [GetUserFeedbackHistory] use. *)
Lemma page_limit (limit : Z) :
  let limit' := if ((limit <=? 0) || (100 <? limit))%bool then 20 else limit in
  1 <= limit' <= 100 /\ (1 <= limit <= 100 -> limit' = limit).
Proof.
  cbv zeta. destruct (limit <=? 0) eqn:H0; [apply Z.leb_le in H0; simpl; lia|].
  destruct (100 <? limit) eqn:H1; [apply Z.ltb_lt in H1; simpl; lia|].
  apply Z.leb_gt in H0. apply Z.ltb_ge in H1. simpl. lia.
Qed.

Lemma In_page (n m : nat) (l : list t) (f : t) : In f (take n (drop m l)) -> In f l.
Proof.
  intros H. apply list_elem_of_In in H. apply list_elem_of_In.
  apply (subseteq_drop m l). now apply (subseteq_take n (drop m l)).
Qed.

End FeedbackPages.

(** X18: one page of [GetServerFeedback]. For a server id and a source
    that pass validation the call succeeds and changes nothing; the page
    holds at most 100 feedbacks, and at most [limit] of them when
    [limit] is in 1..100; each is a stored public feedback of that
    server and source; [TotalCount] counts all of those and is what
    [CountServerFeedback] returns; and a first page (offset 0 or less)
    with [HasMore = false] holds every one of them. *)
Theorem GetServerFeedback_page (w : World) (serverID source sid src : string)
    (limit offset : Z) (sort : FeedbackSortOrder) :
  validation.SanitizeServerID serverID = Ok sid ->
  validation.ValidateSource (if String.eqb source "" then SourceRegistry else source)
  = Ok src ->
  let matched :=
    List.filter (MongoFeedbackDatabase.public_of sid src) (server_feedback w) in
  exists r,
    MongoFeedbackDatabase.GetServerFeedback serverID source limit offset sort w
    = Returns (Ok r) w
    /\ (List.length (FeedbackResponse.Feedback r) <= 100)%nat
    /\ (1 <= limit <= 100 ->
        (List.length (FeedbackResponse.Feedback r) <= Z.to_nat limit)%nat)
    /\ (forall f, In f (FeedbackResponse.Feedback r) ->
          In f (server_feedback w) /\ ServerFeedback.ServerID f = sid
          /\ ServerFeedback.Source f = src /\ ServerFeedback.IsPublic f = true)
    /\ FeedbackResponse.TotalCount r = Z.of_nat (List.length matched)
    /\ MongoFeedbackDatabase.CountServerFeedback serverID source w
       = Returns (Ok (FeedbackResponse.TotalCount r)) w
    /\ (offset <= 0 -> FeedbackResponse.HasMore r = false ->
        FeedbackResponse.Feedback r ≡ₚ matched).
Proof.
  intros Hsid Hsrc matched.
  unfold MongoFeedbackDatabase.GetServerFeedback, MongoFeedbackDatabase.CountServerFeedback.
  rewrite Hsid, Hsrc. unfold mbind, M_bind, get, mret, M_ret. fold matched.
  destruct (page_limit limit) as [Hl Hl'].
  set (limit' := if ((limit <=? 0) || (100 <? limit))%bool then 20 else limit) in *.
  set (offset' := if offset <? 0 then 0 else offset).
  eexists. split; [reflexivity|]. simpl.
  split; [|split; [|split; [|split; [reflexivity|split; [reflexivity|]]]]].
  - rewrite length_take. lia.
  - intros Hlim. rewrite (Hl' Hlim), length_take. lia.
  - intros f Hf. apply In_page in Hf.
    apply (Permutation_in _ (sort_feedback_perm sort matched)) in Hf.
    apply filter_In in Hf as [Hin Hp]. unfold MongoFeedbackDatabase.public_of in Hp.
    apply andb_true_iff in Hp as [Hp Hpub]. apply andb_true_iff in Hp as [Hp1 Hp2].
    apply String.eqb_eq in Hp1, Hp2. now repeat split.
  - intros Hoff Hmore.
    assert (Ho : offset' = 0).
    { unfold offset'. destruct (offset <? 0) eqn:E; [reflexivity|].
      apply Z.ltb_ge in E. lia. }
    rewrite Ho in *. unfold int_add in Hmore.
    rewrite wrap64_small in Hmore by (unfold min_int, max_int; lia).
    apply Z.ltb_ge in Hmore. simpl. rewrite drop_0.
    rewrite take_ge; [apply sort_feedback_perm|].
    rewrite (Permutation_length (sort_feedback_perm sort matched)). lia.
Qed.

Lemma GetServerFeedback_page_witness :
  exists r,
    MongoFeedbackDatabase.GetServerFeedback " foo" "" 500 (-3) FeedbackSortRatingHigh
      Scenario.rated_world
    = Returns (Ok r) Scenario.rated_world
    /\ FeedbackResponse.Feedback r ≡ₚ [Scenario.feedback_f1].
Proof.
  destruct (GetServerFeedback_page Scenario.rated_world " foo" "" "foo" "REGISTRY" 500 (-3)
              FeedbackSortRatingHigh eq_refl eq_refl)
    as [r [Hrun [_ [_ [_ [_ [_ Hall]]]]]]].
  exists r. split; [exact Hrun|].
  apply Hall; [lia|].
  assert (Hc : MongoFeedbackDatabase.GetServerFeedback " foo" "" 500 (-3)
                 FeedbackSortRatingHigh Scenario.rated_world
               = Returns (Ok (FeedbackResponse.mk [Scenario.feedback_f1] 1 false))
                   Scenario.rated_world) by (vm_compute; reflexivity).
  rewrite Hc in Hrun. inversion Hrun. reflexivity.
Defined.

(** ** The feedback store: what the owner of a feedback changes *)

Section FeedbackOwner.
Import ServerFeedback MongoFeedbackDatabase.

Lemma existsb_false_In (p : t -> bool) (l : list t) (g : t) :
  existsb p l = false -> In g l -> p g = false.
Proof.
  intros He Hin. destruct (p g) eqn:Hp; [|reflexivity].
  assert (Ht : existsb p l = true) by (apply existsb_exists; now exists g).
  congruence.
Qed.

Lemma duplicate_key_same_id (f g : t) : ID f = ID g -> duplicate_key f g = true.
Proof. intros H. unfold duplicate_key. now rewrite H, String.eqb_refl. Qed.

Lemma feedback_indexes_NoDup (coll : list t) :
  feedback_indexes coll = true -> NoDup (map ID coll).
Proof.
  induction coll as [|x coll IH]; simpl; intros Hi; [constructor|].
  apply andb_true_iff in Hi as [Hx Hi]. apply negb_true_iff in Hx.
  constructor; [|now apply IH].
  intros Hin. apply list_elem_of_In in Hin. apply in_map_iff in Hin as [g [Hg Hin]].
  pose proof (duplicate_key_same_id x g (eq_sym Hg)) as Hd.
  rewrite (existsb_false_In _ _ g Hx Hin) in Hd. discriminate.
Qed.


(** Deleting the first document a filter on the id selects removes that
    document and nothing else, and frees its keys. *)
Lemma delete_first_spec (l : list t) (old : t) (p : t -> bool) :
  feedback_indexes l = true -> In old l -> p old = true ->
  (forall g, p g = true -> ID g = ID old) ->
  List.find p l = Some old
  /\ (forall g, In g (delete_first p l) <-> In g l /\ g <> old)
  /\ existsb (duplicate_key old) (delete_first p l) = false.
Proof.
  intros Hi Hin Hp Hpid. induction l as [|x l IH]; [destruct Hin|].
  simpl in Hi. apply andb_true_iff in Hi as [Hx Hi]. apply negb_true_iff in Hx.
  destruct (p x) eqn:Hpx.
  - assert (x = old).
    { destruct Hin as [Hin|Hin]; [exact Hin|]. exfalso.
      pose proof (duplicate_key_same_id x old (Hpid x Hpx)) as Hd.
      rewrite (existsb_false_In _ _ old Hx Hin) in Hd. discriminate. }
    subst x. simpl. rewrite Hpx. split; [reflexivity|]. split; [|exact Hx].
    intros g. split.
    + intros Hg. split; [now right|]. intros ->.
      pose proof (duplicate_key_same_id old old eq_refl) as Hd.
      rewrite (existsb_false_In _ _ old Hx Hg) in Hd. discriminate.
    + intros [[Hg|Hg] Hne]; [congruence|exact Hg].
  - assert (Hne : x <> old) by (intros ->; congruence).
    destruct Hin as [Hin|Hin]; [contradiction|].
    destruct (IH Hi Hin) as [H1 [H2 H3]].
    simpl. rewrite Hpx. simpl. split; [exact H1|]. split.
    + intros g. rewrite H2. split.
      * intros [Hg|[Hg Hgo]]; [subst g; split; [now left|exact Hne]|split; [now right|exact Hgo]].
      * intros [[Hg|Hg] Hgo]; [now left|right; now split].
    + rewrite H3, orb_false_r, duplicate_key_sym.
      exact (existsb_false_In _ _ old Hx Hin).
Qed.

End FeedbackOwner.



(** X20: the owner's delete. With the unique indexes holding,
    [DeleteFeedback] called with the id and the user of a stored feedback
    succeeds and removes that document and no other. Afterwards
    [GetFeedback] on the id and a second [DeleteFeedback] both answer
    [ErrFeedbackNotFound], and no stored document holds the id or the
    server, user and source of the deleted one, so the user can rate the
    server again. *)
Theorem DeleteFeedback_by_owner (w : World) (old : ServerFeedback.t) :
  feedback_indexes (server_feedback w) = true ->
  In old (server_feedback w) ->
  ServerFeedback.ID old <> "" -> ServerFeedback.UserID old <> "" ->
  exists w1,
    MongoFeedbackDatabase.DeleteFeedback (ServerFeedback.ID old) (ServerFeedback.UserID old) w
    = Returns None w1
    /\ (forall g, In g (server_feedback w1) <-> In g (server_feedback w) /\ g <> old)
    /\ MongoFeedbackDatabase.GetFeedback (ServerFeedback.ID old) w1
       = Returns (Err ErrFeedbackNotFound) w1
    /\ MongoFeedbackDatabase.DeleteFeedback (ServerFeedback.ID old)
         (ServerFeedback.UserID old) w1
       = Returns (Some ErrFeedbackNotFound) w1
    /\ existsb (MongoFeedbackDatabase.duplicate_key old) (server_feedback w1) = false.
Proof.
  intros Hi Hin Hid Hu.
  set (p := MongoFeedbackDatabase.by_id_user (ServerFeedback.ID old) (ServerFeedback.UserID old)).
  assert (Hp : p old = true).
  { unfold p, MongoFeedbackDatabase.by_id_user. now rewrite !String.eqb_refl. }
  assert (Hpid : forall g, p g = true -> ServerFeedback.ID g = ServerFeedback.ID old).
  { intros g Hg. unfold p, MongoFeedbackDatabase.by_id_user in Hg.
    apply andb_true_iff in Hg as [Hg _]. now apply String.eqb_eq. }
  destruct (delete_first_spec (server_feedback w) old p Hi Hin Hp Hpid) as [Hfind [Hrest Hfree]].
  exists (set_server_feedback (MongoFeedbackDatabase.delete_first p (server_feedback w)) w).
  assert (Hnone : List.find (MongoFeedbackDatabase.by_id (ServerFeedback.ID old))
                    (MongoFeedbackDatabase.delete_first p (server_feedback w)) = None).
  { apply (find_none_of_existsb (MongoFeedbackDatabase.duplicate_key old)); [|exact Hfree].
    intros x Hx. unfold MongoFeedbackDatabase.by_id in Hx. apply String.eqb_eq in Hx.
    now apply duplicate_key_same_id. }
  split; [|split; [exact Hrest|split; [|split; [|exact Hfree]]]].
  - unfold MongoFeedbackDatabase.DeleteFeedback.
    rewrite (eqb_false_of_ne _ _ Hid), (eqb_false_of_ne _ _ Hu). cbn [orb].
    unfold mbind, M_bind, get, modify, mret, M_ret. fold p. now rewrite Hfind.
  - unfold MongoFeedbackDatabase.GetFeedback, mbind, M_bind, get.
    cbn [server_feedback set_server_feedback]. now rewrite Hnone.
  - apply DeleteFeedback_no_match; [exact Hid|exact Hu|].
    cbn [server_feedback set_server_feedback]. now apply find_by_id_user_absent.
Qed.

Lemma DeleteFeedback_by_owner_witness :
  exists w1,
    MongoFeedbackDatabase.DeleteFeedback "f1" "u1" Scenario.rated_world = Returns None w1
    /\ MongoFeedbackDatabase.GetFeedback "f1" w1 = Returns (Err ErrFeedbackNotFound) w1.
Proof.
  destruct (DeleteFeedback_by_owner Scenario.rated_world Scenario.feedback_f1)
    as [w1 [Hrun [_ [Hget _]]]].
  - reflexivity.
  - now left.
  - discriminate.
  - discriminate.
  - exists w1. split; [exact Hrun|exact Hget].
Defined.

(** ** The feedback store: the history of a user *)

Section FeedbackHistory.
Import ServerFeedback MongoFeedbackDatabase.

Lemma insert_sorted_newest (x : t) (l : list t) :
  StronglySorted (fun a b => CreatedAt b <= CreatedAt a) l ->
  StronglySorted (fun a b => CreatedAt b <= CreatedAt a)
    (insert_sorted FeedbackSortNewest x l).
Proof.
  induction l as [|y l IH]; intros Hs; simpl.
  - repeat constructor.
  - inversion Hs as [|? ? Hl Hy]; subst.
    destruct (CreatedAt x <? CreatedAt y) eqn:E.
    + apply Z.ltb_lt in E. constructor; [now apply IH|].
      apply List.Forall_forall. intros z Hz.
      apply (Permutation_in _ (insert_sorted_perm FeedbackSortNewest x l)) in Hz.
      destruct Hz as [<-|Hz]; [lia|].
      rewrite List.Forall_forall in Hy. now apply Hy.
    + apply Z.ltb_ge in E. constructor; [exact Hs|].
      constructor; [exact E|].
      eapply List.Forall_impl; [|exact Hy]. intros z Hz. simpl in *. lia.
Qed.

Lemma sort_feedback_newest (l : list t) :
  StronglySorted (fun a b => CreatedAt b <= CreatedAt a) (sort_feedback FeedbackSortNewest l).
Proof.
  induction l as [|x l IH]; [constructor|].
  unfold sort_feedback in *. simpl. now apply insert_sorted_newest.
Qed.

Lemma StronglySorted_page {A : Type} (R : A -> A -> Prop) (n m : nat) (l : list A) :
  StronglySorted R l -> StronglySorted R (take n (drop m l)).
Proof.
  intros Hs.
  assert (Hd : StronglySorted R (drop m l)).
  { revert m. induction Hs as [|x l Hl IH Hx]; intros m; [destruct m; constructor|].
    destruct m as [|m]; [now constructor|apply IH]. }
  clear Hs. revert n. induction Hd as [|x l' Hl IH Hx]; intros n; [destruct n; constructor|].
  destruct n as [|n]; [constructor|]. simpl. constructor; [apply IH|].
  now apply Forall_take.
Qed.

End FeedbackHistory.

(** X29: a user's feedback history. For a user id that is not empty
    [GetUserFeedbackHistory] succeeds and changes nothing; the page holds
    at most 100 feedbacks, and at most [limit] of them when [limit] is
    in 1..100; each is a stored feedback of that user; they come newest
    first; and a first page that is long enough holds all of the user's
    feedback. With an empty user id the call fails. *)
Theorem GetUserFeedbackHistory_page (w : World) (userID : string) (limit offset : Z) :
  userID <> "" ->
  let mine := List.filter (fun f => String.eqb (ServerFeedback.UserID f) userID)
                (server_feedback w) in
  (exists page,
     MongoFeedbackDatabase.GetUserFeedbackHistory userID limit offset w = Returns (Ok page) w
     /\ (List.length page <= 100)%nat
     /\ (1 <= limit <= 100 -> (List.length page <= Z.to_nat limit)%nat)
     /\ (forall f, In f page -> In f (server_feedback w) /\ ServerFeedback.UserID f = userID)
     /\ StronglySorted
          (fun a b => ServerFeedback.CreatedAt b <= ServerFeedback.CreatedAt a) page
     /\ (offset <= 0 -> 1 <= limit <= 100 -> (List.length mine <= Z.to_nat limit)%nat ->
         page ≡ₚ mine))
  /\ MongoFeedbackDatabase.GetUserFeedbackHistory "" limit offset w
     = Returns (Err (Errorf "user_id is required")) w.
Proof.
  intros Hne mine. split; [|reflexivity].
  unfold MongoFeedbackDatabase.GetUserFeedbackHistory.
  apply String.eqb_neq in Hne. rewrite Hne.
  unfold mbind, M_bind, get, mret, M_ret. fold mine.
  destruct (page_limit limit) as [Hl Hl'].
  set (limit' := if ((limit <=? 0) || (100 <? limit))%bool then 20 else limit) in *.
  set (offset' := if offset <? 0 then 0 else offset).
  eexists. split; [reflexivity|].
  split; [|split; [|split; [|split]]].
  - rewrite length_take. lia.
  - intros Hlim. rewrite (Hl' Hlim), length_take. lia.
  - intros f Hf. apply In_page in Hf.
    apply (Permutation_in _ (sort_feedback_perm FeedbackSortNewest mine)) in Hf.
    apply filter_In in Hf as [Hin Hp]. apply String.eqb_eq in Hp. now split.
  - apply StronglySorted_page. apply sort_feedback_newest.
  - intros Hoff Hlim Hall.
    assert (Ho : offset' = 0).
    { unfold offset'. destruct (offset <? 0) eqn:E; [reflexivity|].
      apply Z.ltb_ge in E. lia. }
    rewrite Ho, (Hl' Hlim). simpl. rewrite drop_0.
    rewrite take_ge; [apply sort_feedback_perm|].
    now rewrite (Permutation_length (sort_feedback_perm FeedbackSortNewest mine)).
Qed.

Lemma GetUserFeedbackHistory_page_witness :
  exists page,
    MongoFeedbackDatabase.GetUserFeedbackHistory "u1" 0 (-1) Scenario.rated_world
    = Returns (Ok page) Scenario.rated_world
    /\ forall f, In f page -> ServerFeedback.UserID f = "u1".
Proof.
  destruct (GetUserFeedbackHistory_page Scenario.rated_world "u1" 0 (-1)
              ltac:(discriminate)) as [[page [Hrun [_ [_ [Hmine _]]]]] _].
  exists page. split; [exact Hrun|]. intros f Hf. exact (proj2 (Hmine f Hf)).
Defined.

(** ** The install handler *)

Section InstallHandler.
Import handlers.

Lemma validateSource_accepts (source : string) :
  validateSource source = None ->
  let src := if String.eqb source "" then SourceRegistry else source in
  (src = SourceRegistry \/ src = SourceCommunity) /\ validation.ValidateSource src = Ok src.
Proof.
  unfold validateSource. cbv zeta.
  destruct (String.eqb source "") eqn:H0; [intros _; split; [now left|reflexivity]|].
  destruct (String.eqb source SourceRegistry) eqn:H1.
  { apply String.eqb_eq in H1. subst. intros _. split; [now left|reflexivity]. }
  destruct (String.eqb source SourceCommunity) eqn:H2; [|discriminate].
  apply String.eqb_eq in H2. subst. intros _. split; [now right|reflexivity].
Qed.

Lemma lookup_deleted (keys : list string) (c : gmap string cacheEntry) (k : string) :
  In k keys -> foldr (fun k c => delete k c) c keys !! k = None.
Proof.
  induction keys as [|x keys IH]; simpl; [intros []|]. intros Hin.
  destruct (decide (x = k)) as [->|Hne]; [apply lookup_delete_eq|].
  rewrite lookup_delete_ne by exact Hne. apply IH. destruct Hin; [congruence|assumption].
Qed.

Lemma lookup_not_deleted (keys : list string) (c : gmap string cacheEntry) (k : string) :
  ~ In k keys -> foldr (fun k c => delete k c) c keys !! k = c !! k.
Proof.
  induction keys as [|x keys IH]; simpl; [reflexivity|]. intros Hnin.
  rewrite lookup_delete_ne by (intros ->; apply Hnin; now left).
  apply IH. intros H. apply Hnin. now right.
Qed.

End InstallHandler.

(** X21: tracking an installation. A [POST] whose path names a server
    (the id passing [SanitizeServerID]) and whose source is empty,
    [REGISTRY] or [COMMUNITY] is answered with the success response; the
    installation count stored for the sanitized id and the source (the
    default being [REGISTRY]) is one more than before; the eight cache
    keys of the server and the source hold nothing afterwards, and every
    other cache entry is as it was. *)
Theorem TrackInstallHandler_counts (w : World) (r : VPHandlers.Request)
    (installReq : InstallRequest.t) (serverID sid src : string) :
  VPHandlers.Method r = "POST" ->
  handlers.extractServerIDFromPath (VPHandlers.Path r) = Ok serverID ->
  handlers.validateSource (InstallRequest.Source installReq) = None ->
  src = (if String.eqb (InstallRequest.Source installReq) "" then SourceRegistry
         else InstallRequest.Source installReq) ->
  validation.SanitizeServerID serverID = Ok sid ->
  mu w = unlocked ->
  unique_index (server_stats w) = true ->
  stored_installs sid src w < max_int ->
  let evicted :=
    ["vp:server:" +:+ serverID; "vp:stats:" +:+ serverID;
     "vp:stats:" +:+ serverID +:+ ":aggregated"; "vp:servers:"; "vp:stats:global";
     "vp:stats:" +:+ serverID +:+ ":" +:+ src; "vp:stats:global:" +:+ src;
     "vp:feedback:" +:+ serverID +:+ ":" +:+ src] in
  exists w1,
    handlers.TrackInstallHandler r installReq w
    = Returns (handlers.InstallTracking true "Installation tracked successfully") w1
    /\ stored_installs sid src w1 = stored_installs sid src w + 1
    /\ (forall k, In k evicted -> cache w1 !! k = None)
    /\ (forall k, ~ In k evicted -> cache w1 !! k = cache w !! k).
Proof.
  intros Hm Hpath Hvs Hsrc Hsan Hmu Hu Hmax evicted.
  destruct (validateSource_accepts _ Hvs) as [Hone Hval]. cbv zeta in Hone, Hval.
  rewrite <- Hsrc in Hone, Hval.
  assert (Hov : MongoDatabase.inc_overflows (MongoDatabase.by_id_source sid src)
                  (server_stats w) = false).
  { unfold MongoDatabase.inc_overflows. unfold stored_installs in Hmax.
    destruct (List.find (MongoDatabase.by_id_source sid src) (server_stats w)) as [d|] eqn:Hf;
      [|reflexivity].
    destruct (FindOne_Decode_found sid src _ d Hf) as [st [Hd [Hfd _]]].
    rewrite Hfd in Hmax. unfold MongoDatabase.Decode in Hd.
    destruct (doc.server_id d); [|discriminate]. inversion Hd; subst st. simpl in Hmax.
    apply Z.leb_gt. lia. }
  destruct (IncrementInstallCount_runs w serverID
              (if String.eqb (InstallRequest.Source installReq) "" then SourceRegistry
               else InstallRequest.Source installReq) sid src Hmu Hu Hsan)
    as [coll' [Hrun [Hu' [Hfind Hframe]]]].
  { rewrite <- Hsrc. destruct Hone as [->| ->]; reflexivity. }
  { exact Hval. }
  { exact Hov. }
  exists (set_cache
            (foldr (fun k c => delete k c) (cache w) (rev evicted))
            (set_server_stats coll' w)).
  split; [|split; [|split]].
  - unfold handlers.TrackInstallHandler. rewrite Hm, Hpath, Hvs.
    change (negb (String.eqb "POST" "POST")) with false. cbv iota.
    unfold mbind at 1, M_bind at 1. rewrite Hrun. rewrite <- Hsrc. reflexivity.
  - unfold stored_installs, MongoDatabase.FindOne_Decode.
    cbn [server_stats set_server_stats set_cache]. rewrite Hfind.
    destruct (List.find (MongoDatabase.by_id_source sid src) (server_stats w)) as [d|] eqn:Hf.
    + pose proof (List.find_some _ _ Hf) as [_ Hmatch].
      apply by_id_source_spec in Hmatch as [Hid _].
      unfold MongoDatabase.Decode in *. cbn [MongoDatabase.inc_installs doc.server_id].
      rewrite Hid in *. simpl in *. lia.
    + simpl. lia.
  - intros k Hk. cbn [cache set_cache set_server_stats].
    apply lookup_deleted. apply (proj1 (in_rev evicted k)). exact Hk.
  - intros k Hk. cbn [cache set_cache set_server_stats].
    apply lookup_not_deleted. intros Hin. apply Hk.
    apply (proj2 (in_rev evicted k)). exact Hin.
Qed.

Lemma TrackInstallHandler_counts_witness :
  exists w1,
    handlers.TrackInstallHandler
      (VPHandlers.mkRequest "POST" "/vp/servers/X/install" Scenario.no_query)
      (InstallRequest.mk "COMMUNITY" "" "" "" 0) Scenario.claim_world
    = Returns (handlers.InstallTracking true "Installation tracked successfully") w1
    /\ stored_installs "X" "COMMUNITY" w1 = 101.
Proof.
  destruct (TrackInstallHandler_counts Scenario.claim_world
              (VPHandlers.mkRequest "POST" "/vp/servers/X/install" Scenario.no_query)
              (InstallRequest.mk "COMMUNITY" "" "" "" 0) "X" "X" "COMMUNITY")
    as [w1 [Hrun [Hn _]]]; try reflexivity.
  exists w1. split; [exact Hrun|]. rewrite Hn. reflexivity.
Defined.

(** ** Paths under [/vp/servers/] and their routing *)

Section Paths.
Import gostrings.

Lemma bytes_app (a b : string) : bytes (a +:+ b) = (bytes a ++ bytes b)%list.
Proof. unfold bytes. induction a as [|c a IH]; simpl; [reflexivity|now rewrite IH]. Qed.

Lemma ascii_eqb_refl (c : ascii) : ascii_eqb c c = true.
Proof. apply Ascii.eqb_refl. Qed.

Lemma strip_prefix_app (p l : list ascii) : strip_prefix p (p ++ l) = Some l.
Proof.
  induction p as [|c p IH]; simpl; [now destruct l|]. now rewrite ascii_eqb_refl.
Qed.

(** A string without the byte [sep]. *)
Lemma no_slash_bytes (id : string) :
  Contains id "/" = false -> Forall (fun c => ascii_eqb c "/"%char = false) (bytes id).
Proof.
  unfold Contains. change (bytes "/") with ["/"%char].
  induction (bytes id) as [|c l IH]; [constructor|]. cbn [contains_bytes strip_prefix].
  destruct (ascii_eqb "/" c) eqn:Hc; [destruct l; discriminate|].
  intros H. constructor; [|now apply IH].
  unfold ascii_eqb in *. now rewrite Ascii.eqb_sym.
Qed.

(** Splitting at a separator that the first segment does not hold. *)
Lemma split_bytes_segment (sep : ascii) (cur seg rest : list ascii) :
  Forall (fun c => ascii_eqb c sep = false) seg ->
  split_bytes sep cur (seg ++ sep :: rest)
  = of_bytes (rev cur ++ seg) :: split_bytes sep [] rest.
Proof.
  revert cur. induction seg as [|c seg IH]; intros cur Hs; simpl.
  - now rewrite ascii_eqb_refl, app_nil_r.
  - inversion Hs as [|? ? Hc Hs']; subst. rewrite Hc, (IH _ Hs'). simpl.
    now rewrite <- app_assoc.
Qed.

Lemma split_bytes_last (sep : ascii) (cur seg : list ascii) :
  Forall (fun c => ascii_eqb c sep = false) seg ->
  split_bytes sep cur seg = [of_bytes (rev cur ++ seg)].
Proof.
  revert cur. induction seg as [|c seg IH]; intros cur Hs; simpl.
  - now rewrite app_nil_r.
  - inversion Hs as [|? ? Hc Hs']; subst. rewrite Hc, (IH _ Hs'). simpl.
    now rewrite <- app_assoc.
Qed.

(** A substring that starts with the separator is not found inside a
    segment. *)
Lemma contains_bytes_skip (sep : ascii) (t seg rest : list ascii) :
  Forall (fun c => ascii_eqb c sep = false) seg ->
  contains_bytes (sep :: t) (seg ++ rest) = contains_bytes (sep :: t) rest.
Proof.
  induction seg as [|c seg IH]; intros Hs; [reflexivity|].
  inversion Hs as [|? ? Hc Hs']; subst.
  change ((c :: seg) ++ rest)%list with (c :: (seg ++ rest))%list.
  cbn [contains_bytes strip_prefix].
  unfold ascii_eqb in *. rewrite Ascii.eqb_sym, Hc. now apply IH.
Qed.

(** Whether a segment followed by nothing, or by a separator, starts with
    a word that holds no separator. *)
Lemma strip_prefix_segment (sep : ascii) (t seg rest : list ascii) :
  Forall (fun c => ascii_eqb c sep = false) t ->
  (match strip_prefix t (seg ++ sep :: rest) with Some _ => true | None => false end)
  = (match strip_prefix t seg with Some _ => true | None => false end)
  /\ (match strip_prefix t (seg ++ []) with Some _ => true | None => false end)
     = (match strip_prefix t seg with Some _ => true | None => false end).
Proof.
  intros Ht. rewrite app_nil_r. split; [|reflexivity].
  revert seg. induction Ht as [|c t Hc Ht IH]; intros seg; [now destruct seg|].
  destruct seg as [|d seg]; simpl.
  - unfold ascii_eqb in *. now rewrite Hc.
  - destruct (ascii_eqb c d); [apply IH|reflexivity].
Qed.

(** Looking for [sep ++ t] in a path, one segment at a time. *)
Lemma contains_segment (sep : ascii) (t seg rest : list ascii) :
  Forall (fun c => ascii_eqb c sep = false) t ->
  Forall (fun c => ascii_eqb c sep = false) seg ->
  rest = [] \/ (exists r, rest = sep :: r) ->
  contains_bytes (sep :: t) (sep :: seg ++ rest)
  = ((match strip_prefix t seg with Some _ => true | None => false end)
     || contains_bytes (sep :: t) rest)%bool.
Proof.
  intros Ht Hseg Hrest. cbn [contains_bytes strip_prefix]. rewrite ascii_eqb_refl.
  rewrite (contains_bytes_skip sep t seg rest Hseg).
  assert (He : (match strip_prefix t (seg ++ rest) with Some _ => true | None => false end)
               = (match strip_prefix t seg with Some _ => true | None => false end)).
  { destruct Hrest as [->|[r ->]].
    - exact (proj2 (strip_prefix_segment sep t seg [] Ht)).
    - exact (proj1 (strip_prefix_segment sep t seg r Ht)). }
  destruct (strip_prefix t (seg ++ rest)), (strip_prefix t seg); try discriminate; reflexivity.
Qed.

Lemma strip_prefix_closed (sep : ascii) (t seg rest : list ascii) :
  Forall (fun c => ascii_eqb c sep = false) t ->
  Forall (fun c => ascii_eqb c sep = false) seg ->
  seg <> t -> rest = [] \/ (exists r, rest = sep :: r) ->
  strip_prefix (t ++ [sep]) (seg ++ rest) = None.
Proof.
  intros Ht. revert seg. induction Ht as [|c t Hc Ht IH]; intros seg Hseg Hne Hrest.
  - destruct seg as [|d seg]; [contradiction|]. inversion Hseg; subst. simpl.
    unfold ascii_eqb in *. now rewrite Ascii.eqb_sym, H1.
  - destruct seg as [|d seg].
    + destruct Hrest as [->|[r ->]]; simpl; [reflexivity|now rewrite Hc].
    + inversion Hseg; subst. simpl. destruct (ascii_eqb c d) eqn:Hcd; [|reflexivity].
      apply IH; [assumption| |assumption]. intros ->. apply Hne.
      apply Ascii.eqb_eq in Hcd. now subst.
Qed.

Lemma contains_segment_closed (sep : ascii) (t seg rest : list ascii) :
  Forall (fun c => ascii_eqb c sep = false) t ->
  Forall (fun c => ascii_eqb c sep = false) seg ->
  seg <> t -> rest = [] \/ (exists r, rest = sep :: r) ->
  contains_bytes (sep :: t ++ [sep]) (sep :: seg ++ rest)
  = contains_bytes (sep :: t ++ [sep]) rest.
Proof.
  intros Ht Hseg Hne Hrest. cbn [contains_bytes strip_prefix]. rewrite ascii_eqb_refl.
  rewrite (strip_prefix_closed sep t seg rest Ht Hseg Hne Hrest).
  apply (contains_bytes_skip sep (t ++ [sep]) seg rest Hseg).
Qed.

Lemma TrimPrefix_app (p x : string) : TrimPrefix (p +:+ x) p = x.
Proof.
  unfold TrimPrefix. rewrite bytes_app, strip_prefix_app. apply string_of_list_ascii_of_string.
Qed.

Lemma Split_segment (id rest : string) :
  Contains id "/" = false ->
  Split id "/" = [id] /\ Split (id +:+ String "/" rest) "/" = id :: Split rest "/".
Proof.
  intros H. pose proof (no_slash_bytes id H) as Hid. unfold Split. split.
  - rewrite (split_bytes_last _ [] _ Hid). simpl.
    unfold of_bytes, bytes. now rewrite string_of_list_ascii_of_string.
  - rewrite bytes_app. change (bytes (String "/" rest)) with ("/"%char :: bytes rest).
    rewrite (split_bytes_segment _ [] _ _ Hid). simpl.
    unfold of_bytes, bytes. now rewrite string_of_list_ascii_of_string.
Qed.

(** [Contains] on a path under [/vp/servers/] whose id is one segment. *)
Lemma Contains_in_path (id suffix t : string) :
  Contains id "/" = false ->
  Contains t "/" = false ->
  suffix = "" \/ (exists r, suffix = String "/" r) ->
  Contains ("/vp/servers/" +:+ id +:+ suffix) (String "/" t)
  = (HasPrefix "vp" t || HasPrefix "servers" t || HasPrefix id t
     || Contains suffix (String "/" t))%bool.
Proof.
  intros Hid Ht Hs. apply no_slash_bytes in Hid, Ht.
  unfold Contains, HasPrefix. rewrite !bytes_app.
  change (bytes (String "/" t)) with ("/"%char :: bytes t).
  change (bytes "/vp/servers/" ++ bytes id ++ bytes suffix)%list
    with ("/"%char :: bytes "vp" ++ "/"%char :: bytes "servers"
          ++ "/"%char :: bytes id ++ bytes suffix)%list.
  assert (Hvp : Forall (fun c => ascii_eqb c "/" = false) (bytes "vp"))
    by (repeat constructor).
  assert (Hsv : Forall (fun c => ascii_eqb c "/" = false) (bytes "servers"))
    by (repeat constructor).
  rewrite (contains_segment _ _ _ _ Ht Hvp) by (right; eauto).
  rewrite (contains_segment _ _ _ _ Ht Hsv) by (right; eauto).
  rewrite (contains_segment _ _ _ _ Ht Hid).
  - now rewrite !orb_assoc.
  - destruct Hs as [->|[r ->]]; [now left|right]. now exists (bytes r).
Qed.

Lemma Contains_closed_in_path (id suffix t : string) :
  Contains id "/" = false ->
  Contains t "/" = false ->
  t <> "vp" -> t <> "servers" -> id <> t ->
  suffix = "" \/ (exists r, suffix = String "/" r) ->
  Contains ("/vp/servers/" +:+ id +:+ suffix) (String "/" t +:+ "/")
  = Contains suffix (String "/" t +:+ "/").
Proof.
  intros Hid Ht Hvp Hsv Hne Hs. apply no_slash_bytes in Hid, Ht.
  assert (Hb : forall a b : string, a <> b -> bytes a <> bytes b).
  { intros a b Hab Heq. apply Hab.
    rewrite <- (string_of_list_ascii_of_string a), <- (string_of_list_ascii_of_string b).
    unfold bytes in Heq. now rewrite Heq. }
  unfold Contains. rewrite !bytes_app.
  change (bytes (String "/" t)) with ("/"%char :: bytes t).
  change (bytes "/") with ["/"%char].
  change (bytes "/vp/servers/" ++ bytes id ++ bytes suffix)%list
    with ("/"%char :: bytes "vp" ++ "/"%char :: bytes "servers"
          ++ "/"%char :: bytes id ++ bytes suffix)%list.
  change (("/"%char :: bytes t) ++ ["/"%char])%list with ("/"%char :: bytes t ++ ["/"%char])%list.
  assert (Hvp' : Forall (fun c => ascii_eqb c "/" = false) (bytes "vp"))
    by (repeat constructor).
  assert (Hsv' : Forall (fun c => ascii_eqb c "/" = false) (bytes "servers"))
    by (repeat constructor).
  rewrite (contains_segment_closed _ _ _ _ Ht Hvp')
    by ((apply Hb; congruence) || (right; eauto)).
  rewrite (contains_segment_closed _ _ _ _ Ht Hsv')
    by ((apply Hb; congruence) || (right; eauto)).
  rewrite (contains_segment_closed _ _ _ _ Ht Hid); [reflexivity|now apply Hb|].
  destruct Hs as [->|[r ->]]; [now left|right]. now exists (bytes r).
Qed.

Lemma path_is_not_the_root (x : string) :
  x <> "" -> String.eqb ("/vp/servers/" +:+ x) "/vp/servers/" = false.
Proof.
  intros Hx. apply String.eqb_neq. intros H. apply Hx. simpl in H.
  now inversion H.
Qed.

End Paths.

(** X22: who serves the requests for a server whose id is one path
    segment, other than [.] and [..] (the mux redirects a path with a
    dot segment). The function registered for [/vp/servers/] decides by
    substring, in a fixed order, so the answer depends on how the id
    starts: [POST .../install] always reaches the install handler;
    [POST .../rate] reaches the feedback handler unless the id starts
    with [install]; [POST .../claim] reaches the claim handler unless the
    id starts with [install] or [rate]; [GET .../stats] reaches the stats
    handler unless the id is [stats], which is answered 404; and [GET] of
    the server itself is served by the handler of recent servers when
    the id is [recent], a pattern of its own on the mux, and otherwise
    reaches the detail handler unless the id starts with [stats]. *)
Theorem route_of_single_segment_id (id : string) :
  gostrings.Contains id "/" = false -> id <> "" -> id <> "." -> id <> ".." ->
  let at_ (suffix : string) := "/vp/servers/" +:+ id +:+ suffix in
  vp.mux "POST" (at_ "/install") = vp.BySubtree vp.ToTrackInstallHandler
  /\ vp.mux "POST" (at_ "/rate")
     = vp.BySubtree
         (if gostrings.HasPrefix id "install" then vp.ToTrackInstallHandler
          else vp.ToSubmitFeedbackHandler)
  /\ vp.mux "POST" (at_ "/claim")
     = vp.BySubtree
         (if gostrings.HasPrefix id "install" then vp.ToTrackInstallHandler
          else if gostrings.HasPrefix id "rate" then vp.ToSubmitFeedbackHandler
               else vp.ToClaimServerHandler)
  /\ vp.mux "GET" (at_ "/stats")
     = vp.BySubtree (if String.eqb id "stats" then vp.NotFound else vp.ToGetStatsHandler)
  /\ vp.mux "GET" (at_ "")
     = (if String.eqb id "recent" then vp.ByGetRecentServersHandler
        else vp.BySubtree
               (if gostrings.HasPrefix id "stats" then vp.ToGetStatsHandler
                else vp.ToGetServerByIDHandler)).
Proof.
  intros Hid Hne _ _ at_.
  destruct (String.eqb id "stats") eqn:Hstats.
  { apply String.eqb_eq in Hstats. subst id. repeat split; vm_compute; reflexivity. }
  apply String.eqb_neq in Hstats.
  assert (Hseg : forall rest, gostrings.Split
                   (gostrings.TrimPrefix (at_ (String "/" rest)) "/vp/servers/") "/"
                 = id :: gostrings.Split rest "/").
  { intros rest. unfold at_. rewrite TrimPrefix_app.
    exact (proj2 (Split_segment id rest Hid)). }
  assert (Hseg0 : gostrings.Split (gostrings.TrimPrefix (at_ "") "/vp/servers/") "/" = [id]).
  { unfold at_. rewrite TrimPrefix_app.
    replace (id +:+ "") with id; [exact (proj1 (Split_segment id "" Hid))|].
    clear. induction id as [|c id IH]; [reflexivity|].
    change (String c id +:+ "") with (String c (id +:+ "")). now rewrite <- IH. }
  assert (Hin : forall suffix t,
             suffix = "" \/ (exists r, suffix = String "/" r) ->
             gostrings.Contains t "/" = false ->
             gostrings.Contains (at_ suffix) (String "/" t)
             = (gostrings.HasPrefix "vp" t || gostrings.HasPrefix "servers" t
                || gostrings.HasPrefix id t
                || gostrings.Contains suffix (String "/" t))%bool).
  { intros suffix t Hs Ht. now apply Contains_in_path. }
  assert (Hroot : forall suffix, String.eqb (at_ suffix) "/vp/servers/" = false).
  { intros suffix. unfold at_. apply path_is_not_the_root.
    destruct id; [contradiction|discriminate]. }
  assert (Hsub : forall rest,
             In rest ["install"; "rate"; "claim"; "stats"] ->
             String.eqb (at_ (String "/" rest)) "/vp/servers/recent" = false).
  { intros rest Hrest. apply String.eqb_neq. intros Heq.
    apply (f_equal (fun p => gostrings.Split (gostrings.TrimPrefix p "/vp/servers/") "/"))
      in Heq.
    rewrite Hseg in Heq.
    change (gostrings.Split (gostrings.TrimPrefix "/vp/servers/recent" "/vp/servers/") "/")
      with ["recent"] in Heq.
    simpl in Hrest.
    destruct Hrest as [<-|[<-|[<-|[<-|[]]]]]; vm_compute in Heq; discriminate Heq. }
  assert (Hself : String.eqb (at_ "") "/vp/servers/recent" = String.eqb id "recent").
  { destruct (String.eqb id "recent") eqn:Hrecent.
    - apply String.eqb_eq in Hrecent. subst id. reflexivity.
    - apply String.eqb_neq. intros Heq. apply String.eqb_neq in Hrecent. apply Hrecent.
      apply (f_equal (fun p => gostrings.Split (gostrings.TrimPrefix p "/vp/servers/") "/"))
        in Heq.
      rewrite Hseg0 in Heq.
      change (gostrings.Split (gostrings.TrimPrefix "/vp/servers/recent" "/vp/servers/") "/")
        with ["recent"] in Heq.
      now inversion Heq. }
  unfold vp.mux.
  rewrite (Hsub "install"), (Hsub "rate"), (Hsub "claim"), (Hsub "stats"), Hself
    by (simpl; tauto).
  unfold vp.route, vp.original_routing, vp.isInstallPath, vp.isRatePath, vp.isStatsPath,
    vp.isClaimPath, vp.isServerDetailPath.
  repeat split.
  - rewrite (Hseg "install"), Hroot.
    rewrite (Hin "/install" "install") by (eauto || reflexivity).
    change (gostrings.Contains "/install" "/install") with true.
    rewrite orb_true_r. reflexivity.
  - rewrite (Hseg "rate"), Hroot.
    rewrite (Hin "/rate" "install"), (Hin "/rate" "rate") by (eauto || reflexivity).
    change (gostrings.Contains "/rate" "/rate") with true.
    rewrite orb_true_r. simpl. now destruct (gostrings.HasPrefix id "install").
  - rewrite (Hseg "claim"), Hroot.
    rewrite (Hin "/claim" "install"), (Hin "/claim" "rate"), (Hin "/claim" "claim")
      by (eauto || reflexivity).
    change (gostrings.Contains "/claim" "/claim") with true.
    rewrite orb_true_r. simpl.
    now destruct (gostrings.HasPrefix id "install"), (gostrings.HasPrefix id "rate").
  - rewrite (Hseg "stats"), Hroot.
    rewrite (Hin "/stats" "stats") by (eauto || reflexivity).
    change (gostrings.Contains "/stats" "/stats") with true.
    rewrite orb_true_r.
    change "/stats/" with (String "/" "stats" +:+ "/").
    unfold at_.
    rewrite (Contains_closed_in_path id "/stats" "stats") by (eauto || discriminate).
    reflexivity.
  - destruct (String.eqb id "recent"); [reflexivity|]. f_equal.
    rewrite Hseg0, Hroot.
    rewrite (Hin "" "stats") by (eauto || reflexivity).
    change "/stats/" with (String "/" "stats" +:+ "/").
    unfold at_.
    rewrite (Contains_closed_in_path id "" "stats") by (eauto || discriminate).
    simpl. apply String.eqb_neq in Hne. rewrite Hne. simpl.
    now destruct (gostrings.HasPrefix id "stats").
Qed.

Lemma route_of_single_segment_id_witness :
  vp.mux "POST" "/vp/servers/installer/rate" = vp.BySubtree vp.ToTrackInstallHandler
  /\ vp.mux "GET" "/vp/servers/statsd" = vp.BySubtree vp.ToGetStatsHandler
  /\ vp.mux "GET" "/vp/servers/recent" = vp.ByGetRecentServersHandler.
Proof.
  destruct (route_of_single_segment_id "installer" eq_refl ltac:(discriminate)
              ltac:(discriminate) ltac:(discriminate))
    as [_ [Hrate _]].
  destruct (route_of_single_segment_id "statsd" eq_refl ltac:(discriminate)
              ltac:(discriminate) ltac:(discriminate))
    as [_ [_ [_ [_ Hget]]]].
  destruct (route_of_single_segment_id "recent" eq_refl ltac:(discriminate)
              ltac:(discriminate) ltac:(discriminate))
    as [_ [_ [_ [_ Hrecent]]]].
  split; [exact Hrate|]. split; [exact Hget|exact Hrecent].
Defined.

(** ** The path of one feedback *)

Section FeedbackPaths.
Import gostrings.

Lemma feedback_path_segments (id fid : string) :
  Contains id "/" = false -> Contains fid "/" = false ->
  Split (TrimPrefix ("/vp/servers/" +:+ id +:+ "/feedback/" +:+ fid) "/vp/servers/") "/"
  = [id; "feedback"; fid].
Proof.
  intros Hid Hfid. rewrite TrimPrefix_app.
  change ("/feedback/" +:+ fid) with (String "/" ("feedback" +:+ String "/" fid)).
  rewrite (proj2 (Split_segment id _ Hid)).
  rewrite (proj2 (Split_segment "feedback" fid eq_refl)).
  now rewrite (proj1 (Split_segment fid "" Hfid)).
Qed.

End FeedbackPaths.

(** X23: the path [/vp/servers/{id}/feedback/{feedback_id}], with an id
    and a feedback id of one segment each, is routed to the update
    handler on [PUT] and to the delete handler on [DELETE], and both
    reject it: they ask for four path segments, so the request is
    answered 400 "Server ID and Feedback ID are required" whatever its
    body, its user and the stored feedback, and nothing changes. *)
Theorem feedback_id_path_is_rejected (id fid : string) :
  gostrings.Contains id "/" = false -> gostrings.Contains fid "/" = false ->
  let path := "/vp/servers/" +:+ id +:+ "/feedback/" +:+ fid in
  vp.route "PUT" path = vp.ToUpdateFeedbackHandler
  /\ vp.route "DELETE" path = vp.ToDeleteFeedbackHandler
  /\ (forall (query : string -> string) (decoded : option FeedbackUpdateRequest.t) (w : World),
        VPHandlers.UpdateFeedbackHandler (VPHandlers.mkRequest "PUT" path query) decoded w
        = Returns (VPHandlers.http_Error "Server ID and Feedback ID are required"
                     VPHandlers.StatusBadRequest) w)
  /\ (forall (query : string -> string) (w : World),
        VPHandlers.DeleteFeedbackHandler (VPHandlers.mkRequest "DELETE" path query) w
        = Returns (VPHandlers.http_Error "Server ID and Feedback ID are required"
                     VPHandlers.StatusBadRequest) w).
Proof.
  intros Hid Hfid path.
  pose proof (feedback_path_segments id fid Hid Hfid) as Hseg. fold path in Hseg.
  repeat split.
  - unfold vp.route. rewrite Hseg. reflexivity.
  - unfold vp.route. rewrite Hseg. reflexivity.
  - intros query decoded w. unfold VPHandlers.UpdateFeedbackHandler, VPHandlers.path_parts.
    cbn [VPHandlers.Method VPHandlers.Path]. rewrite Hseg. reflexivity.
  - intros query w. unfold VPHandlers.DeleteFeedbackHandler, VPHandlers.path_parts.
    cbn [VPHandlers.Method VPHandlers.Path]. rewrite Hseg. reflexivity.
Qed.

Lemma feedback_id_path_is_rejected_witness :
  VPHandlers.UpdateFeedbackHandler
    (VPHandlers.mkRequest "PUT" "/vp/servers/foo/feedback/f1" Scenario.no_query)
    (Some (FeedbackUpdateRequest.mk 2%float "meh" "u1")) Scenario.rated_world
  = Returns (VPHandlers.http_Error "Server ID and Feedback ID are required"
               VPHandlers.StatusBadRequest) Scenario.rated_world.
Proof.
  destruct (feedback_id_path_is_rejected "foo" "f1" eq_refl eq_refl) as [_ [_ [Hput _]]].
  exact (Hput Scenario.no_query (Some (FeedbackUpdateRequest.mk 2%float "meh" "u1"))
           Scenario.rated_world).
Defined.
(** ** Feedback of another user, over HTTP *)

Section OwnershipPaths.
Import MongoFeedbackDatabase VPHandlers.




End OwnershipPaths.




(** ** Rating a server again *)

Section RatingAgain.
Import MongoDatabase.

(** [UpdateRating] on a free mutex: the state it leaves. *)
Lemma UpdateRating_runs
    (w : World) (serverID source : string) (newRating : float)
    (sid src : string) (r : float) (c : Z) :
  mu w = unlocked ->
  unique_index (server_stats w) = true ->
  validation.SanitizeServerID serverID = Ok sid ->
  src = (if String.eqb source "" then SourceRegistry else source) ->
  validation.ValidateSource src = Ok src ->
  stored_rating sid src w = (r, c) ->
  min_int <= c < max_int ->
  exists coll',
    UpdateRating serverID source newRating w = Returns None (set_server_stats coll' w)
    /\ unique_index coll' = true
    /\ stored_rating sid src (set_server_stats coll' w)
       = (((r * float_of_int c + newRating) / float_of_int (c + 1))%float, c + 1).
Proof.
  intros Hmu Hu Hsan Hsrc Hval Hsr Hc.
  assert (Hcur : exists current,
            match FindOne_Decode (by_id_source sid src) (server_stats w) with
            | Ok current => Ok current
            | Err e => if is_ErrNoDocuments e then Ok ServerStats.zero else Err e
            end = Ok current
            /\ ServerStats.Rating current = r /\ ServerStats.RatingCount current = c).
  { unfold stored_rating in Hsr.
    destruct (FindOne_Decode_by_id_source sid src (server_stats w)) as [He|[st He]];
      rewrite He in *; simpl.
    - exists ServerStats.zero. inversion Hsr. now repeat split.
    - exists st. inversion Hsr. now repeat split. }
  destruct Hcur as [current [Hcur [Hr Hcnt]]].
  set (r' := ((r * float_of_int c + newRating) / float_of_int (c + 1))%float).
  set (upd := set_rating r' (c + 1) (now w) src).
  set (ins := set_first_seen (now w) (upd (doc.of_filter (KString sid) (Some src)))).
  destruct (UpdateOne_by_id_source sid src upd ins (server_stats w) Hu)
    as [coll' [Hup [Hu' Hfind]]]; try reflexivity.
  exists coll'. split; [|split; [exact Hu'|]].
  - replace (set_server_stats coll' w)
      with (set_mu unlocked (set_server_stats coll' (set_mu (mkRWMutex true 0) w)))
      by (destruct w; simpl in *; now subst).
    unfold UpdateRating. apply with_Lock_runs; [exact Hmu| |reflexivity].
    rewrite Hsan, <- Hsrc, Hval.
    unfold mbind, M_bind, get, time_Now, modify, mret, M_ret.
    cbn [server_stats set_mu now]. rewrite Hcur, Hr, Hcnt.
    unfold int_add. rewrite wrap64_small by (unfold min_int, max_int in *; lia).
    change (now (set_mu {| writer := true; readers := 0 |} w)) with (now w).
    fold r'. fold upd. fold ins. now rewrite Hup.
  - unfold stored_rating. cbn [server_stats set_server_stats].
    unfold FindOne_Decode. rewrite Hfind.
    destruct (List.find (by_id_source sid src) (server_stats w)) as [d|] eqn:Hf.
    + pose proof (List.find_some _ _ Hf) as [_ Hd].
      apply by_id_source_spec in Hd as [Hdid _].
      unfold Decode. simpl. rewrite Hdid. reflexivity.
    + reflexivity.
Qed.

Lemma update_first_length (p : ServerFeedback.t -> bool) (u : ServerFeedback.t -> ServerFeedback.t)
    (l : list ServerFeedback.t) :
  List.length (MongoFeedbackDatabase.update_first p u l) = List.length l.
Proof.
  induction l as [|x l IH]; [reflexivity|]. simpl. destruct (p x); simpl; congruence.
Qed.

End RatingAgain.

(** X24: rating a server a second time. When the user already has a
    feedback for the server and source, an accepted [POST .../rate]
    updates that feedback in place (the feedback collection keeps its
    size) and is answered 200, and the statistics count the request as
    one more rating: the rating count goes from [c] to [c + 1] and the
    mean from [r] to [(r*c + new)/(c + 1)], the user's earlier rating
    staying in the mean. *)
Theorem rating_again_counts_again
    (w : World) (r : VPHandlers.Request) (ratingReq : RatingRequest.t)
    (serverID sid src : string) (old : ServerFeedback.t) (mean : float) (c : Z) :
  VPHandlers.Method r = "POST" ->
  (2 <= List.length (VPHandlers.path_parts (VPHandlers.Path r)))%nat ->
  VPHandlers.part 0 (VPHandlers.path_parts (VPHandlers.Path r)) = serverID ->
  serverID <> "" ->
  VPHandlers.rating_out_of_range (RatingRequest.Rating ratingReq) = false ->
  (String.length (RatingRequest.Comment ratingReq) <= 1000)%nat ->
  src = (if String.eqb (RatingRequest.Source ratingReq) "" then SourceRegistry
         else RatingRequest.Source ratingReq) ->
  src = SourceRegistry \/ src = SourceCommunity ->
  RatingRequest.UserID ratingReq <> "" ->
  validation.SanitizeServerID serverID = Ok sid ->
  MongoFeedbackDatabase.GetUserFeedback serverID (RatingRequest.UserID ratingReq) src w
  = Returns (Ok old) w ->
  ServerFeedback.ID old <> "" ->
  mu w = unlocked ->
  unique_index (server_stats w) = true ->
  stored_rating sid src w = (mean, c) ->
  min_int <= c < max_int ->
  exists response w1,
    VPHandlers.SubmitFeedbackHandler r (Some ratingReq) w = Returns response w1
    /\ VPHandlers.StatusCode response = VPHandlers.StatusOK
    /\ List.length (server_feedback w1) = List.length (server_feedback w)
    /\ stored_rating sid src w1
       = (((mean * float_of_int c + RatingRequest.Rating ratingReq)
           / float_of_int (c + 1))%float, c + 1).
Proof.
  intros Hm Hlen Hpart Hid Hrange Hcomment Hsrc Hone Huser Hsan Hget Hold Hmu Hu Hsr Hc.
  assert (Hval : validation.ValidateSource src = Ok src)
    by (destruct Hone as [->| ->]; reflexivity).
  assert (Hdef : src = (if String.eqb src "" then SourceRegistry else src))
    by (destruct Hone as [->| ->]; reflexivity).
  (* the stored feedback of the user *)
  assert (Hfind : exists x, List.find
                    (MongoFeedbackDatabase.by_id_user (ServerFeedback.ID old)
                       (RatingRequest.UserID ratingReq)) (server_feedback w) = Some x).
  { unfold MongoFeedbackDatabase.GetUserFeedback in Hget.
    rewrite Hsan, <- Hdef, Hval in Hget. unfold mbind, M_bind, get in Hget.
    destruct (List.find _ (server_feedback w)) as [f|] eqn:Hf; [|discriminate].
    inversion Hget; subst f. apply List.find_some in Hf as [Hin Hk].
    apply andb_true_iff in Hk as [Hk _]. apply andb_true_iff in Hk as [_ Hk].
    destruct (List.find (MongoFeedbackDatabase.by_id_user _ _) (server_feedback w))
      as [x|] eqn:Hx; [now exists x|].
    apply (List.find_none _ _ Hx) in Hin.
    unfold MongoFeedbackDatabase.by_id_user in Hin.
    now rewrite String.eqb_refl, Hk in Hin. }
  destruct Hfind as [x Hfind].
  set (feedback :=
         MongoFeedbackDatabase.with_CreatedAt (ServerFeedback.CreatedAt old)
           (MongoFeedbackDatabase.with_ID (ServerFeedback.ID old)
              (ServerFeedback.mk "" serverID src (RatingRequest.UserID ratingReq)
                 (RatingRequest.Rating ratingReq) (RatingRequest.Comment ratingReq)
                 time_zero time_zero true "" ""))).
  set (w' := set_server_feedback
               (MongoFeedbackDatabase.update_first
                  (MongoFeedbackDatabase.by_id_user (ServerFeedback.ID old)
                     (RatingRequest.UserID ratingReq))
                  (fun f => MongoFeedbackDatabase.with_UpdatedAt (now w)
                              (MongoFeedbackDatabase.with_Rating_Comment
                                 (RatingRequest.Rating ratingReq)
                                 (RatingRequest.Comment ratingReq) f))
                  (server_feedback w)) w).
  assert (Hupd : MongoFeedbackDatabase.UpdateFeedback feedback w
                 = Returns (MongoFeedbackDatabase.with_UpdatedAt (now w) feedback, None) w').
  { unfold MongoFeedbackDatabase.UpdateFeedback. unfold feedback at 1.
    cbn [ServerFeedback.ID MongoFeedbackDatabase.with_CreatedAt MongoFeedbackDatabase.with_ID].
    apply String.eqb_neq in Hold. rewrite Hold.
    unfold mbind, M_bind, time_Now, get, modify, mret, M_ret.
    cbn [ServerFeedback.ID ServerFeedback.UserID ServerFeedback.Rating ServerFeedback.Comment
         ServerFeedback.UpdatedAt MongoFeedbackDatabase.with_UpdatedAt
         MongoFeedbackDatabase.with_CreatedAt MongoFeedbackDatabase.with_ID feedback].
    rewrite Hfind. reflexivity. }
  destruct (UpdateRating_runs w' serverID src (RatingRequest.Rating ratingReq) sid src mean c)
    as [coll' [Hrate [Hu' Hsr']]]; try assumption.
  destruct (invalidateFeedbackCache_keeps_lists (set_server_stats coll' w') serverID src
              "" "" 0 0 FeedbackSortNewest)
    as [w2 [Hinv [_ [_ [_ [Hfb [Hst Hmu2]]]]]]].
  assert (Hread : exists res, MongoDatabase.GetStats serverID src w2 = Returns res w2).
  { eexists. apply GetStats_reads. rewrite Hmu2. cbn [mu set_server_stats set_server_feedback w'].
    now rewrite Hmu. }
  destruct Hread as [res Hread].
  assert (Hrun : exists response,
             VPHandlers.SubmitFeedbackHandler r (Some ratingReq) w = Returns response w2
             /\ VPHandlers.StatusCode response = VPHandlers.StatusOK).
  { exists (VPHandlers.mkResponse VPHandlers.StatusOK ""
              (VPHandlers.Envelope true "Feedback submitted successfully"
                 (Some (MongoFeedbackDatabase.with_UpdatedAt (now w) feedback))
                 (match res with Ok st => Some st | Err _ => None end))).
    split; [|reflexivity].
    unfold VPHandlers.SubmitFeedbackHandler. rewrite Hm.
    change (negb (String.eqb "POST" "POST")) with false. cbv iota.
    rewrite Hpart. apply Nat.ltb_ge in Hlen. rewrite Hlen.
    apply String.eqb_neq in Hid. rewrite Hid. cbn [orb]. rewrite Hrange.
    assert (Hcl : Nat.ltb 1000 (String.length (RatingRequest.Comment ratingReq)) = false)
      by (apply Nat.ltb_ge; exact Hcomment).
    rewrite Hcl.
    assert (Hchk : (negb (String.eqb (RatingRequest.Source ratingReq) "")
                    && negb (String.eqb (RatingRequest.Source ratingReq) SourceRegistry)
                    && negb (String.eqb (RatingRequest.Source ratingReq) SourceCommunity))%bool
                   = false).
    { destruct (String.eqb (RatingRequest.Source ratingReq) "") eqn:E; [reflexivity|].
      subst src. destruct Hone as [->| ->]; reflexivity. }
    rewrite Hchk. rewrite <- Hsrc.
    apply String.eqb_neq in Huser. rewrite Huser.
    rewrite (bind_Returns _ _ _ _ _ Hget). cbv iota beta.
    fold feedback.
    erewrite bind_Returns;
      [|erewrite bind_Returns; [|exact Hupd]; cbn [snd fst]; reflexivity].
    cbv iota beta.
    rewrite (bind_Returns _ _ _ _ _ Hrate).
    rewrite (bind_Returns _ _ _ _ _ Hinv).
    rewrite (bind_Returns _ _ _ _ _ Hread).
    destruct res; reflexivity. }
  destruct Hrun as [response [Hrun Hok]].
  exists response, w2. split; [exact Hrun|]. split; [exact Hok|]. split.
  - rewrite Hfb. cbn [server_feedback set_server_stats set_server_feedback w'].
    apply update_first_length.
  - unfold stored_rating in *. rewrite Hst. exact Hsr'.
Qed.

Lemma rating_again_counts_again_witness :
  exists response w1,
    VPHandlers.SubmitFeedbackHandler Scenario.rate_foo (Some Scenario.five_stars)
      Scenario.rated_world = Returns response w1
    /\ VPHandlers.StatusCode response = VPHandlers.StatusOK
    /\ List.length (server_feedback w1) = 1%nat
    /\ snd (stored_rating "foo" "REGISTRY" w1) = 1.
Proof.
  destruct (rating_again_counts_again Scenario.rated_world Scenario.rate_foo
              Scenario.five_stars "foo" "foo" "REGISTRY" Scenario.feedback_f1 0%float 0)
    as [response [w1 [Hrun [Hok [Hlen Hsr]]]]].
  - reflexivity.
  - vm_compute. lia.
  - reflexivity.
  - discriminate.
  - reflexivity.
  - vm_compute. lia.
  - reflexivity.
  - now left.
  - discriminate.
  - reflexivity.
  - reflexivity.
  - discriminate.
  - reflexivity.
  - reflexivity.
  - reflexivity.
  - split; [vm_compute; discriminate|reflexivity].
  - exists response, w1. split; [exact Hrun|]. split; [exact Hok|].
    split; [exact Hlen|]. rewrite Hsr. reflexivity.
Defined.

(** ** Repository URLs *)

Section RepoURL.
Import gostrings.

Lemma contains_bytes_unfold (sub l : list ascii) :
  contains_bytes sub l
  = match strip_prefix sub l with
    | Some _ => true
    | None => match l with [] => false | _ :: l' => contains_bytes sub l' end
    end.
Proof. now destruct l. Qed.

Lemma contains_bytes_found (sub pre post : list ascii) :
  contains_bytes sub (pre ++ sub ++ post) = true.
Proof.
  induction pre as [|c pre IH].
  - simpl. rewrite contains_bytes_unfold. now rewrite strip_prefix_app.
  - rewrite contains_bytes_unfold. simpl. now destruct (strip_prefix sub _).
Qed.

Lemma suffix_app (a s : string) :
  HasSuffix (a +:+ s) s = true /\ TrimSuffix (a +:+ s) s = a.
Proof.
  unfold HasSuffix, TrimSuffix. rewrite bytes_app, rev_app_distr, strip_prefix_app.
  split; [reflexivity|]. rewrite rev_involutive. apply string_of_list_ascii_of_string.
Qed.

(** The parts of [scheme://github.com/owner/repo]. *)
Lemma github_url_parts (owner repo : string) :
  Contains owner "/" = false -> Contains repo "/" = false ->
  Split ("https://github.com/" +:+ owner +:+ String "/" repo) "/"
  = ["https:"; ""; "github.com"; owner; repo]
  /\ Contains ("https://github.com/" +:+ owner +:+ String "/" repo) "github.com" = true.
Proof.
  intros Ho Hr. split.
  - change ("https://github.com/" +:+ owner +:+ String "/" repo)
      with ("https:" +:+ String "/" ("" +:+ String "/"
              ("github.com" +:+ String "/" (owner +:+ String "/" repo)))).
    rewrite (proj2 (Split_segment "https:" _ eq_refl)).
    rewrite (proj2 (Split_segment "" _ eq_refl)).
    rewrite (proj2 (Split_segment "github.com" _ eq_refl)).
    rewrite (proj2 (Split_segment owner _ Ho)).
    now rewrite (proj1 (Split_segment repo "" Hr)).
  - unfold Contains. rewrite bytes_app.
    change (bytes "https://github.com/") with (bytes "https://" ++ bytes "github.com" ++ ["/"%char])%list.
    rewrite <- !app_assoc. apply contains_bytes_found.
Qed.

End RepoURL.

(** X25: the owner and the repository of a GitHub URL. For
    [https://github.com/<owner>/<repo>], owner and repo holding no
    slash, [extractOwnerFromRepo] returns the owner and
    [extractRepoFromRepo] the repo, less one [.git] at its end if there
    is one. The same URL without its scheme has three parts only, and
    both functions return the empty string for it. *)
Theorem github_url_owner_and_repo (owner repo : string) :
  gostrings.Contains owner "/" = false -> gostrings.Contains repo "/" = false ->
  handlers.extractOwnerFromRepo ("https://github.com/" +:+ owner +:+ "/" +:+ repo) = owner
  /\ handlers.extractRepoFromRepo ("https://github.com/" +:+ owner +:+ "/" +:+ repo)
     = gostrings.TrimSuffix repo ".git"
  /\ handlers.extractRepoFromRepo
       ("https://github.com/" +:+ owner +:+ "/" +:+ repo +:+ ".git") = repo
  /\ handlers.extractOwnerFromRepo ("github.com/" +:+ owner +:+ "/" +:+ repo) = ""
  /\ handlers.extractRepoFromRepo ("github.com/" +:+ owner +:+ "/" +:+ repo) = "".
Proof.
  intros Ho Hr.
  destruct (github_url_parts owner repo Ho Hr) as [Hs Hc].
  assert (Hgit : gostrings.Contains (repo +:+ ".git") "/" = false).
  { unfold gostrings.Contains in *. rewrite bytes_app.
    change (gostrings.bytes "/") with ["/"%char] in *.
    pose proof (no_slash_bytes repo Hr) as Hb.
    rewrite (contains_bytes_skip "/"%char [] _ _ Hb). reflexivity. }
  destruct (github_url_parts owner (repo +:+ ".git") Ho Hgit) as [Hs' Hc'].
  assert (Hbare : gostrings.Split ("github.com/" +:+ owner +:+ "/" +:+ repo) "/"
                  = ["github.com"; owner; repo]).
  { change ("github.com/" +:+ owner +:+ "/" +:+ repo)
      with ("github.com" +:+ String "/" (owner +:+ String "/" repo)).
    rewrite (proj2 (Split_segment "github.com" _ eq_refl)).
    rewrite (proj2 (Split_segment owner _ Ho)).
    now rewrite (proj1 (Split_segment repo "" Hr)). }
  unfold handlers.extractOwnerFromRepo, handlers.extractRepoFromRepo.
  change ("/" +:+ repo) with (String "/" repo).
  change ("/" +:+ repo +:+ ".git") with (String "/" (repo +:+ ".git")).
  rewrite Hs, Hc, Hs', Hc'.
  change ("github.com/" +:+ owner +:+ String "/" repo)
    with ("github.com/" +:+ owner +:+ "/" +:+ repo).
  rewrite Hbare. cbn [List.length Nat.leb andb Nat.sub nth].
  repeat split.
  - unfold gostrings.HasSuffix, gostrings.TrimSuffix.
    now destruct (gostrings.strip_prefix _ _).
  - destruct (suffix_app repo ".git") as [H1 H2]. now rewrite H1, H2.
Qed.

Lemma github_url_owner_and_repo_witness :
  handlers.extractOwnerFromRepo "https://github.com/acme/tool.git" = "acme"
  /\ handlers.extractRepoFromRepo "https://github.com/acme/tool.git" = "tool".
Proof.
  destruct (github_url_owner_and_repo "acme" "tool.git" eq_refl eq_refl) as [Ho [Hr _]].
  split; [exact Ho|exact Hr].
Defined.

(** ** The bounds of a rating *)

Section RatingBounds.

Ltac compare_all :=
  repeat match goal with
    | H : context [(?x ?= ?y)%Z] |- _ => destruct (Z.compare_spec x y); simpl in H
    | |- context [(?x ?= ?y)%Z] => destruct (Z.compare_spec x y); simpl
    | H : context [(?x ?= ?y)%positive] |- _ => destruct (Pos.compare_spec x y); simpl in H
    | |- context [(?x ?= ?y)%positive] => destruct (Pos.compare_spec x y); simpl
    end.

(** On numbers, [a < b] fails exactly when [b <= a]. *)
Lemma SFltb_false_iff (a b : spec_float) :
  SFnan a = false -> SFnan b = false ->
  (SFltb a b = false <-> SFleb b a = true).
Proof.
  unfold SFltb, SFleb.
  destruct a as [sa|sa| |sa ma ea], b as [sb|sb| |sb mb eb];
    simpl; intros Ha Hb; try discriminate;
    try (destruct sa); try (destruct sb); simpl;
    try (split; intros; (reflexivity || discriminate));
    change (Pos.compare_cont Eq) with Pos.compare in *;
    compare_all; subst; split; intros; try reflexivity; try discriminate; try lia.
Qed.

Lemma SFleb_nan (a b : spec_float) :
  SFnan a = true \/ SFnan b = true -> SFleb a b = false /\ SFltb a b = false.
Proof.
  unfold SFleb, SFltb. intros [H|H].
  - destruct a; try discriminate. split; reflexivity.
  - destruct b; try discriminate. destruct a; split; reflexivity.
Qed.

End RatingBounds.

(** X30: the ratings that pass validation. [validateRating], and the
    same test in [SubmitFeedbackHandler] and [UpdateFeedbackHandler],
    accept a rating exactly when it lies between 1 and 5, both included,
    or is not a number: a NaN is below nothing and above nothing. *)
Theorem validateRating_bounds (rating : float) :
  (handlers.validateRating rating = None
   <-> PrimFloat.is_nan rating = true
       \/ (PrimFloat.leb 1 rating = true /\ PrimFloat.leb rating 5 = true))
  /\ (VPHandlers.rating_out_of_range rating = false
      <-> handlers.validateRating rating = None).
Proof.
  assert (H1 : SFnan (Prim2SF 1) = false) by (rewrite <- is_nan_spec; reflexivity).
  assert (H5 : SFnan (Prim2SF 5) = false) by (rewrite <- is_nan_spec; reflexivity).
  unfold handlers.validateRating, VPHandlers.rating_out_of_range.
  split.
  - rewrite is_nan_spec, !FloatAxioms.ltb_spec, !FloatAxioms.leb_spec.
    destruct (SFnan (Prim2SF rating)) eqn:Hn.
    + destruct (SFleb_nan (Prim2SF rating) (Prim2SF 1) (or_introl Hn)) as [_ Ha].
      destruct (SFleb_nan (Prim2SF 5) (Prim2SF rating) (or_intror Hn)) as [_ Hb].
      rewrite Ha, Hb. simpl. split; [now left|reflexivity].
    + pose proof (SFltb_false_iff (Prim2SF rating) (Prim2SF 1) Hn H1) as Ha.
      pose proof (SFltb_false_iff (Prim2SF 5) (Prim2SF rating) H5 Hn) as Hb.
      destruct (SFltb (Prim2SF rating) (Prim2SF 1)) eqn:Ea;
        destruct (SFltb (Prim2SF 5) (Prim2SF rating)) eqn:Eb; simpl; split.
      * discriminate.
      * intros [H|[Hx Hy]]; [discriminate|]. apply Ha in Hx. discriminate.
      * discriminate.
      * intros [H|[Hx Hy]]; [discriminate|]. apply Ha in Hx. discriminate.
      * discriminate.
      * intros [H|[Hx Hy]]; [discriminate|]. apply Hb in Hy. discriminate.
      * intros _. right. split; [now apply Ha|now apply Hb].
      * reflexivity.
  - destruct (_ || _)%bool; split; intros; (reflexivity || discriminate).
Qed.
